(** * Session layer and action guards of the SaaS starter

    A shallow embedding of [lib/auth/session.ts], [lib/auth/middleware.ts]
    and the server actions (sign-in, sign-up, sign-out, password, account
    and team actions), together with the contracts of the libraries they
    call: jose (signed tokens), the Next.js cookie store, [redirect], zod
    and the Prisma client over the tables of the migration.

    Asynchronous functions are computations over an explicit [World]
    (clock, cookie store, database, console) that return, throw or
    redirect. *)

From Stdlib Require Import ZArith Lia Ascii String.
From stdpp Require Import base gmap strings list pretty.

Local Open Scope Z_scope.

(** ** Enumerations of the migration *)

Inductive UserRole := MEMBER | ADMIN.

Inductive ActivityType :=
  | EMAIL_SIGN_UP | LINK_GITHUB_ACCOUNT | LINK_GOOGLE_ACCOUNT
  | EMAIL_SIGN_IN | GITHUB_SIGN_IN | GOOGLE_SIGN_IN | SIGN_OUT
  | UPDATE_PASSWORD | DELETE_ACCOUNT | UPDATE_ACCOUNT | CREATE_TEAM
  | REMOVE_TEAM_MEMBER | INVITE_TEAM_MEMBER | ACCEPT_INVITATION.

Inductive InvitationStatus := PENDING | ACCEPTED | REJECTED.

#[global] Instance UserRole_eq_dec : EqDecision UserRole.
Proof. solve_decision. Defined.

#[global] Instance ActivityType_eq_dec : EqDecision ActivityType.
Proof. solve_decision. Defined.

#[global] Instance InvitationStatus_eq_dec : EqDecision InvitationStatus.
Proof. solve_decision. Defined.

(** ** JavaScript values the code handles *)

(** A [Date] is a time value in milliseconds since the epoch, or the
    invalid date that [new Date(s)] yields on a string it cannot read. *)
Inductive Date := DateOf (ms : Z) | InvalidDate.

(** [24 * 60 * 60 * 1000] *)
Definition ONE_DAY_MS : Z := 24 * 60 * 60 * 1000.

(** ** Session payload ([session.ts]) *)

Record UserData := {
  userId : string;
  teamId : string;
  userRole : UserRole;
}.

(** [type SessionData = UserData & { expires: string }] *)
Record SessionData := {
  userData :> UserData;
  expires : string;
}.

(** ** Signed tokens (contract of jose)

    A compact token is the triple of protected header, claims and
    signature segment; any other cookie text is [Opaque].  The claims are
    the session payload plus the registered claims [iat] and [exp], in
    seconds. *)

Record JWTHeader := { alg : string }.

Record JWTPayload := {
  session : SessionData;
  iat : option Z;
  exp : option Z;
}.

Inductive Token :=
  | Compact (header : JWTHeader) (claims : JWTPayload) (signature : string)
  | Opaque (raw : string).

Inductive JOSEError :=
  | JWSInvalid
  | JOSEAlgNotAllowed
  | JWSSignatureVerificationFailed
  | JWTExpired.

(** ** Primitives of the platform

    The keyed MAC behind the [HS*] algorithms, the two directions of the
    ISO-8601 rendering of dates, bcrypt, the identifier generator of the
    database client and the e-mail pattern of zod are taken as they come. *)
Class Platform := {
  AUTH_SECRET : string;
  mac : string -> string -> JWTHeader -> JWTPayload -> string;
  toISOString : Z -> string;
  Date_of_string : string -> Date;
  bcrypt_hash : string -> Z -> string;
  bcrypt_compare : string -> string -> bool;
  cuid : nat -> string;
  isEmail : string -> bool;
}.

(** ** Exceptions and outcomes *)

Inductive Exception :=
  | Error (msg : string)
  | JOSE (e : JOSEError)
  | PrismaError (code : string)
  | TypeError (msg : string).

(** An asynchronous call settles by returning, by throwing, or by the
    navigation that [redirect] triggers. *)
Inductive Outcome (A : Type) :=
  | Returned (a : A)
  | Thrown (e : Exception)
  | Redirected (url : string).

Arguments Returned {A} a.
Arguments Thrown {A} e.
Arguments Redirected {A} url.

(** ** Cookie store *)

Module Cookie.
Record t := mk {
  value : Token;
  expires : Date;
  httpOnly : bool;
  secure : bool;
  sameSite : string;
}.
End Cookie.

(** ** Tables of the migration (the columns the code reads or writes) *)

Module User.
Record t := mk {
  id : string;
  name : option string;
  email : string;
  passwordHash : option string;
  createdAt : Z;
  deletedAt : option Z;
}.
End User.

Module Team.
Record t := mk {
  id : string;
  name : string;
  createdAt : Z;
}.
End Team.

Module TeamMember.
Record t := mk {
  id : string;
  userId : string;
  teamId : string;
  role : UserRole;
  createdAt : Z;
}.
End TeamMember.

Module ActivityLog.
Record t := mk {
  id : string;
  teamId : string;
  userId : option string;
  action : ActivityType;
  ipAddress : option string;
  createdAt : Z;
}.
End ActivityLog.

Module Invitation.
Record t := mk {
  id : string;
  teamId : string;
  invitedBy : string;
  email : string;
  role : UserRole;
  status : InvitationStatus;
  createdAt : Z;
}.
End Invitation.

Record Database := {
  users : list User.t;
  teams : list Team.t;
  teamMembers : list TeamMember.t;
  activityLogs : list ActivityLog.t;
  invitations : list Invitation.t;
}.

(** ** The world an action runs in *)

Record World := {
  clock : Z;                          (* Date.now() *)
  cookies : gmap string Cookie.t;     (* cookies() *)
  db : Database;                      (* prisma *)
  console : list string;              (* console.error *)
  idCounter : nat;                    (* identifiers handed out so far *)
}.

Definition Async (A : Type) : Type := World -> Outcome A * World.

Definition ret {A} (a : A) : Async A := fun w => (Returned a, w).

Definition throw {A} (e : Exception) : Async A := fun w => (Thrown e, w).

(** [redirect(url)] of next/navigation: control never comes back. *)
Definition redirect {A} (url : string) : Async A := fun w => (Redirected url, w).

Definition bind {A B} (m : Async A) (k : A -> Async B) : Async B :=
  fun w =>
    match m w with
    | (Returned a, w') => k a w'
    | (Thrown e, w') => (Thrown e, w')
    | (Redirected u, w') => (Redirected u, w')
    end.

Notation "'let*' x ':=' m 'in' k" := (bind m (fun x => k))
  (at level 10, x name, m at level 100, k at level 200).

Definition Date_now : Async Z := fun w => (Returned (clock w), w).

Definition with_cookies (f : gmap string Cookie.t -> gmap string Cookie.t)
    (w : World) : World :=
  {| clock := clock w; cookies := f (cookies w); db := db w;
     console := console w; idCounter := idCounter w |}.

Definition with_db (f : Database -> Database) (w : World) : World :=
  {| clock := clock w; cookies := cookies w; db := f (db w);
     console := console w; idCounter := idCounter w |}.

(** Time passing between two calls. *)
Definition elapse (d : Z) (w : World) : World :=
  {| clock := clock w + d; cookies := cookies w; db := db w;
     console := console w; idCounter := idCounter w |}.

Definition cookies_get (name : string) : Async (option Cookie.t) :=
  fun w => (Returned (cookies w !! name), w).

Definition cookies_set (name : string) (c : Cookie.t) : Async unit :=
  fun w => (Returned tt, with_cookies (insert name c) w).

Definition cookies_delete (name : string) : Async unit :=
  fun w => (Returned tt, with_cookies (delete name) w).

Definition console_error (line : string) : Async unit :=
  fun w => (Returned tt,
            {| clock := clock w; cookies := cookies w; db := db w;
               console := console w ++ [line]; idCounter := idCounter w |}).

(** A call that is started and whose promise is kept for later: its
    effects happen now, its settlement is a value. *)
Definition spawn {A} (m : Async A) : Async (Outcome A) :=
  fun w => let '(r, w') := m w in (Returned r, w').

(** [await p] on a settled promise. *)
Definition await {A} (p : Outcome A) : Async A := fun w => (p, w).

(** [await Promise.all(ps)] for promises of no value: the first rejection
    in the array, if any. *)
Fixpoint Promise_all (ps : list (Outcome unit)) : Async unit :=
  match ps with
  | [] => ret tt
  | Returned _ :: ps' => Promise_all ps'
  | Thrown e :: _ => throw e
  | Redirected u :: _ => redirect u
  end.

(** ** jose *)

Section Jose.
Context `{Platform}.

(** Seconds since the epoch of a time value: [Math.floor(ms / 1000)]. *)
Definition epoch (ms : Z) : Z := ms / 1000.

(** The span that jose reads in ["1 day from now"], in seconds. *)
Definition one_day_from_now : Z := 86400.

(** The builder [new SignJWT(payload)] and its setters. *)
Record SignJWT := {
  jwt_claims : JWTPayload;
  jwt_header : option JWTHeader;
}.

Definition new_SignJWT (payload : SessionData) : SignJWT :=
  {| jwt_claims := {| session := payload; iat := None; exp := None |};
     jwt_header := None |}.

Definition setProtectedHeader (h : JWTHeader) (b : SignJWT) : SignJWT :=
  {| jwt_claims := jwt_claims b; jwt_header := Some h |}.

Definition setIssuedAt (now : Z) (b : SignJWT) : SignJWT :=
  {| jwt_claims := {| session := session (jwt_claims b);
                      iat := Some (epoch now);
                      exp := exp (jwt_claims b) |};
     jwt_header := jwt_header b |}.

Definition setExpirationTime (now span : Z) (b : SignJWT) : SignJWT :=
  {| jwt_claims := {| session := session (jwt_claims b);
                      iat := iat (jwt_claims b);
                      exp := Some (epoch now + span) |};
     jwt_header := jwt_header b |}.

(** [.sign(key)]: the signature is the MAC of header and claims under
    the algorithm the header declares; a builder without protected header
    is refused. *)
Definition sign (key : string) (b : SignJWT) : JOSEError + Token :=
  match jwt_header b with
  | None => inl JWSInvalid
  | Some h => inr (Compact h (jwt_claims b) (mac (alg h) key h (jwt_claims b)))
  end.

(** [jwtVerify(jwt, key, { algorithms })] at time [now]: the token must
    be compact, its declared algorithm must be one of [algorithms], its
    signature must be the MAC of its header and claims under that
    algorithm, and its [exp], when present, must lie in the future. *)
Definition jwtVerify (jwt : Token) (key : string) (algorithms : list string)
    (now : Z) : JOSEError + JWTPayload :=
  match jwt with
  | Opaque _ => inl JWSInvalid
  | Compact h p sig =>
      if negb (bool_decide (alg h ∈ algorithms)) then inl JOSEAlgNotAllowed
      else if negb (String.eqb sig (mac (alg h) key h p))
      then inl JWSSignatureVerificationFailed
      else match exp p with
           | Some e => if e <=? epoch now then inl JWTExpired else inr p
           | None => inr p
           end
  end.
End Jose.

(** ** [lib/auth/session.ts] *)

Section Session.
Context `{Platform}.

(** [new TextEncoder().encode(process.env.AUTH_SECRET)] *)
Definition key : string := AUTH_SECRET.

Definition SALT_ROUNDS : Z := 10.

Definition hashPassword (password : string) : Async string :=
  ret (bcrypt_hash password SALT_ROUNDS).

Definition comparePasswords (plainTextPassword hashedPassword : string)
    : Async bool :=
  ret (bcrypt_compare plainTextPassword hashedPassword).

Definition signToken (payload : SessionData) : Async Token :=
  let* now := Date_now in
  match sign key
          (setExpirationTime now one_day_from_now
             (setIssuedAt now
                (setProtectedHeader {| alg := "HS256" |}
                   (new_SignJWT payload)))) with
  | inr t => ret t
  | inl e => throw (JOSE e)
  end.

Definition verifyToken (input : Token) : Async SessionData :=
  let* now := Date_now in
  match jwtVerify input key ["HS256"%string] now with
  | inr payload => ret (session payload)
  | inl e => throw (JOSE e)
  end.

(** [!session] on the cookie text: only the empty string is falsy. *)
Definition falsy (t : Token) : bool :=
  match t with
  | Opaque EmptyString => true
  | _ => false
  end.

Definition getSession : Async (option SessionData) :=
  let* c := cookies_get "session" in
  match c with
  | None => ret None
  | Some c =>
      if falsy (Cookie.value c) then ret None
      else let* s := verifyToken (Cookie.value c) in ret (Some s)
  end.

Definition setSession (userData : UserData) : Async unit :=
  let* now := Date_now in
  let expiresInOneDay := now + ONE_DAY_MS in
  let session :=
    {| userData := userData; expires := toISOString expiresInOneDay |} in
  let* encryptedSession := signToken session in
  cookies_set "session"
    {| Cookie.value := encryptedSession;
       Cookie.expires := DateOf expiresInOneDay;
       Cookie.httpOnly := true;
       Cookie.secure := true;
       Cookie.sameSite := "lax" |}.

Definition updateSession (userData : UserData) : Async unit :=
  let* exstingSession := getSession in
  match exstingSession with
  | None => setSession userData
  | Some existing =>
      let session :=
        {| userData := userData; expires := expires existing |} in
      let* encryptedSession := signToken session in
      cookies_set "session"
        {| Cookie.value := encryptedSession;
           Cookie.expires := Date_of_string (expires existing);
           Cookie.httpOnly := true;
           Cookie.secure := true;
           Cookie.sameSite := "lax" |}
  end.
End Session.

(** ** The Prisma client over the tables *)

(** [where] clauses: an absent field does not filter; on a nullable column
    [Some None] is the filter [null]. *)
Record UserWhere := {
  where_id : option string;
  where_email : option string;
  where_deletedAt : option (option Z);
}.

Record InvitationWhere := {
  iwhere_id : option string;
  iwhere_email : option string;
  iwhere_status : option InvitationStatus;
}.

Definition filter_on {A} `{EqDecision A} (f : option A) (x : A) : bool :=
  match f with
  | None => true
  | Some v => bool_decide (x = v)
  end.

Definition user_matches (q : UserWhere) (u : User.t) : bool :=
  filter_on (where_id q) (User.id u)
  && filter_on (where_email q) (User.email u)
  && filter_on (where_deletedAt q) (User.deletedAt u).

Definition invitation_matches (q : InvitationWhere) (i : Invitation.t) : bool :=
  filter_on (iwhere_id q) (Invitation.id i)
  && filter_on (iwhere_email q) (Invitation.email i)
  && filter_on (iwhere_status q) (Invitation.status i).

Definition has_user (id : string) (d : Database) : bool :=
  existsb (fun u => String.eqb (User.id u) id) (users d).

Definition has_team (id : string) (d : Database) : bool :=
  existsb (fun t => String.eqb (Team.id t) id) (teams d).

Definition team_by_id (id : string) (d : Database) : option Team.t :=
  List.find (fun t => String.eqb (Team.id t) id) (teams d).

(** A [VARCHAR(n)] column takes at most [n] characters; the client
    reports a longer value as error P2000.  The widths are those of the
    migration: 255 for [User.email] and [Invitation.email], 100 for
    [User.name] and [Team.name], 45 for [ActivityLog.ipAddress].  The
    values that the actions write there are addresses that passed the
    e-mail check of zod, which are plain ASCII without blanks, such an
    address followed by ["-deleted"], a name of at most 100 UTF-16 units
    and two constants; for these the length of the string is the number
    of characters that the column counts.  (PostgreSQL cuts blanks that
    exceed the width instead of refusing them; none of these values ends
    in a blank.) *)
Definition too_long (n : nat) (s : string) : bool :=
  (n <? String.length s)%nat.

Section Prisma.
Context `{Platform}.

(** Identifiers are made by the client, one per created row. *)
Definition fresh_id : Async string :=
  fun w => (Returned (cuid (idCounter w)),
            {| clock := clock w; cookies := cookies w; db := db w;
               console := console w; idCounter := S (idCounter w) |}).

(** [prisma.user.findFirst({ where })] *)
Definition user_findFirst (q : UserWhere) : Async (option User.t) :=
  fun w => (Returned (List.find (user_matches q) (users (db w))), w).

(** [prisma.team.findFirst({ where: { id } })] *)
Definition team_findFirst (id : string) : Async (option Team.t) :=
  fun w => (Returned (team_by_id id (db w)), w).

(** [prisma.user.create({ data: { email, passwordHash } })]; the column
    refuses an address of more than 255 characters, and the unique index
    on [email] a second row with the same address. *)
Definition user_create (email : string) (passwordHash : option string)
    : Async User.t :=
  let* id := fresh_id in
  fun w =>
    if too_long 255 email then (Thrown (PrismaError "P2000"), w)
    else if existsb (fun u => String.eqb (User.email u) email) (users (db w))
    then (Thrown (PrismaError "P2002"), w)
    else
      let u := {| User.id := id; User.name := None; User.email := email;
                  User.passwordHash := passwordHash;
                  User.createdAt := clock w; User.deletedAt := None |} in
      (Returned u,
       with_db (fun d => {| users := users d ++ [u]; teams := teams d;
                            teamMembers := teamMembers d;
                            activityLogs := activityLogs d;
                            invitations := invitations d |}) w).

(** [prisma.team.create({ data: { name } })]; the column refuses a name
    of more than 100 characters. *)
Definition team_create (name : string) : Async Team.t :=
  let* id := fresh_id in
  fun w =>
    if too_long 100 name then (Thrown (PrismaError "P2000"), w)
    else
      let t := {| Team.id := id; Team.name := name;
                  Team.createdAt := clock w |} in
      (Returned t,
       with_db (fun d => {| users := users d; teams := teams d ++ [t];
                            teamMembers := teamMembers d;
                            activityLogs := activityLogs d;
                            invitations := invitations d |}) w).

(** [prisma.teamMember.create({ data })]; both foreign keys are
    checked. *)
Definition teamMember_create (userId teamId : string) (role : UserRole)
    : Async TeamMember.t :=
  let* id := fresh_id in
  fun w =>
    if negb (has_user userId (db w) && has_team teamId (db w))
    then (Thrown (PrismaError "P2003"), w)
    else
      let m := {| TeamMember.id := id; TeamMember.userId := userId;
                  TeamMember.teamId := teamId; TeamMember.role := role;
                  TeamMember.createdAt := clock w |} in
      (Returned m,
       with_db (fun d => {| users := users d; teams := teams d;
                            teamMembers := teamMembers d ++ [m];
                            activityLogs := activityLogs d;
                            invitations := invitations d |}) w).

(** [prisma.activityLog.create({ data })]; the column refuses an address
    of more than 45 characters; the team must exist, and the user when one
    is given. *)
Definition activityLog_create (teamId : string) (userId : option string)
    (action : ActivityType) (ipAddress : option string)
    : Async ActivityLog.t :=
  let* id := fresh_id in
  fun w =>
    if match ipAddress with
       | Some ip => too_long 45 ip
       | None => false
       end
    then (Thrown (PrismaError "P2000"), w)
    else if negb (has_team teamId (db w)
             && match userId with
                | Some u => has_user u (db w)
                | None => true
                end)
    then (Thrown (PrismaError "P2003"), w)
    else
      let l := {| ActivityLog.id := id; ActivityLog.teamId := teamId;
                  ActivityLog.userId := userId;
                  ActivityLog.action := action;
                  ActivityLog.ipAddress := ipAddress;
                  ActivityLog.createdAt := clock w |} in
      (Returned l,
       with_db (fun d => {| users := users d; teams := teams d;
                            teamMembers := teamMembers d;
                            activityLogs := activityLogs d ++ [l];
                            invitations := invitations d |}) w).

(** [prisma.invitation.findFirst({ where, include: { team: true } })]:
    the row together with the team it points to; a row whose required
    team is missing is an inconsistent result, which the client
    refuses. *)
Definition invitation_findFirst_with_team (q : InvitationWhere)
    : Async (option (Invitation.t * Team.t)) :=
  fun w =>
    match List.find (invitation_matches q) (invitations (db w)) with
    | None => (Returned None, w)
    | Some i =>
        match team_by_id (Invitation.teamId i) (db w) with
        | Some t => (Returned (Some (i, t)), w)
        | None => (Thrown (PrismaError "inconsistent query result"), w)
        end
    end.

Definition set_status (s : InvitationStatus) (i : Invitation.t)
    : Invitation.t :=
  {| Invitation.id := Invitation.id i;
     Invitation.teamId := Invitation.teamId i;
     Invitation.invitedBy := Invitation.invitedBy i;
     Invitation.email := Invitation.email i;
     Invitation.role := Invitation.role i;
     Invitation.status := s;
     Invitation.createdAt := Invitation.createdAt i |}.

(** [prisma.invitation.update({ where: { id }, data: { status } })] *)
Definition invitation_update (id : string) (s : InvitationStatus)
    : Async unit :=
  fun w =>
    if existsb (fun i => String.eqb (Invitation.id i) id)
         (invitations (db w))
    then
      (Returned tt,
       with_db (fun d =>
         {| users := users d; teams := teams d;
            teamMembers := teamMembers d;
            activityLogs := activityLogs d;
            invitations :=
              map (fun i => if String.eqb (Invitation.id i) id
                            then set_status s i else i)
                  (invitations d) |}) w)
    else (Thrown (PrismaError "P2025"), w).

(** [prisma.user.findFirst({ where, include: { teams: { include:
    { team: true } } } })]: the user with its memberships, each with
    its team. *)
Fixpoint with_team (d : Database) (ms : list TeamMember.t)
    : option (list (TeamMember.t * Team.t)) :=
  match ms with
  | [] => Some []
  | m :: ms' =>
      match team_by_id (TeamMember.teamId m) d, with_team d ms' with
      | Some t, Some r => Some ((m, t) :: r)
      | _, _ => None
      end
  end.

Definition user_findFirst_with_teams (q : UserWhere)
    : Async (option (User.t * list (TeamMember.t * Team.t))) :=
  fun w =>
    match List.find (user_matches q) (users (db w)) with
    | None => (Returned None, w)
    | Some u =>
        match with_team (db w)
                (List.filter
                   (fun m => String.eqb (TeamMember.userId m) (User.id u))
                   (teamMembers (db w))) with
        | Some ts => (Returned (Some (u, ts)), w)
        | None => (Thrown (PrismaError "inconsistent query result"), w)
        end
    end.
End Prisma.

(** ** Form data and zod *)

(** A submitted form: its entries in order (text fields only). *)
Definition FormData : Type := list (string * string).

(** [Object.fromEntries(formData)]: a later entry of the same name
    replaces an earlier one. *)
Definition Object_fromEntries (formData : FormData) : gmap string string :=
  foldl (fun (o : gmap string string) '(k, v) => <[k := v]> o) ∅ formData.

(** [formData.get(name)]: the first entry of that name, or [null]. *)
Fixpoint FormData_get (formData : FormData) (name : string) : option string :=
  match formData with
  | [] => None
  | (k, v) :: rest =>
      if String.eqb k name then Some v else FormData_get rest name
  end.

Record ZodIssue := {
  message : string;
  path : list string;
}.

(** The result of [schema.safeParse]: a failure carries at least one
    issue, so [result.error.errors[0]] is always there. *)
Inductive SafeParseResult (D : Type) :=
  | ParseSuccess (data : D)
  | ParseFailure (first : ZodIssue) (rest : list ZodIssue).

Arguments ParseSuccess {D} data.
Arguments ParseFailure {D} first rest.

(** A schema, seen through [safeParse] on the object of a form. *)
Definition ZodType (D : Type) : Type := gmap string string -> SafeParseResult D.

Section Zod.
Context `{Platform}.

Inductive StringCheck :=
  | ck_email
  | ck_min (n : nat)
  | ck_max (n : nat).

Definition check_message (c : StringCheck) (s : string) : option string :=
  match c with
  | ck_email => if isEmail s then None else Some "Invalid email"%string
  | ck_min n =>
      if (n <=? String.length s)%nat then None
      else Some ("String must contain at least " +:+ pretty n
                 +:+ " character(s)")
  | ck_max n =>
      if (String.length s <=? n)%nat then None
      else Some ("String must contain at most " +:+ pretty n
                 +:+ " character(s)")
  end.

Definition FieldResult (A : Type) : Type := (ZodIssue * list ZodIssue) + A.

Definition ZodField (A : Type) : Type :=
  list string -> option string -> FieldResult A.

(** [z.string()] followed by its checks, in order. *)
Definition z_string (checks : list StringCheck) : ZodField string :=
  fun p v =>
    match v with
    | None => inl ({| message := "Required"; path := p |}, [])
    | Some s =>
        match omap (fun c => (fun m => {| message := m; path := p |})
                               <$> check_message c s) checks with
        | [] => inr s
        | i :: rest => inl (i, rest)
        end
    end.

(** [.optional()] *)
Definition z_optional {A} (f : ZodField A) : ZodField (option A) :=
  fun p v =>
    match v with
    | None => inr None
    | Some _ =>
        match f p v with
        | inl e => inl e
        | inr a => inr (Some a)
        end
    end.

Definition z_both {A B} (ra : FieldResult A) (rb : FieldResult B)
    : FieldResult (A * B) :=
  match ra, rb with
  | inr a, inr b => inr (a, b)
  | inl e, inr _ => inl e
  | inr _, inl e => inl e
  | inl (i, r), inl (j, r') => inl (i, r ++ j :: r')
  end.

Definition safeParse_result {A D} (mk : A -> D) (r : FieldResult A)
    : SafeParseResult D :=
  match r with
  | inr a => ParseSuccess (mk a)
  | inl (i, rest) => ParseFailure i rest
  end.

(** [z.object({ ka: fa, kb: fb })] *)
Definition z_object2 {A B D} (ka : string) (fa : ZodField A)
    (kb : string) (fb : ZodField B) (mk : A -> B -> D) : ZodType D :=
  fun o =>
    safeParse_result (fun '(a, b) => mk a b)
      (z_both (fa [ka] (o !! ka)) (fb [kb] (o !! kb))).

(** [z.object({ ka: fa, kb: fb, kc: fc })] *)
Definition z_object3 {A B C D} (ka : string) (fa : ZodField A)
    (kb : string) (fb : ZodField B) (kc : string) (fc : ZodField C)
    (mk : A -> B -> C -> D) : ZodType D :=
  fun o =>
    safeParse_result (fun '(a, b, c) => mk a b c)
      (z_both (z_both (fa [ka] (o !! ka)) (fb [kb] (o !! kb)))
              (fc [kc] (o !! kc))).
End Zod.

(** ** [lib/auth/middleware.ts] *)

(** [type ActionState = { error?: string; success?: string; ... }] *)
Record ActionState := {
  error : option string;
  success : option string;
}.

Module AuthData.
Record t := mk {
  user : User.t;
  userRole : UserRole;
  team : Team.t;
}.
End AuthData.

(** [await Promise.all([a, b])]: both calls are started, then both are
    awaited; the first rejection in the array wins. *)
Definition Promise_all2 {A B} (a : Async A) (b : Async B) : Async (A * B) :=
  let* pa := spawn a in
  let* pb := spawn b in
  let* x := await pa in
  let* y := await pb in
  ret (x, y).

Section Middleware.
Context `{Platform}.

Definition validatedAction {S} (schema : ZodType S)
    (action : S -> FormData -> Async ActionState)
    : ActionState -> FormData -> Async ActionState :=
  fun prevState formData =>
    match schema (Object_fromEntries formData) with
    | ParseFailure first _ =>
        ret {| error := Some (message first); success := None |}
    | ParseSuccess data => action data formData
    end.

Definition validatedActionWithUser {S} (schema : ZodType S)
    (action : S -> FormData -> User.t -> Async ActionState)
    : ActionState -> FormData -> Async ActionState :=
  fun prevState formData =>
    let* session := getSession in
    match session with
    | None => throw (Error "User is not authenticated")
    | Some session =>
        let* user :=
          user_findFirst {| where_id := Some (userId session);
                            where_email := None;
                            where_deletedAt := None |} in
        match user with
        | None => throw (Error "User not found")
        | Some user =>
            match schema (Object_fromEntries formData) with
            | ParseFailure first _ =>
                ret {| error := Some (message first); success := None |}
            | ParseSuccess data => action data formData user
            end
        end
    end.

Definition withAuth {T} (action : FormData -> AuthData.t -> Async T)
    : FormData -> Async T :=
  fun formData =>
    let* session := getSession in
    match session with
    | None => redirect "/sign-in"
    | Some session =>
        let* found :=
          Promise_all2
            (user_findFirst {| where_id := Some (userId session);
                               where_email := None;
                               where_deletedAt := None |})
            (team_findFirst (teamId session)) in
        match found with
        | (Some user, Some team) =>
            action formData
              {| AuthData.user := user; AuthData.team := team;
                 AuthData.userRole := userRole session |}
        | _ => redirect "/sign-in"
        end
    end.
End Middleware.

(** ** The authentication actions *)

(** Modelled from the spec: [createCheckoutSession] lives in
    lib/payments/stripe, which is not among the sources.  The billing
    provider is consumed through an opaque operation that creates a
    checkout session for a team and a price; it may look at the world and
    settles in some way, and it writes neither the cookie store nor the
    tables. *)
Class Billing := {
  createCheckoutSession : Team.t -> option string -> World -> Outcome ActionState;
}.

Record SignInData := {
  signIn_email : string;
  signIn_password : string;
}.

Record SignUpData := {
  signUp_email : string;
  signUp_password : string;
  signUp_inviteId : option string;
}.

Section Actions.
Context `{Platform} `{Billing}.

Definition checkout (team : Team.t) (priceId : option string)
    : Async ActionState :=
  fun w => (createCheckoutSession team priceId w, w).

Definition logActivity (type : ActivityType) (ipAddress : option string)
    : Async unit :=
  let* session := getSession in
  match session with
  | None => console_error "No session data."
  | Some session =>
      let* _ :=
        activityLog_create (teamId session) (Some (userId session)) type
          (Some (match ipAddress with
                 | Some ip => ip
                 | None => EmptyString
                 end)) in
      ret tt
  end.

Definition signInSchema : ZodType SignInData :=
  z_object2
    "email" (z_string [ck_email; ck_min 3; ck_max 255])
    "password" (z_string [ck_min 8; ck_max 100])
    (fun e p => {| signIn_email := e; signIn_password := p |}).

Definition fail (msg : string) : Async ActionState :=
  ret {| error := Some msg; success := None |}.

(** The handler that [signIn] wraps.  In
    [Promise.all([setSession(..), logActivity(..)])] the first call is
    suspended at its first [await], before it writes the cookie, when the
    second one reads the cookie: the log entry is made from the session
    of the incoming request. *)
Definition signIn_handler (data : SignInData) (formData : FormData)
    : Async ActionState :=
  let email := signIn_email data in
  let password := signIn_password data in
  let* userWithTeam :=
    user_findFirst_with_teams
      {| where_id := None; where_email := Some email;
         where_deletedAt := Some None |} in
  match userWithTeam with
  | None => fail "Invalid email or password. Please try again."
  | Some (user, teams) =>
      match User.passwordHash user with
      | None | Some EmptyString => fail "No password set for this email."
      | Some passwordHash =>
          let* isPasswordValid := comparePasswords password passwordHash in
          if negb isPasswordValid
          then fail "Invalid email or password. Please try again."
          else
            match teams with
            | [] =>
                throw (TypeError
                  "Cannot read properties of undefined (reading 'teamId')")
            | (userRole, team) :: _ =>
                let* logged := spawn (logActivity EMAIL_SIGN_IN None) in
                let* stored :=
                  spawn (setSession
                           {| userId := User.id user;
                              teamId := TeamMember.teamId userRole;
                              userRole := TeamMember.role userRole |}) in
                let* _ := await stored in
                let* _ := await logged in
                let redirectTo := FormData_get formData "redirect" in
                if bool_decide (redirectTo = Some "checkout"%string)
                then checkout team (FormData_get formData "priceId")
                else redirect "/dashboard"
            end
      end
  end.

Definition signIn : ActionState -> FormData -> Async ActionState :=
  validatedAction signInSchema signIn_handler.

Definition signUpSchema : ZodType SignUpData :=
  z_object3
    "email" (z_string [ck_email])
    "password" (z_string [ck_min 8])
    "inviteId" (z_optional (z_string []))
    (fun e p i =>
       {| signUp_email := e; signUp_password := p; signUp_inviteId := i |}).

(** The end of [signUp], common to both branches: from [setSession]
    on. *)
Definition signUp_finish (createdUser : User.t) (team : Team.t)
    (logs : list (Outcome unit)) (formData : FormData)
    : Async ActionState :=
  let* _ :=
    setSession {| userId := User.id createdUser;
                  teamId := Team.id team;
                  userRole := ADMIN |} in
  let* signedUp := spawn (logActivity EMAIL_SIGN_UP None) in
  let* _ := Promise_all (logs ++ [signedUp]) in
  let redirectTo := FormData_get formData "redirect" in
  if bool_decide (redirectTo = Some "checkout"%string)
  then checkout team (FormData_get formData "priceId")
  else redirect "/dashboard".

(** The handler that [signUp] wraps. *)
Definition signUp_handler (data : SignUpData) (formData : FormData)
    : Async ActionState :=
  let email := signUp_email data in
  let password := signUp_password data in
  let inviteId := signUp_inviteId data in
  let* existingUser :=
    user_findFirst {| where_id := None; where_email := Some email;
                      where_deletedAt := Some None |} in
  match existingUser with
  | Some _ => fail "Failed to create user. User already exists."
  | None =>
      let* passwordHash := hashPassword password in
      let* createdUser := user_create email (Some passwordHash) in
      match inviteId with
      | Some (String c rest as inviteId) =>
          let* invitation :=
            invitation_findFirst_with_team
              {| iwhere_id := Some inviteId; iwhere_email := Some email;
                 iwhere_status := Some PENDING |} in
          match invitation with
          | None => fail "Invalid or expired invitation."
          | Some (invitation, invitedTo) =>
              let* _ :=
                Promise_all2
                  (teamMember_create (User.id createdUser)
                     (Invitation.teamId invitation)
                     (Invitation.role invitation))
                  (invitation_update (Invitation.id invitation) ACCEPTED) in
              let* accepted := spawn (logActivity ACCEPT_INVITATION None) in
              signUp_finish createdUser invitedTo [accepted] formData
          end
      | _ =>
          let* newTeam := team_create "Personal Account" in
          let* _ :=
            teamMember_create (User.id createdUser) (Team.id newTeam)
              ADMIN in
          let* created := spawn (logActivity CREATE_TEAM None) in
          signUp_finish createdUser newTeam [created] formData
      end
  end.

Definition signUp : ActionState -> FormData -> Async ActionState :=
  validatedAction signUpSchema signUp_handler.

Definition signOut : Async unit :=
  let* _ := logActivity SIGN_OUT None in
  cookies_delete "session".
End Actions.

(** ** The rest of [lib/auth/session.ts] *)

Section SessionUser.
Context `{Platform}.

Definition getUser : Async (option User.t) :=
  let* session := getSession in
  match session with
  | None => ret None
  | Some session =>
      match userId session with
      | EmptyString => ret None
      | _ =>
          user_findFirst {| where_id := Some (userId session);
                            where_email := None;
                            where_deletedAt := None |}
      end
  end.
End SessionUser.

(** ** More of the Prisma client *)

(** The [data] of [prisma.user.update]: an absent field is left as it
    is. *)
Record UserUpdate := {
  set_name : option string;
  set_email : option string;
  set_passwordHash : option string;
  set_deletedAt : option Z;
}.

Definition apply_update (d : UserUpdate) (u : User.t) : User.t :=
  {| User.id := User.id u;
     User.name := match set_name d with
                  | Some n => Some n
                  | None => User.name u
                  end;
     User.email := match set_email d with
                   | Some e => e
                   | None => User.email u
                   end;
     User.passwordHash := match set_passwordHash d with
                          | Some h => Some h
                          | None => User.passwordHash u
                          end;
     User.createdAt := User.createdAt u;
     User.deletedAt := match set_deletedAt d with
                       | Some t => Some t
                       | None => User.deletedAt u
                       end |}.

(** A new name or a new address does not fit its column. *)
Definition over_width (d : UserUpdate) : bool :=
  match set_name d with
  | Some n => too_long 100 n
  | None => false
  end
  || match set_email d with
     | Some e => too_long 255 e
     | None => false
     end.

(** Another row already carries the address. *)
Definition email_taken_by_other (id email : string) (d : Database) : bool :=
  existsb (fun u => negb (String.eqb (User.id u) id)
                    && String.eqb (User.email u) email) (users d).

(** The membership belongs to that user and that team. *)
Definition member_of (userId teamId : string) (m : TeamMember.t) : bool :=
  String.eqb (TeamMember.userId m) userId
  && String.eqb (TeamMember.teamId m) teamId.

(** The membership is in that team and its user carries that address. *)
Definition member_with_email (email teamId : string) (d : Database)
    (m : TeamMember.t) : bool :=
  String.eqb (TeamMember.teamId m) teamId
  && existsb (fun u => String.eqb (User.id u) (TeamMember.userId m)
                       && String.eqb (User.email u) email) (users d).

Definition invitation_in_team (email teamId : string) (s : InvitationStatus)
    (i : Invitation.t) : bool :=
  String.eqb (Invitation.email i) email
  && String.eqb (Invitation.teamId i) teamId
  && bool_decide (Invitation.status i = s).

Section PrismaMore.
Context `{Platform}.

(** [prisma.user.update({ where: { id }, data })]; a missing row is an
    error, and so are a name of more than 100 or an address of more than
    255 characters, and an address that another row carries (unique
    index). *)
Definition user_update (id : string) (data : UserUpdate) : Async User.t :=
  fun w =>
    match List.find (fun u => String.eqb (User.id u) id) (users (db w)) with
    | None => (Thrown (PrismaError "P2025"), w)
    | Some u =>
        if over_width data then (Thrown (PrismaError "P2000"), w)
        else if match set_email data with
           | Some e => email_taken_by_other id e (db w)
           | None => false
           end
        then (Thrown (PrismaError "P2002"), w)
        else
          (Returned (apply_update data u),
           with_db (fun d =>
             {| users := map (fun o => if String.eqb (User.id o) id
                                       then apply_update data o else o)
                             (users d);
                teams := teams d;
                teamMembers := teamMembers d;
                activityLogs := activityLogs d;
                invitations := invitations d |}) w)
    end.

(** [prisma.teamMember.deleteMany({ where: { userId, teamId } })]: the
    number of rows removed. *)
Definition teamMember_deleteMany (userId teamId : string) : Async nat :=
  fun w =>
    (Returned (length (List.filter (member_of userId teamId)
                         (teamMembers (db w)))),
     with_db (fun d =>
       {| users := users d; teams := teams d;
          teamMembers :=
            List.filter (fun m => negb (member_of userId teamId m))
              (teamMembers d);
          activityLogs := activityLogs d;
          invitations := invitations d |}) w).

(** [prisma.teamMember.findFirst({ where: { user: { email }, teamId },
    include: { user: true } })] *)
Definition teamMember_findFirst_by_email (email teamId : string)
    : Async (option TeamMember.t) :=
  fun w =>
    (Returned (List.find (member_with_email email teamId (db w))
                 (teamMembers (db w))), w).

(** [prisma.invitation.findFirst({ where: { email, teamId, status } })] *)
Definition invitation_findFirst_in_team (email teamId : string)
    (s : InvitationStatus) : Async (option Invitation.t) :=
  fun w =>
    (Returned (List.find (invitation_in_team email teamId s)
                 (invitations (db w))), w).

(** [prisma.invitation.create({ data })]; the column refuses an address
    of more than 255 characters, and the team and the inviting user must
    exist. *)
Definition invitation_create (teamId email : string) (role : UserRole)
    (invitedBy : string) (s : InvitationStatus) : Async Invitation.t :=
  let* id := fresh_id in
  fun w =>
    if too_long 255 email then (Thrown (PrismaError "P2000"), w)
    else if negb (has_team teamId (db w) && has_user invitedBy (db w))
    then (Thrown (PrismaError "P2003"), w)
    else
      let i := {| Invitation.id := id; Invitation.teamId := teamId;
                  Invitation.invitedBy := invitedBy;
                  Invitation.email := email; Invitation.role := role;
                  Invitation.status := s;
                  Invitation.createdAt := clock w |} in
      (Returned i,
       with_db (fun d => {| users := users d; teams := teams d;
                            teamMembers := teamMembers d;
                            activityLogs := activityLogs d;
                            invitations := invitations d ++ [i] |}) w).
End PrismaMore.

(** ** More of zod *)

Section ZodMore.
Context `{Platform}.

(** A check with the message the schema gives for it, if any. *)
Definition check_message_with (c : StringCheck) (custom : option string)
    (s : string) : option string :=
  match check_message c s, custom with
  | Some _, Some m => Some m
  | Some m, None => Some m
  | None, _ => None
  end.

(** [z.string()] followed by checks that may carry their own message. *)
Definition z_string_with (checks : list (StringCheck * option string))
    : ZodField string :=
  fun p v =>
    match v with
    | None => inl ({| message := "Required"; path := p |}, [])
    | Some s =>
        match omap (fun '(c, custom) =>
                      (fun m => {| message := m; path := p |})
                        <$> check_message_with c custom s) checks with
        | [] => inr s
        | i :: rest => inl (i, rest)
        end
    end.

Fixpoint join_options (options : list string) : string :=
  match options with
  | [] => EmptyString
  | [o] => "'" +:+ o +:+ "'"
  | o :: rest => "'" +:+ o +:+ "' | " +:+ join_options rest
  end.

(** [z.enum(options)] *)
Definition z_enum (options : list string) : ZodField string :=
  fun p v =>
    match v with
    | None => inl ({| message := "Required"; path := p |}, [])
    | Some s =>
        if bool_decide (s ∈ options) then inr s
        else inl ({| message := "Invalid enum value. Expected "
                                +:+ join_options options
                                +:+ ", received '" +:+ s +:+ "'";
                     path := p |}, [])
    end.

(** [z.object({ ka: fa })] *)
Definition z_object1 {A D} (ka : string) (fa : ZodField A) (mk : A -> D)
    : ZodType D :=
  fun o => safeParse_result mk (fa [ka] (o !! ka)).

(** [schema.refine(check, { message, path })].  The check runs on the
    parsed value, also when checks of the fields have failed, and not when
    a field is missing: [raw] is the value with the fields as submitted,
    when all of them are there. *)
Definition z_refine {D} (schema : ZodType D)
    (raw : gmap string string -> option D) (check : D -> bool)
    (issue : ZodIssue) : ZodType D :=
  fun o =>
    match schema o with
    | ParseSuccess d =>
        if check d then ParseSuccess d else ParseFailure issue []
    | ParseFailure first rest =>
        match raw o with
        | Some d =>
            if check d then ParseFailure first rest
            else ParseFailure first (rest ++ [issue])
        | None => ParseFailure first rest
        end
    end.
End ZodMore.

(** ** The account and team actions *)

Record UpdatePasswordData := {
  currentPassword : string;
  newPassword : string;
  confirmPassword : string;
}.

Record DeleteAccountData := {
  deleteAccount_password : string;
}.

Record UpdateAccountData := {
  updateAccount_name : string;
  updateAccount_email : string;
}.

Record RemoveTeamMemberData := {
  memberId : string;
}.

Record InviteTeamMemberData := {
  invite_email : string;
  invite_role : string;
}.

Definition succeed (msg : string) : Async ActionState :=
  ret {| error := None; success := Some msg |}.

Section AccountActions.
Context `{Platform} `{Billing}.

Definition updatePasswordSchema : ZodType UpdatePasswordData :=
  z_refine
    (z_object3
       "currentPassword" (z_string [ck_min 8; ck_max 100])
       "newPassword" (z_string [ck_min 8; ck_max 100])
       "confirmPassword" (z_string [ck_min 8; ck_max 100])
       (fun c n f => {| currentPassword := c; newPassword := n;
                        confirmPassword := f |}))
    (fun o =>
       match o !! "currentPassword", o !! "newPassword",
             o !! "confirmPassword" with
       | Some c, Some n, Some f =>
           Some {| currentPassword := c; newPassword := n;
                   confirmPassword := f |}
       | _, _, _ => None
       end)
    (fun data => String.eqb (newPassword data) (confirmPassword data))
    {| message := "Passwords don't match";
       path := ["confirmPassword"%string] |}.

Definition updatePassword_handler (data : UpdatePasswordData)
    (formData : FormData) (user : User.t) : Async ActionState :=
  match User.passwordHash user with
  | None | Some EmptyString => fail "No password set for this account"
  | Some passwordHash =>
      let* isPasswordValid :=
        comparePasswords (currentPassword data) passwordHash in
      if negb isPasswordValid then fail "Current password is incorrect."
      else if String.eqb (currentPassword data) (newPassword data)
      then fail "New password must be different from the current password."
      else
        let* newPasswordHash := hashPassword (newPassword data) in
        let* _ :=
          Promise_all2
            (user_update (User.id user)
               {| set_name := None; set_email := None;
                  set_passwordHash := Some newPasswordHash;
                  set_deletedAt := None |})
            (logActivity UPDATE_PASSWORD None) in
        succeed "Password updated successfully."
  end.

Definition updatePassword : ActionState -> FormData -> Async ActionState :=
  validatedActionWithUser updatePasswordSchema updatePassword_handler.

Definition deleteAccountSchema : ZodType DeleteAccountData :=
  z_object1 "password" (z_string [ck_min 8; ck_max 100])
    (fun p => {| deleteAccount_password := p |}).

Definition deleteAccount_handler (data : DeleteAccountData)
    (formData : FormData) (user : User.t) : Async ActionState :=
  match User.passwordHash user with
  | None | Some EmptyString => fail "No password set for this account"
  | Some passwordHash =>
      let* isPasswordValid :=
        comparePasswords (deleteAccount_password data) passwordHash in
      if negb isPasswordValid
      then fail "Incorrect password. Account deletion failed."
      else
        let* _ := logActivity DELETE_ACCOUNT None in
        let* now := Date_now in
        let* _ :=
          user_update (User.id user)
            {| set_name := None;
               set_email := Some (User.email user +:+ "-deleted");
               set_passwordHash := None;
               set_deletedAt := Some now |} in
        let* _ := cookies_delete "session" in
        redirect "/sign-in"
  end.

Definition deleteAccount : ActionState -> FormData -> Async ActionState :=
  validatedActionWithUser deleteAccountSchema deleteAccount_handler.

Definition updateAccountSchema : ZodType UpdateAccountData :=
  z_object2
    "name" (z_string_with [(ck_min 1, Some "Name is required"%string);
                           (ck_max 100, None)])
    "email" (z_string_with [(ck_email, Some "Invalid email address"%string)])
    (fun n e => {| updateAccount_name := n; updateAccount_email := e |}).

Definition updateAccount_handler (data : UpdateAccountData)
    (formData : FormData) (user : User.t) : Async ActionState :=
  let name := updateAccount_name data in
  let email := updateAccount_email data in
  let* existingUserWithEmail :=
    user_findFirst {| where_id := None; where_email := Some email;
                      where_deletedAt := Some None |} in
  match existingUserWithEmail with
  | Some _ => fail "Failed to update account. Email already in use."
  | None =>
      let* _ :=
        Promise_all2
          (user_update (User.id user)
             {| set_name := Some name; set_email := Some email;
                set_passwordHash := None; set_deletedAt := None |})
          (logActivity UPDATE_ACCOUNT None) in
      succeed "Account updated successfully."
  end.

Definition updateAccount : ActionState -> FormData -> Async ActionState :=
  validatedActionWithUser updateAccountSchema updateAccount_handler.

Definition removeTeamMemberSchema : ZodType RemoveTeamMemberData :=
  z_object1 "memberId" (z_string []) (fun m => {| memberId := m |}).

Definition removeTeamMember_handler (data : RemoveTeamMemberData)
    (formData : FormData) : Async ActionState :=
  let* session := getSession in
  match session with
  | None => fail "No valid team found."
  | Some session =>
      match teamId session with
      | EmptyString => fail "No valid team found."
      | _ =>
          let* count :=
            teamMember_deleteMany (memberId data) (teamId session) in
          match count with
          | O => fail "User is not part of this team."
          | S _ =>
              let* _ := logActivity REMOVE_TEAM_MEMBER None in
              succeed "Team member removed successfully"
          end
      end
  end.

Definition removeTeamMember : ActionState -> FormData -> Async ActionState :=
  validatedAction removeTeamMemberSchema removeTeamMember_handler.

Definition inviteTeamMemberSchema : ZodType InviteTeamMemberData :=
  z_object2
    "email" (z_string_with [(ck_email, Some "Invalid email address"%string)])
    "role" (z_enum ["member"; "owner"]%string)
    (fun e r => {| invite_email := e; invite_role := r |}).

Definition inviteTeamMember_handler (data : InviteTeamMemberData)
    (formData : FormData) : Async ActionState :=
  let email := invite_email data in
  let role := invite_role data in
  let* session := getSession in
  match session with
  | None => fail "No valid team found."
  | Some session =>
      match teamId session with
      | EmptyString => fail "No valid team found."
      | _ =>
          let* existingMember :=
            teamMember_findFirst_by_email email (teamId session) in
          match existingMember with
          | Some _ => fail "User is already a member of this team"
          | None =>
              let* existingInvitation :=
                invitation_findFirst_in_team email (teamId session)
                  PENDING in
              match existingInvitation with
              | Some _ =>
                  fail "An invitation has already been sent to this email"
              | None =>
                  let* _ :=
                    invitation_create (teamId session) email
                      (if String.eqb role "member" then MEMBER else ADMIN)
                      (userId session) PENDING in
                  let* _ := logActivity INVITE_TEAM_MEMBER None in
                  succeed "Invitation sent successfully"
              end
          end
      end
  end.

Definition inviteTeamMember : ActionState -> FormData -> Async ActionState :=
  validatedAction inviteTeamMemberSchema inviteTeamMember_handler.
End AccountActions.

(** ** Vocabulary of the statements *)

Section Vocabulary.
Context `{Platform} `{Billing}.

(** The claims that [signToken] stamps at time [now]. *)
Definition stamped (payload : SessionData) (now : Z) : JWTPayload :=
  {| session := payload; iat := Some (epoch now);
     exp := Some (epoch now + one_day_from_now) |}.

(** The token that [signToken] makes at time [now]. *)
Definition issued (payload : SessionData) (now : Z) : Token :=
  Compact {| alg := "HS256" |} (stamped payload now)
    (mac "HS256" key {| alg := "HS256" |} (stamped payload now)).

(** The world after the session cookie has been written. *)
Definition stored (t : Token) (e : Date) (w : World) : World :=
  with_cookies
    (insert "session"
       {| Cookie.value := t; Cookie.expires := e; Cookie.httpOnly := true;
          Cookie.secure := true; Cookie.sameSite := "lax" |}) w.

(** The [where] clause of the guards: the identifier and nothing else. *)
Definition only_id (id : string) : UserWhere :=
  {| where_id := Some id; where_email := None; where_deletedAt := None |}.

(** The [where] clause of the sign-in and sign-up lookups. *)
Definition live_email (email : string) : UserWhere :=
  {| where_id := None; where_email := Some email;
     where_deletedAt := Some None |}.

Definition failure (msg : string) : ActionState :=
  {| error := Some msg; success := None |}.

Definition is_thrown {A} (r : Outcome A) : bool :=
  match r with
  | Thrown _ => true
  | _ => false
  end.

(** Every stored address fits its column, as in any table of the
    migration. *)
Definition emails_fit (d : Database) : bool :=
  forallb (fun u => negb (too_long 255 (User.email u))) (users d)
  && forallb (fun i => negb (too_long 255 (Invitation.email i)))
       (invitations d).

(** The row that [logActivity] inserts for a session. *)
Definition log_row (type : ActivityType) (s : SessionData) (w : World)
    : ActivityLog.t :=
  {| ActivityLog.id := cuid (idCounter w);
     ActivityLog.teamId := teamId s;
     ActivityLog.userId := Some (userId s);
     ActivityLog.action := type;
     ActivityLog.ipAddress := Some EmptyString;
     ActivityLog.createdAt := clock w |}.

(** The session that [signUp] writes for a new user and a team. *)
Definition signUp_session (createdUser : User.t) (team : Team.t) (now : Z)
    : SessionData :=
  {| userData := {| userId := User.id createdUser; teamId := Team.id team;
                    userRole := ADMIN |};
     expires := toISOString (now + ONE_DAY_MS) |}.

(** The part of [signUp] that follows a found invitation. *)
Definition signUp_accept (createdUser : User.t) (invitation : Invitation.t)
    (invitedTo : Team.t) (fd : FormData) : Async ActionState :=
  let* _ :=
    Promise_all2
      (teamMember_create (User.id createdUser)
         (Invitation.teamId invitation) (Invitation.role invitation))
      (invitation_update (Invitation.id invitation) ACCEPTED) in
  let* accepted := spawn (logActivity ACCEPT_INVITATION None) in
  signUp_finish createdUser invitedTo [accepted] fd.

(** The world after the client has made an identifier for a row that was
    then refused. *)
Definition next_id (w : World) : World :=
  {| clock := clock w; cookies := cookies w; db := db w;
     console := console w; idCounter := S (idCounter w) |}.

(** The row that [signUp] inserts for a new user, and the world after the
    insertion. *)
Definition new_user (email password : string) (w : World) : User.t :=
  {| User.id := cuid (idCounter w); User.name := None; User.email := email;
     User.passwordHash := Some (bcrypt_hash password SALT_ROUNDS);
     User.createdAt := clock w; User.deletedAt := None |}.

Definition with_new_user (u : User.t) (w : World) : World :=
  {| clock := clock w; cookies := cookies w;
     db := {| users := users (db w) ++ [u]; teams := teams (db w);
              teamMembers := teamMembers (db w);
              activityLogs := activityLogs (db w);
              invitations := invitations (db w) |};
     console := console w; idCounter := S (idCounter w) |}.

(** The invitations after the one with identifier [id] was accepted. *)
Definition accepted (id : string) (invs : list Invitation.t)
    : list Invitation.t :=
  map (fun i => if String.eqb (Invitation.id i) id
                then set_status ACCEPTED i else i) invs.

(** The world after [prisma.user.update] has changed the row [id]. *)
Definition updated (id : string) (data : UserUpdate) (w : World) : World :=
  with_db (fun d =>
             {| users := map (fun o => if String.eqb (User.id o) id
                                       then apply_update data o else o)
                             (users d);
                teams := teams d;
                teamMembers := teamMembers d;
                activityLogs := activityLogs d;
                invitations := invitations d |}) w.

(** The three [data] that the account actions pass to it. *)
Definition new_hash (h : string) : UserUpdate :=
  {| set_name := None; set_email := None; set_passwordHash := Some h;
     set_deletedAt := None |}.

Definition soft_delete (email : string) (now : Z) : UserUpdate :=
  {| set_name := None; set_email := Some (email +:+ "-deleted");
     set_passwordHash := None; set_deletedAt := Some now |}.

Definition new_profile (name email : string) : UserUpdate :=
  {| set_name := Some name; set_email := Some email;
     set_passwordHash := None; set_deletedAt := None |}.

(** The role that [inviteTeamMember] stores for a submitted role. *)
Definition invited_role (role : string) : UserRole :=
  if String.eqb role "member" then MEMBER else ADMIN.

(** The world after [logActivity] has inserted its row for a session. *)
Definition logged (type : ActivityType) (s : SessionData) (w : World)
    : World :=
  {| clock := clock w; cookies := cookies w;
     db := {| users := users (db w); teams := teams (db w);
              teamMembers := teamMembers (db w);
              activityLogs := activityLogs (db w) ++ [log_row type s w];
              invitations := invitations (db w) |};
     console := console w; idCounter := S (idCounter w) |}.

(** The world after a successful [deleteAccount]. *)
Definition after_deleteAccount (s : SessionData) (user : User.t) (w : World)
    : World :=
  with_cookies (delete "session")
    (updated (userId s) (soft_delete (User.email user) (clock w))
       (logged DELETE_ACCOUNT s w)).

(** The world after [deleteMany] has removed the memberships of a user in
    a team. *)
Definition without_member (userId teamId : string) (w : World) : World :=
  with_db (fun d =>
             {| users := users d; teams := teams d;
                teamMembers :=
                  List.filter (fun m => negb (member_of userId teamId m))
                    (teamMembers d);
                activityLogs := activityLogs d;
                invitations := invitations d |}) w.

(** The invitation that [inviteTeamMember] inserts for a session, and the
    world after the insertion. *)
Definition new_invitation (email role : string) (s : SessionData) (w : World)
    : Invitation.t :=
  {| Invitation.id := cuid (idCounter w); Invitation.teamId := teamId s;
     Invitation.invitedBy := userId s; Invitation.email := email;
     Invitation.role := invited_role role; Invitation.status := PENDING;
     Invitation.createdAt := clock w |}.

Definition with_invitation (i : Invitation.t) (w : World) : World :=
  {| clock := clock w; cookies := cookies w;
     db := {| users := users (db w); teams := teams (db w);
              teamMembers := teamMembers (db w);
              activityLogs := activityLogs (db w);
              invitations := invitations (db w) ++ [i] |};
     console := console w; idCounter := S (idCounter w) |}.

(** The part of [signUp] that follows when there is no invitation. *)
Definition signUp_alone (createdUser : User.t) (fd : FormData)
    : Async ActionState :=
  let* newTeam := team_create "Personal Account" in
  let* _ :=
    teamMember_create (User.id createdUser) (Team.id newTeam) ADMIN in
  let* created := spawn (logActivity CREATE_TEAM None) in
  signUp_finish createdUser newTeam [created] fd.
End Vocabulary.

(** ** A concrete platform and concrete worlds, to run the code on *)

Definition role_name (r : UserRole) : string :=
  match r with
  | MEMBER => "MEMBER"
  | ADMIN => "ADMIN"
  end.

Definition option_name (o : option Z) : string :=
  match o with
  | Some z => pretty z
  | None => "-"
  end.

(** A keyed digest that is only a rendering of its inputs: enough to tell
    two keys, two algorithms or two payloads apart. *)
Definition demo_mac (a k : string) (h : JWTHeader) (p : JWTPayload) : string :=
  a +:+ "/" +:+ k +:+ "/" +:+ alg h +:+ "/" +:+ userId (session p)
    +:+ "/" +:+ teamId (session p) +:+ "/" +:+ role_name (userRole (session p))
    +:+ "/" +:+ expires (session p) +:+ "/" +:+ option_name (iat p)
    +:+ "/" +:+ option_name (exp p).

Definition digit_of (c : ascii) : option Z :=
  let n := Z.of_nat (nat_of_ascii c) in
  if (48 <=? n) && (n <=? 57) then Some (n - 48) else None.

Fixpoint digits_value (acc : Z) (s : string) : option Z :=
  match s with
  | EmptyString => Some acc
  | String c rest =>
      match digit_of c with
      | Some d => digits_value (10 * acc + d) rest
      | None => None
      end
  end.

(** Dates are rendered as their time value in decimal. *)
Definition demo_Date_of_string (s : string) : Date :=
  match s with
  | EmptyString => InvalidDate
  | _ => match digits_value 0 s with
         | Some z => DateOf z
         | None => InvalidDate
         end
  end.

Definition demo_platform : Platform :=
  {| AUTH_SECRET := "s3cret";
     mac := demo_mac;
     toISOString := fun z => pretty z;
     Date_of_string := demo_Date_of_string;
     bcrypt_hash := fun p _ => "$2a$" +:+ p;
     bcrypt_compare := fun p h => String.eqb ("$2a$" +:+ p) h;
     cuid := fun n => "c" +:+ pretty n;
     isEmail := fun s => bool_decide ("@"%char ∈ list_ascii_of_string s) |}.

Definition demo_billing : Billing :=
  {| createCheckoutSession := fun _ _ _ => Redirected "https://checkout.example" |}.

Definition ada : User.t :=
  {| User.id := "u1"; User.name := Some "Ada"%string;
     User.email := "ada@example.com";
     User.passwordHash := Some "$2a$correct horse"%string;
     User.createdAt := 0; User.deletedAt := None |}.

Definition ada_deleted : User.t :=
  {| User.id := "u1"; User.name := Some "Ada"%string;
     User.email := "ada@example.com-deleted";
     User.passwordHash := Some "$2a$correct horse"%string;
     User.createdAt := 0; User.deletedAt := Some 500 |}.

Definition acme : Team.t :=
  {| Team.id := "t1"; Team.name := "Acme"; Team.createdAt := 0 |}.

Definition ada_in_acme : TeamMember.t :=
  {| TeamMember.id := "m1"; TeamMember.userId := "u1";
     TeamMember.teamId := "t1"; TeamMember.role := ADMIN;
     TeamMember.createdAt := 0 |}.

Definition invite_bob : Invitation.t :=
  {| Invitation.id := "i1"; Invitation.teamId := "t1";
     Invitation.invitedBy := "u1"; Invitation.email := "bob@example.com";
     Invitation.role := MEMBER; Invitation.status := PENDING;
     Invitation.createdAt := 10 |}.

Definition demo_db : Database :=
  {| users := [ada]; teams := [acme]; teamMembers := [ada_in_acme];
     activityLogs := []; invitations := [invite_bob] |}.

(** A request without any cookie, at time 1000000 ms. *)
Definition anonymous : World :=
  {| clock := 1000000; cookies := ∅; db := demo_db; console := [];
     idCounter := 7 |}.

Definition ada_data : UserData :=
  {| userId := "u1"; teamId := "t1"; userRole := ADMIN |}.

(** The world after Ada's session was created in [anonymous]. *)
Definition signed_in : World :=
  snd (@setSession demo_platform ada_data anonymous).

Definition with_session_token (t : Token) (w : World) : World :=
  with_cookies
    (insert "session"
       {| Cookie.value := t; Cookie.expires := DateOf (clock w + ONE_DAY_MS);
          Cookie.httpOnly := true; Cookie.secure := true;
          Cookie.sameSite := "lax" |}) w.

(** The same token with its signature segment altered. *)
Definition corrupt (t : Token) : Token :=
  match t with
  | Compact h p sig => Compact h p (sig +:+ "x")
  | Opaque s => Opaque s
  end.

Definition ada_session : SessionData :=
  {| userData := ada_data; expires := "87400000" |}.

(** Ada's cookie with one altered signature, and a cookie that is no token
    at all. *)
Definition tampered : World :=
  with_session_token (corrupt (@issued demo_platform ada_session 1000000))
    anonymous.

Definition garbled : World :=
  with_session_token (Opaque "garbage") anonymous.

(** A token that declares another algorithm and is correctly signed under
    it with the secret. *)
Definition HS512_token : Token :=
  Compact {| alg := "HS512" |} (stamped ada_session 1000000)
    (demo_mac "HS512" "s3cret" {| alg := "HS512" |}
       (stamped ada_session 1000000)).

Definition no_state : ActionState := {| error := None; success := None |}.

(** Ada's account after a soft delete, with a browser that still holds her
    session cookie. *)
Definition ghost : World :=
  {| clock := clock signed_in; cookies := cookies signed_in;
     db := {| users := [ada_deleted]; teams := [acme];
              teamMembers := [ada_in_acme]; activityLogs := [];
              invitations := [] |};
     console := []; idCounter := 7 |}.

(** A session that verifies and names a team that is not there. *)
Definition teamless : World :=
  snd (@setSession demo_platform
         {| userId := "u1"; teamId := "t9"; userRole := ADMIN |} anonymous).

Definition good_form : FormData :=
  [("email", "ada@example.com"); ("password", "correct horse")]%string.

Definition bad_form : FormData :=
  [("email", "ada.example.com"); ("password", "short")]%string.

Definition bob_form : FormData :=
  [("email", "bob@example.com"); ("password", "hunter2hunter2");
   ("inviteId", "i1")]%string.

Definition greet (data : SignInData) (fd : FormData) (u : User.t)
    : Async ActionState :=
  ret {| error := None; success := Some (User.email u) |}.

Definition team_name (fd : FormData) (a : AuthData.t) : Async string :=
  ret (Team.name (AuthData.team a)).

(** *** Worlds for the other actions *)

Definition carol : User.t :=
  {| User.id := "u2"; User.name := Some "Carol"%string;
     User.email := "carol@example.com";
     User.passwordHash := Some "$2a$tr0ub4dor&3"%string;
     User.createdAt := 5; User.deletedAt := None |}.

Definition carol_co : Team.t :=
  {| Team.id := "t2"; Team.name := "Carol Co"; Team.createdAt := 5 |}.

Definition carol_in_carol_co : TeamMember.t :=
  {| TeamMember.id := "m2"; TeamMember.userId := "u2";
     TeamMember.teamId := "t2"; TeamMember.role := MEMBER;
     TeamMember.createdAt := 5 |}.

(** Carol signs in from a browser that still holds Ada's session. *)
Definition shared_browser : World :=
  {| clock := clock signed_in; cookies := cookies signed_in;
     db := {| users := [ada; carol]; teams := [acme; carol_co];
              teamMembers := [ada_in_acme; carol_in_carol_co];
              activityLogs := []; invitations := [] |};
     console := []; idCounter := 7 |}.

(** Ada without any membership, and nobody signed in. *)
Definition loner : World :=
  {| clock := 1000000; cookies := ∅;
     db := {| users := [ada]; teams := [acme]; teamMembers := [];
              activityLogs := []; invitations := [] |};
     console := []; idCounter := 7 |}.

Definition wrong_form : FormData :=
  [("email", "ada@example.com"); ("password", "wrong horse")]%string.

Definition unknown_form : FormData :=
  [("email", "eve@example.com"); ("password", "correct horse")]%string.

Definition carol_form : FormData :=
  [("email", "carol@example.com"); ("password", "tr0ub4dor&3")]%string.

Definition carol_in_acme : TeamMember.t :=
  {| TeamMember.id := "m3"; TeamMember.userId := "u2";
     TeamMember.teamId := "t1"; TeamMember.role := MEMBER;
     TeamMember.createdAt := 6 |}.

Definition carol_data : UserData :=
  {| userId := "u2"; teamId := "t1"; userRole := MEMBER |}.

Definition carol_session : SessionData :=
  {| userData := carol_data; expires := "87400000" |}.

(** Carol, a plain member of Ada's team, is signed in. *)
Definition carol_signed_in : World :=
  snd (@setSession demo_platform carol_data
         {| clock := 1000000; cookies := ∅;
            db := {| users := [ada; carol]; teams := [acme];
                     teamMembers := [ada_in_acme; carol_in_acme];
                     activityLogs := []; invitations := [] |};
            console := []; idCounter := 7 |}).

(** Ada registered again with the address of her deleted account. *)
Definition ada_again : User.t :=
  {| User.id := "u3"; User.name := None;
     User.email := "ada@example.com";
     User.passwordHash := Some "$2a$correct horse"%string;
     User.createdAt := 600; User.deletedAt := None |}.

Definition ada_again_data : UserData :=
  {| userId := "u3"; teamId := "t1"; userRole := ADMIN |}.

Definition ada_again_session : SessionData :=
  {| userData := ada_again_data; expires := "87400000" |}.

Definition registered_again : World :=
  snd (@setSession demo_platform ada_again_data
         {| clock := 1000000; cookies := ∅;
            db := {| users := [ada_deleted; ada_again]; teams := [acme];
                     teamMembers := []; activityLogs := [];
                     invitations := [] |};
            console := []; idCounter := 7 |}).

Definition new_password_form : FormData :=
  [("currentPassword", "correct horse"); ("newPassword", "battery staple");
   ("confirmPassword", "battery staple")]%string.

Definition new_password_data : UpdatePasswordData :=
  {| currentPassword := "correct horse"; newPassword := "battery staple";
     confirmPassword := "battery staple" |}.

Definition password_form : FormData :=
  [("password", "correct horse")]%string.

Definition same_address_form : FormData :=
  [("name", "Ada Lovelace"); ("email", "ada@example.com")]%string.

Definition new_address_form : FormData :=
  [("name", "Ada Lovelace"); ("email", "ada@lovelace.example")]%string.

Definition remove_ada_form : FormData := [("memberId", "u1")]%string.

Definition invite_dave_form : FormData :=
  [("email", "dave@example.com"); ("role", "owner")]%string.

Definition invite_dave : InviteTeamMemberData :=
  {| invite_email := "dave@example.com"; invite_role := "owner" |}.

Definition lone_form : FormData :=
  [("email", "erin@example.com"); ("password", "hunter2hunter2")]%string.

Definition lone_data : SignUpData :=
  {| signUp_email := "erin@example.com";
     signUp_password := "hunter2hunter2"; signUp_inviteId := None |}.

Definition stale_invite_form : FormData :=
  [("email", "erin@example.com"); ("password", "hunter2hunter2");
   ("inviteId", "i1")]%string.

Definition dave_form : FormData :=
  [("email", "dave@example.com"); ("password", "hunter2hunter2");
   ("inviteId", "c7")]%string.

(** Dave opens the invitation that Carol sent, in his own browser. *)
Definition dave_arrives : World :=
  {| clock := 2000000; cookies := ∅;
     db := db (snd (@inviteTeamMember demo_platform no_state invite_dave_form
                      carol_signed_in));
     console := []; idCounter := 9 |}.

(** *** Addresses at the width of the column *)

(** An address of 262 characters and one of 250, both with the sign that
    the e-mail check looks for. *)
Definition long_address : string :=
  string_of_list_ascii (replicate 250 "a"%char) +:+ "@example.com".

Definition wide_address : string :=
  string_of_list_ascii (replicate 238 "a"%char) +:+ "@example.com".

Definition long_signUp_form : FormData :=
  [("email"%string, long_address);
   ("password"%string, "hunter2hunter2"%string)].

Definition long_signUp_data : SignUpData :=
  {| signUp_email := long_address; signUp_password := "hunter2hunter2";
     signUp_inviteId := None |}.

Definition long_account_form : FormData :=
  [("name"%string, "Ada Lovelace"%string); ("email"%string, long_address)].

Definition long_account_data : UpdateAccountData :=
  {| updateAccount_name := "Ada Lovelace";
     updateAccount_email := long_address |}.

Definition long_invite_form : FormData :=
  [("email"%string, long_address); ("role"%string, "member"%string)].

Definition long_invite : InviteTeamMemberData :=
  {| invite_email := long_address; invite_role := "member" |}.

(** Wanda, whose address of 250 characters fits the column, is signed
    in. *)
Definition wanda : User.t :=
  {| User.id := "u4"; User.name := Some "Wanda"%string;
     User.email := wide_address;
     User.passwordHash := Some "$2a$correct horse"%string;
     User.createdAt := 7; User.deletedAt := None |}.

Definition wanda_data : UserData :=
  {| userId := "u4"; teamId := "t1"; userRole := ADMIN |}.

Definition wanda_session : SessionData :=
  {| userData := wanda_data; expires := "87400000" |}.

Definition wanda_signed_in : World :=
  snd (@setSession demo_platform wanda_data
         {| clock := 1000000; cookies := ∅;
            db := {| users := [ada; wanda]; teams := [acme];
                     teamMembers := [ada_in_acme]; activityLogs := [];
                     invitations := [] |};
            console := []; idCounter := 7 |}).

(** * Properties *)

(** ** The codec *)

Section CodecFacts.
Context `{Platform}.



Lemma signToken_issued payload w :
  signToken payload w = (Returned (issued payload (clock w)), w).
Proof. reflexivity. Qed.

Lemma HS256_allowed : bool_decide ("HS256"%string ∈ ["HS256"%string]) = true.
Proof. apply bool_decide_eq_true. apply list_elem_of_here. Qed.

Lemma allowed_is_HS256 (a : string) :
  bool_decide (a ∈ ["HS256"%string]) = true -> a = "HS256"%string.
Proof.
  intros Ha. apply bool_decide_eq_true in Ha.
  apply list_elem_of_singleton in Ha. exact Ha.
Qed.

Lemma other_not_allowed (a : string) :
  a <> "HS256"%string -> bool_decide (a ∈ ["HS256"%string]) = false.
Proof.
  intros Ha. apply bool_decide_eq_false. intros Hin.
  apply list_elem_of_singleton in Hin. contradiction.
Qed.

(** A freshly issued token verifies as long as its [exp] second has not
    been reached, and is refused as expired from then on. *)
Lemma jwtVerify_issued payload t now :
  jwtVerify (issued payload t) key ["HS256"%string] now =
    if epoch t + one_day_from_now <=? epoch now then inl JWTExpired
    else inr (stamped payload t).
Proof.
  unfold jwtVerify, issued. cbn [alg exp stamped].
  rewrite HS256_allowed, String.eqb_refl. reflexivity.
Qed.

Lemma jwtVerify_opaque raw k algs now :
  jwtVerify (Opaque raw) k algs now = inl JWSInvalid.
Proof. reflexivity. Qed.

Lemma jwtVerify_bad_signature h p sig now :
  alg h = "HS256"%string -> sig <> mac "HS256" key h p ->
  jwtVerify (Compact h p sig) key ["HS256"%string] now =
    inl JWSSignatureVerificationFailed.
Proof.
  intros Ha Hsig. unfold jwtVerify. rewrite Ha, HS256_allowed.
  destruct (String.eqb sig (mac "HS256" key h p)) eqn:E; [|reflexivity].
  apply String.eqb_eq in E. contradiction.
Qed.

Lemma jwtVerify_expired h p e now :
  alg h = "HS256"%string -> exp p = Some e -> e <= epoch now ->
  jwtVerify (Compact h p (mac "HS256" key h p)) key ["HS256"%string] now =
    inl JWTExpired.
Proof.
  intros Ha He Hle. unfold jwtVerify.
  rewrite Ha, HS256_allowed, String.eqb_refl, He. cbn.
  destruct (e <=? epoch now) eqn:E; [reflexivity|].
  apply Z.leb_gt in E. lia.
Qed.

(** What an accepted token looks like. *)
Lemma jwtVerify_accepts t now p :
  jwtVerify t key ["HS256"%string] now = inr p ->
  exists h, t = Compact h p (mac "HS256" key h p) /\ alg h = "HS256"%string.
Proof.
  destruct t as [h q sig|raw]; cbn; [|discriminate].
  destruct (bool_decide (alg h ∈ ["HS256"%string])) eqn:Ea; cbn;
    [|discriminate].
  apply allowed_is_HS256 in Ea.
  destruct (String.eqb sig (mac (alg h) key h q)) eqn:Es; cbn;
    [|discriminate].
  apply String.eqb_eq in Es. rewrite Ea in Es.
  intros Hp. exists h. split; [|exact Ea].
  destruct (exp q) as [e|]; [destruct (e <=? epoch now)|];
    inversion Hp; subst; reflexivity.
Qed.

Lemma verifyToken_unfold t w :
  verifyToken t w =
    match jwtVerify t key ["HS256"%string] (clock w) with
    | inr p => (Returned (session p), w)
    | inl e => (Thrown (JOSE e), w)
    end.
Proof.
  unfold verifyToken, bind, Date_now.
  destruct (jwtVerify t key ["HS256"%string] (clock w)); reflexivity.
Qed.
End CodecFacts.

(** ** Reading the session *)

Section SessionFacts.
Context `{Platform}.

Lemma getSession_no_cookie w :
  cookies w !! "session" = None -> getSession w = (Returned None, w).
Proof.
  intros Hc. unfold getSession, bind, cookies_get. rewrite Hc. reflexivity.
Qed.

Lemma getSession_cookie w c :
  cookies w !! "session" = Some c ->
  getSession w =
    if falsy (Cookie.value c) then (Returned None, w)
    else match jwtVerify (Cookie.value c) key ["HS256"%string] (clock w) with
         | inr p => (Returned (Some (session p)), w)
         | inl e => (Thrown (JOSE e), w)
         end.
Proof.
  intros Hc. unfold getSession, bind, cookies_get. rewrite Hc.
  destruct (falsy (Cookie.value c)); [reflexivity|].
  rewrite verifyToken_unfold.
  destruct (jwtVerify (Cookie.value c) key ["HS256"%string] (clock w));
    reflexivity.
Qed.

(** Reading the session changes nothing. *)
Lemma getSession_reads w : snd (getSession w) = w.
Proof.
  destruct (cookies w !! "session") as [c|] eqn:Hc.
  - rewrite (getSession_cookie w c Hc).
    destruct (falsy (Cookie.value c)); [reflexivity|].
    destruct (jwtVerify (Cookie.value c) key ["HS256"%string] (clock w));
      reflexivity.
  - rewrite (getSession_no_cookie w Hc). reflexivity.
Qed.

(** Reading the session never redirects. *)
Lemma getSession_cases w :
  (exists o, getSession w = (Returned o, w))
  \/ (exists e, getSession w = (Thrown (JOSE e), w)).
Proof.
  destruct (cookies w !! "session") as [c|] eqn:Hc.
  - rewrite (getSession_cookie w c Hc).
    destruct (falsy (Cookie.value c)); [left; eauto|].
    destruct (jwtVerify (Cookie.value c) key ["HS256"%string] (clock w));
      [right|left]; eauto.
  - rewrite (getSession_no_cookie w Hc). left; eauto.
Qed.


Lemma setSession_stored userData w :
  setSession userData w =
    (Returned tt,
     stored (issued {| userData := userData;
                       expires := toISOString (clock w + ONE_DAY_MS) |}
               (clock w))
            (DateOf (clock w + ONE_DAY_MS)) w).
Proof. reflexivity. Qed.

Lemma stored_lookup t e w :
  cookies (stored t e w) !! "session" =
    Some {| Cookie.value := t; Cookie.expires := e; Cookie.httpOnly := true;
            Cookie.secure := true; Cookie.sameSite := "lax" |}.
Proof. unfold stored, with_cookies. cbn. apply lookup_insert_eq. Qed.

(** A stored, freshly issued token is read back until its [exp] second. *)
Lemma getSession_stored_issued payload e w d :
  epoch (clock w + d) < epoch (clock w) + one_day_from_now ->
  getSession (elapse d (stored (issued payload (clock w)) e w)) =
    (Returned (Some payload),
     elapse d (stored (issued payload (clock w)) e w)).
Proof.
  intros Hd.
  set (w' := elapse d (stored (issued payload (clock w)) e w)).
  assert (Hc : cookies w' !! "session" =
               Some {| Cookie.value := issued payload (clock w);
                       Cookie.expires := e; Cookie.httpOnly := true;
                       Cookie.secure := true; Cookie.sameSite := "lax" |})
    by apply stored_lookup.
  rewrite (getSession_cookie _ _ Hc).
  cbn [Cookie.value]. change (falsy (issued payload (clock w))) with false.
  cbv iota. rewrite jwtVerify_issued.
  change (clock w') with (clock w + d).
  destruct (epoch (clock w) + one_day_from_now <=? epoch (clock w + d)) eqn:E.
  - apply Z.leb_le in E. lia.
  - reflexivity.
Qed.

Lemma elapse_0 w : elapse 0 w = w.
Proof. destruct w. unfold elapse. cbn. f_equal. lia. Qed.

Lemma getSession_stored_now payload e w :
  getSession (stored (issued payload (clock w)) e w) =
    (Returned (Some payload), stored (issued payload (clock w)) e w).
Proof.
  rewrite <- (elapse_0 (stored _ _ w)) at 1 2.
  apply getSession_stored_issued.
  replace (clock w + 0) with (clock w) by lia.
  unfold one_day_from_now. lia.
Qed.

Lemma updateSession_existing userData w s :
  getSession w = (Returned (Some s), w) ->
  updateSession userData w =
    (Returned tt,
     stored (issued {| userData := userData; expires := expires s |}
               (clock w))
            (Date_of_string (expires s)) w).
Proof.
  intros Hs. unfold updateSession, bind. rewrite Hs. reflexivity.
Qed.

Lemma updateSession_absent userData w :
  getSession w = (Returned None, w) ->
  updateSession userData w = setSession userData w.
Proof.
  intros Hs. unfold updateSession, bind. rewrite Hs. reflexivity.
Qed.

Lemma updateSession_undecodable userData w e :
  getSession w = (Thrown e, w) ->
  updateSession userData w = (Thrown e, w).
Proof.
  intros Hs. unfold updateSession, bind. rewrite Hs. reflexivity.
Qed.
End SessionFacts.

Section SessionClaims.
Context `{Platform}.

(** Two refreshes after a creation, with time passing in between: the
    session read at the end still carries the expiry of the creation. *)
Lemma refresh_twice_reads_first_expiry ud0 ud1 ud2 w d1 d2 :
  epoch (clock w + d1) < epoch (clock w) + one_day_from_now ->
  epoch (clock w + d1 + d2) < epoch (clock w + d1) + one_day_from_now ->
  let w1 := elapse d1 (snd (setSession ud0 w)) in
  let w2 := elapse d2 (snd (updateSession ud1 w1)) in
  let w3 := snd (updateSession ud2 w2) in
  getSession w3 =
    (Returned (Some {| userData := ud2;
                       expires := toISOString (clock w + ONE_DAY_MS) |}), w3)
  /\ Cookie.expires <$> cookies w3 !! "session" =
       Some (Date_of_string (toISOString (clock w + ONE_DAY_MS))).
Proof.
  intros Hd1 Hd2 w1 w2 w3.
  set (e0 := toISOString (clock w + ONE_DAY_MS)).
  assert (H1 : getSession w1 =
               (Returned (Some {| userData := ud0; expires := e0 |}), w1)).
  { subst w1. rewrite setSession_stored. cbn [snd].
    apply getSession_stored_issued. exact Hd1. }
  assert (H2 : getSession w2 =
               (Returned (Some {| userData := ud1; expires := e0 |}), w2)).
  { subst w2. rewrite (updateSession_existing ud1 w1 _ H1). cbn [snd expires].
    apply getSession_stored_issued. exact Hd2. }
  subst w3. rewrite (updateSession_existing ud2 w2 _ H2). cbn [snd expires].
  split.
  - apply getSession_stored_now.
  - rewrite stored_lookup. reflexivity.
Qed.

(** C1 (amended): [getSession] returns absent when the session cookie is
    missing or empty; when a cookie is present it returns the payload of
    a token that verifies, and it throws the decoding error of a token
    that does not (malformed, wrong signature or expired): a decoding
    failure is propagated, not turned into an absent session. *)
Theorem getSession_absent_decoded_or_thrown w :
  (cookies w !! "session" = None -> getSession w = (Returned None, w))
  /\ (forall c, cookies w !! "session" = Some c ->
        Cookie.value c = Opaque EmptyString ->
        getSession w = (Returned None, w))
  /\ (forall c p, cookies w !! "session" = Some c ->
        jwtVerify (Cookie.value c) key ["HS256"%string] (clock w) = inr p ->
        getSession w = (Returned (Some (session p)), w))
  /\ (forall c e, cookies w !! "session" = Some c ->
        Cookie.value c <> Opaque EmptyString ->
        jwtVerify (Cookie.value c) key ["HS256"%string] (clock w) = inl e ->
        getSession w = (Thrown (JOSE e), w)).
Proof.
  split; [apply getSession_no_cookie|].
  split; [|split].
  - intros c Hc Hv. rewrite (getSession_cookie w c Hc), Hv. reflexivity.
  - intros c p Hc Hp. rewrite (getSession_cookie w c Hc), Hp.
    destruct (Cookie.value c) as [h q sig|raw]; [reflexivity|].
    cbn in Hp. discriminate.
  - intros c e Hc Hv He. rewrite (getSession_cookie w c Hc), He.
    destruct (Cookie.value c) as [h q sig|[|a raw]];
      [reflexivity|contradiction|reflexivity].
Qed.

(** C8: the codec is pinned to HS256.  [signToken] always emits a header
    that declares HS256; [verifyToken] returns a payload only for a token
    whose header declares HS256 and whose signature is the HS256 MAC of
    header and claims under the configured secret; a token declaring any
    other algorithm is rejected, whatever its signature. *)
Theorem codec_pinned_to_HS256 :
  (forall payload w, exists claims sig,
      signToken payload w =
        (Returned (Compact {| alg := "HS256" |} claims sig), w))
  /\ (forall t w s w', verifyToken t w = (Returned s, w') ->
        exists h claims,
          t = Compact h claims (mac "HS256" key h claims)
          /\ alg h = "HS256"%string /\ session claims = s)
  /\ (forall h claims sig w, alg h <> "HS256"%string ->
        verifyToken (Compact h claims sig) w =
          (Thrown (JOSE JOSEAlgNotAllowed), w)).
Proof.
  split; [|split].
  - intros payload w. rewrite signToken_issued. unfold issued. eauto.
  - intros t w s w' Hv. rewrite verifyToken_unfold in Hv.
    destruct (jwtVerify t key ["HS256"%string] (clock w)) as [e|p] eqn:E;
      [discriminate|].
    inversion Hv; subst. destruct (jwtVerify_accepts _ _ _ E) as (h & Ht & Ha).
    exists h, p. auto.
  - intros h claims sig w Ha. rewrite verifyToken_unfold. unfold jwtVerify.
    rewrite (other_not_allowed _ Ha). reflexivity.
Qed.

(** C4: [setSession] followed by [getSession], at once or after any
    delay that stays before the token's expiration second, returns the
    payload with the given user, team and role and with [expires] set to
    the rendering of the time of issuance plus 24 hours; the cookie
    expires at that same instant. *)
Theorem setSession_then_getSession userData w d :
  0 <= d ->
  epoch (clock w + d) < epoch (clock w) + one_day_from_now ->
  exists w1,
    setSession userData w = (Returned tt, w1)
    /\ getSession (elapse d w1) =
         (Returned (Some {| userData := userData;
                            expires := toISOString (clock w + ONE_DAY_MS) |}),
          elapse d w1)
    /\ getSession w1 =
         (Returned (Some {| userData := userData;
                            expires := toISOString (clock w + ONE_DAY_MS) |}),
          w1)
    /\ Cookie.expires <$> cookies w1 !! "session" =
         Some (DateOf (clock w + ONE_DAY_MS)).
Proof.
  intros _ Hd. eexists. split; [apply setSession_stored|].
  split; [|split].
  - apply getSession_stored_issued. exact Hd.
  - apply getSession_stored_now.
  - rewrite stored_lookup. reflexivity.
Qed.

(** C3 (amended): when [getSession] returns a session, [updateSession]
    writes a token whose payload carries the new user, team and role and
    exactly the [expires] of the existing session, and a cookie that
    expires at the date this same [expires] denotes; when [getSession]
    returns no session (no cookie, or an empty one) it is [setSession],
    with [expires] 24 hours from now; when the cookie does not decode,
    [updateSession] throws the decoding error and writes nothing: it does
    not start a fresh session.  After a creation and two refreshes the
    expiry is still that of the creation. *)
Theorem updateSession_keeps_expires userData w :
  (forall s, getSession w = (Returned (Some s), w) ->
     exists w',
       updateSession userData w = (Returned tt, w')
       /\ getSession w' =
            (Returned (Some {| userData := userData;
                               expires := expires s |}), w')
       /\ Cookie.expires <$> cookies w' !! "session" =
            Some (Date_of_string (expires s)))
  /\ (getSession w = (Returned None, w) ->
      updateSession userData w = setSession userData w
      /\ exists w',
           updateSession userData w = (Returned tt, w')
           /\ getSession w' =
                (Returned
                   (Some {| userData := userData;
                            expires := toISOString (clock w + ONE_DAY_MS) |}),
                 w'))
  /\ (forall e, getSession w = (Thrown e, w) ->
      updateSession userData w = (Thrown e, w))
  /\ (forall ud0 ud1 w0 d1 d2,
        epoch (clock w0 + d1) < epoch (clock w0) + one_day_from_now ->
        epoch (clock w0 + d1 + d2)
          < epoch (clock w0 + d1) + one_day_from_now ->
        let w1 := elapse d1 (snd (setSession ud0 w0)) in
        let w2 := elapse d2 (snd (updateSession ud1 w1)) in
        let w3 := snd (updateSession userData w2) in
        getSession w3 =
          (Returned
             (Some {| userData := userData;
                      expires := toISOString (clock w0 + ONE_DAY_MS) |}),
           w3)
        /\ Cookie.expires <$> cookies w3 !! "session" =
             Some (Date_of_string (toISOString (clock w0 + ONE_DAY_MS)))).
Proof.
  split; [|split; [|split]].
  - intros s Hs. eexists. split; [apply (updateSession_existing _ _ _ Hs)|].
    split.
    + apply getSession_stored_now.
    + rewrite stored_lookup. reflexivity.
  - intros Hs. split; [apply (updateSession_absent _ _ Hs)|].
    rewrite (updateSession_absent _ _ Hs). eexists.
    split; [apply setSession_stored|].
    apply getSession_stored_now.
  - intros e Hs. apply updateSession_undecodable. exact Hs.
  - intros ud0 ud1 w0 d1 d2 Hd1 Hd2.
    apply refresh_twice_reads_first_expiry; assumption.
Qed.
End SessionClaims.

(** *** The session claims on concrete worlds *)


Lemma getSession_absent_decoded_or_thrown_witness :
  @getSession demo_platform anonymous = (Returned None, anonymous)
  /\ @getSession demo_platform signed_in =
       (Returned (Some ada_session), signed_in)
  /\ @getSession demo_platform tampered =
       (Thrown (JOSE JWSSignatureVerificationFailed), tampered).
Proof.
  split; [|split].
  - apply (@getSession_absent_decoded_or_thrown demo_platform anonymous).
    reflexivity.
  - destruct (@getSession_absent_decoded_or_thrown demo_platform signed_in)
      as (_ & _ & Hok & _).
    apply (Hok {| Cookie.value := @issued demo_platform ada_session 1000000;
                  Cookie.expires := DateOf 87400000; Cookie.httpOnly := true;
                  Cookie.secure := true; Cookie.sameSite := "lax" |}
               (stamped ada_session 1000000));
      reflexivity.
  - destruct (@getSession_absent_decoded_or_thrown demo_platform tampered)
      as (_ & _ & _ & Hthrow).
    apply (Hthrow
             {| Cookie.value :=
                  corrupt (@issued demo_platform ada_session 1000000);
                Cookie.expires := DateOf 87400000; Cookie.httpOnly := true;
                Cookie.secure := true; Cookie.sameSite := "lax" |});
      [reflexivity|discriminate|reflexivity].
Defined.

(** C1, as stated, fails: with a cookie that is not a token, with a token
    whose signature was altered, and with a token read after its
    expiration second, [getSession] throws. *)
Lemma getSession_throws_on_undecodable_cookie :
  fst (@getSession demo_platform garbled) = Thrown (JOSE JWSInvalid)
  /\ fst (@getSession demo_platform tampered) =
       Thrown (JOSE JWSSignatureVerificationFailed)
  /\ fst (@getSession demo_platform (elapse ONE_DAY_MS signed_in)) =
       Thrown (JOSE JWTExpired).
Proof. repeat split. Qed.

Lemma codec_pinned_to_HS256_witness :
  @verifyToken demo_platform HS512_token anonymous =
    (Thrown (JOSE JOSEAlgNotAllowed), anonymous)
  /\ (exists h claims,
        @issued demo_platform ada_session 1000000 =
          Compact h claims (demo_mac "HS256" "s3cret" h claims)
        /\ alg h = "HS256"%string /\ session claims = ada_session).
Proof.
  destruct (@codec_pinned_to_HS256 demo_platform) as (_ & Hver & Hrej).
  split.
  - apply Hrej. discriminate.
  - apply (Hver (@issued demo_platform ada_session 1000000) anonymous
             ada_session anonymous).
    reflexivity.
Defined.

Lemma setSession_then_getSession_witness :
  exists w1,
    @setSession demo_platform ada_data anonymous = (Returned tt, w1)
    /\ @getSession demo_platform (elapse 3600000 w1) =
         (Returned (Some ada_session), elapse 3600000 w1)
    /\ @getSession demo_platform w1 = (Returned (Some ada_session), w1)
    /\ Cookie.expires <$> cookies w1 !! "session" = Some (DateOf 87400000).
Proof.
  apply (@setSession_then_getSession demo_platform ada_data anonymous 3600000).
  - lia.
  - vm_compute. reflexivity.
Defined.

Lemma updateSession_keeps_expires_witness :
  (exists w',
      @updateSession demo_platform
        {| userId := "u1"; teamId := "t1"; userRole := MEMBER |}
        (elapse 3600000 signed_in) = (Returned tt, w')
      /\ @getSession demo_platform w' =
           (Returned
              (Some {| userData :=
                         {| userId := "u1"; teamId := "t1";
                            userRole := MEMBER |};
                       expires := "87400000" |}), w')
      /\ Cookie.expires <$> cookies w' !! "session" = Some (DateOf 87400000))
  /\ @updateSession demo_platform
       {| userId := "u1"; teamId := "t1"; userRole := MEMBER |} tampered =
       (Thrown (JOSE JWSSignatureVerificationFailed), tampered).
Proof.
  split.
  - destruct (@updateSession_keeps_expires demo_platform
                {| userId := "u1"; teamId := "t1"; userRole := MEMBER |}
                (elapse 3600000 signed_in)) as (Hkeep & _ & _).
    apply (Hkeep ada_session). reflexivity.
  - destruct (@updateSession_keeps_expires demo_platform
                {| userId := "u1"; teamId := "t1"; userRole := MEMBER |}
                tampered) as (_ & _ & Hthrow & _).
    apply Hthrow. reflexivity.
Defined.

(** C3, as stated, fails: with a cookie that is not a token, and with a
    token read after its expiration second, there is no session to
    refresh, and [updateSession] throws and leaves the cookie as it is,
    where [setSession] on the same request returns and writes a fresh
    session. *)
Lemma updateSession_throws_on_undecodable_cookie :
  @updateSession demo_platform ada_data garbled =
    (Thrown (JOSE JWSInvalid), garbled)
  /\ fst (@setSession demo_platform ada_data garbled) = Returned tt
  /\ fst (@getSession demo_platform
            (snd (@setSession demo_platform ada_data garbled))) =
       Returned (Some ada_session)
  /\ @updateSession demo_platform ada_data (elapse ONE_DAY_MS signed_in) =
       (Thrown (JOSE JWTExpired), elapse ONE_DAY_MS signed_in)
  /\ fst (@setSession demo_platform ada_data (elapse ONE_DAY_MS signed_in)) =
       Returned tt.
Proof. repeat split. Qed.

(** ** The guards *)




Section GuardFacts.
Context `{Platform}.

Lemma validatedActionWithUser_unauthenticated {S} (schema : ZodType S)
    action prev fd w :
  getSession w = (Returned None, w) ->
  validatedActionWithUser schema action prev fd w =
    (Thrown (Error "User is not authenticated"), w).
Proof.
  intros Hs. unfold validatedActionWithUser, bind. rewrite Hs. reflexivity.
Qed.

Lemma validatedActionWithUser_undecodable {S} (schema : ZodType S)
    action prev fd w e :
  getSession w = (Thrown e, w) ->
  validatedActionWithUser schema action prev fd w = (Thrown e, w).
Proof.
  intros Hs. unfold validatedActionWithUser, bind. rewrite Hs. reflexivity.
Qed.

Lemma validatedActionWithUser_authenticated {S} (schema : ZodType S)
    action prev fd w s :
  getSession w = (Returned (Some s), w) ->
  validatedActionWithUser schema action prev fd w =
    match List.find (user_matches (only_id (userId s))) (users (db w)) with
    | None => (Thrown (Error "User not found"), w)
    | Some user =>
        match schema (Object_fromEntries fd) with
        | ParseFailure first _ => (Returned (failure (message first)), w)
        | ParseSuccess data => action data fd user w
        end
    end.
Proof.
  intros Hs. unfold validatedActionWithUser, bind. rewrite Hs.
  unfold user_findFirst.
  change {| where_id := Some (userId s); where_email := None;
            where_deletedAt := None |} with (only_id (userId s)).
  destruct (List.find (user_matches (only_id (userId s))) (users (db w)));
    [|reflexivity].
  destruct (schema (Object_fromEntries fd)); reflexivity.
Qed.

Lemma withAuth_authenticated {T} (action : FormData -> AuthData.t -> Async T)
    fd w s :
  getSession w = (Returned (Some s), w) ->
  withAuth action fd w =
    match List.find (user_matches (only_id (userId s))) (users (db w)),
          team_by_id (teamId s) (db w) with
    | Some user, Some team =>
        action fd {| AuthData.user := user; AuthData.team := team;
                     AuthData.userRole := userRole s |} w
    | _, _ => (Redirected "/sign-in", w)
    end.
Proof.
  intros Hs. unfold withAuth, bind. rewrite Hs.
  unfold Promise_all2, bind, spawn, await, user_findFirst, team_findFirst, ret.
  change {| where_id := Some (userId s); where_email := None;
            where_deletedAt := None |} with (only_id (userId s)).
  destruct (List.find (user_matches (only_id (userId s))) (users (db w)));
    destruct (team_by_id (teamId s) (db w)); reflexivity.
Qed.

(** The lookups that filter on [deletedAt: null] never yield a
    soft-deleted user. *)
Lemma live_email_excludes_deleted email w u :
  user_findFirst (live_email email) w = (Returned (Some u), w) ->
  User.deletedAt u = None.
Proof.
  unfold user_findFirst. intros Hf. inversion Hf as [Hfind].
  apply List.find_some in Hfind. destruct Hfind as [_ Hm].
  unfold user_matches, live_email in Hm. cbn in Hm.
  apply andb_prop in Hm. destruct Hm as [_ Hd].
  apply bool_decide_eq_true in Hd. exact Hd.
Qed.

(** C7: when the parse fails, [validatedAction] returns
    [{ error: m }] with [m] the message of the first issue, in the same
    world and whatever the handler is (it does not throw and does not call
    the handler); when the parse succeeds it is the handler applied to the
    parsed data and the raw form. *)
Theorem validatedAction_result {S} (schema : ZodType S)
    (action : S -> FormData -> Async ActionState) prev fd w :
  (forall first rest,
      schema (Object_fromEntries fd) = ParseFailure first rest ->
      forall action',
        validatedAction schema action' prev fd w =
          (Returned {| error := Some (message first); success := None |}, w))
  /\ (forall data,
        schema (Object_fromEntries fd) = ParseSuccess data ->
        validatedAction schema action prev fd w = action data fd w).
Proof.
  split.
  - intros first rest Hp action'. unfold validatedAction. rewrite Hp.
    reflexivity.
  - intros data Hp. unfold validatedAction. rewrite Hp. reflexivity.
Qed.

(** C5: [validatedActionWithUser] throws, whatever the schema and the
    action are, when no session is resolved (no cookie, or a cookie that
    does not decode) and when no user has the session's [userId]; once
    both are resolved it does not throw by itself: it returns
    [{ error: m }] on a parse failure and otherwise is the action applied
    to the parsed data, the raw form and the user.  With an action that
    only returns, the guard throws exactly when the session or the user
    is not resolved. *)
Theorem validatedActionWithUser_outcome {S} (schema : ZodType S)
    (action : S -> FormData -> User.t -> Async ActionState) prev fd w :
  (getSession w = (Returned None, w) ->
   forall (schema' : ZodType S) action',
     validatedActionWithUser schema' action' prev fd w =
       (Thrown (Error "User is not authenticated"), w))
  /\ (forall e, getSession w = (Thrown e, w) ->
      forall (schema' : ZodType S) action',
        validatedActionWithUser schema' action' prev fd w = (Thrown e, w))
  /\ (forall s, getSession w = (Returned (Some s), w) ->
      user_findFirst (only_id (userId s)) w = (Returned None, w) ->
      forall (schema' : ZodType S) action',
        validatedActionWithUser schema' action' prev fd w =
          (Thrown (Error "User not found"), w))
  /\ (forall s user, getSession w = (Returned (Some s), w) ->
      user_findFirst (only_id (userId s)) w = (Returned (Some user), w) ->
      (forall first rest,
          schema (Object_fromEntries fd) = ParseFailure first rest ->
          forall action',
            validatedActionWithUser schema action' prev fd w =
              (Returned {| error := Some (message first); success := None |},
               w))
      /\ (forall data,
            schema (Object_fromEntries fd) = ParseSuccess data ->
            validatedActionWithUser schema action prev fd w =
              action data fd user w))
  /\ (forall result,
        is_thrown
          (fst (validatedActionWithUser schema (fun _ _ _ => ret result)
                  prev fd w)) = true
        <-> ~ exists s user,
              getSession w = (Returned (Some s), w)
              /\ user_findFirst (only_id (userId s)) w =
                   (Returned (Some user), w)).
Proof.
  split; [|split; [|split; [|split]]].
  - intros Hs schema' action'.
    apply validatedActionWithUser_unauthenticated. exact Hs.
  - intros e Hs schema' action'.
    apply validatedActionWithUser_undecodable. exact Hs.
  - intros s Hs Hu schema' action'.
    rewrite (validatedActionWithUser_authenticated _ _ _ _ _ _ Hs).
    unfold user_findFirst in Hu. inversion Hu as [Hfind]. rewrite Hfind.
    reflexivity.
  - intros s user Hs Hu. unfold user_findFirst in Hu.
    inversion Hu as [Hfind]. split.
    + intros first rest Hp action'.
      rewrite (validatedActionWithUser_authenticated _ _ _ _ _ _ Hs).
      rewrite Hfind, Hp. reflexivity.
    + intros data Hp.
      rewrite (validatedActionWithUser_authenticated _ _ _ _ _ _ Hs).
      rewrite Hfind, Hp. reflexivity.
  - intros result. split.
    + intros Hthrown (s & user & Hs & Hu).
      rewrite (validatedActionWithUser_authenticated _ _ _ _ _ _ Hs)
        in Hthrown.
      unfold user_findFirst in Hu. inversion Hu as [Hfind].
      rewrite Hfind in Hthrown.
      destruct (schema (Object_fromEntries fd)); discriminate.
    + intros Hnone.
      destruct (getSession_cases w) as [[[s|] Hs]|[e Hs]].
      * rewrite (validatedActionWithUser_authenticated _ _ _ _ _ _ Hs).
        destruct (List.find (user_matches (only_id (userId s)))
                    (users (db w))) as [user|] eqn:Hfind; [|reflexivity].
        exfalso. apply Hnone. exists s, user. split; [exact Hs|].
        unfold user_findFirst. rewrite Hfind. reflexivity.
      * rewrite (validatedActionWithUser_unauthenticated _ _ _ _ _ Hs).
        reflexivity.
      * rewrite (validatedActionWithUser_undecodable _ _ _ _ _ _ Hs).
        reflexivity.
Qed.

(** C6 (amended): [withAuth] redirects to [/sign-in], whatever the action
    is, when [getSession] returns no session (no cookie, or an empty one),
    and when the user or the team of the session is not found (in
    particular when the user is found and the team is not); when both are
    found it is the action called with that user, that team and the role
    of the session; when the cookie does not decode it throws the decoding
    error, whatever the action is: it neither redirects nor calls the
    action. *)
Theorem withAuth_outcome {T} (action : FormData -> AuthData.t -> Async T)
    fd w :
  (getSession w = (Returned None, w) ->
   forall action' : FormData -> AuthData.t -> Async T,
     withAuth action' fd w = (Redirected "/sign-in", w))
  /\ (forall s, getSession w = (Returned (Some s), w) ->
      user_findFirst (only_id (userId s)) w = (Returned None, w)
      \/ team_findFirst (teamId s) w = (Returned None, w) ->
      forall action' : FormData -> AuthData.t -> Async T,
        withAuth action' fd w = (Redirected "/sign-in", w))
  /\ (forall s user team, getSession w = (Returned (Some s), w) ->
      user_findFirst (only_id (userId s)) w = (Returned (Some user), w) ->
      team_findFirst (teamId s) w = (Returned (Some team), w) ->
      withAuth action fd w =
        action fd {| AuthData.user := user; AuthData.team := team;
                     AuthData.userRole := userRole s |} w)
  /\ (forall e, getSession w = (Thrown e, w) ->
      forall action' : FormData -> AuthData.t -> Async T,
        withAuth action' fd w = (Thrown e, w)).
Proof.
  split; [|split; [|split]];
    [| | |intros e Hs action'; unfold withAuth, bind; rewrite Hs; reflexivity].
  - intros Hs action'. unfold withAuth, bind. rewrite Hs. reflexivity.
  - intros s Hs Hmissing action'. rewrite (withAuth_authenticated _ _ _ _ Hs).
    unfold user_findFirst, team_findFirst in Hmissing.
    destruct Hmissing as [Hu|Ht].
    + inversion Hu as [Hfind]. rewrite Hfind. reflexivity.
    + inversion Ht as [Hfind]. rewrite Hfind.
      destruct (List.find (user_matches (only_id (userId s))) (users (db w)));
        reflexivity.
  - intros s user team Hs Hu Ht. rewrite (withAuth_authenticated _ _ _ _ Hs).
    unfold user_findFirst, team_findFirst in Hu, Ht.
    inversion Hu as [Hfu]. inversion Ht as [Hft]. rewrite Hfu, Hft.
    reflexivity.
Qed.

(** C2, on the code: a guard looks the user up by identifier only, so a
    soft-deleted user with a session that verifies reaches the wrapped
    action, in [validatedActionWithUser] and in [withAuth]. *)
Theorem soft_deleted_user_reaches_action {S T} (schema : ZodType S)
    (action : S -> FormData -> User.t -> Async ActionState)
    (action' : FormData -> AuthData.t -> Async T) prev fd w s user team
    data deleted :
  getSession w = (Returned (Some s), w) ->
  user_findFirst (only_id (userId s)) w = (Returned (Some user), w) ->
  User.deletedAt user = Some deleted ->
  team_findFirst (teamId s) w = (Returned (Some team), w) ->
  schema (Object_fromEntries fd) = ParseSuccess data ->
  validatedActionWithUser schema action prev fd w = action data fd user w
  /\ withAuth action' fd w =
       action' fd {| AuthData.user := user; AuthData.team := team;
                     AuthData.userRole := userRole s |} w.
Proof.
  intros Hs Hu _ Ht Hp. unfold user_findFirst, team_findFirst in Hu, Ht.
  inversion Hu as [Hfu]. inversion Ht as [Hft]. split.
  - rewrite (validatedActionWithUser_authenticated _ _ _ _ _ _ Hs).
    rewrite Hfu, Hp. reflexivity.
  - rewrite (withAuth_authenticated _ _ _ _ Hs). rewrite Hfu, Hft.
    reflexivity.
Qed.
End GuardFacts.

(** ** The actions *)

Section ActionFacts.
Context `{Platform} `{Billing}.

(** What [getSession] answers depends on the cookie store and the clock
    only. *)
Lemma getSession_same_cookies w1 w2 :
  cookies w1 = cookies w2 -> clock w1 = clock w2 ->
  fst (getSession w1) = fst (getSession w2).
Proof.
  intros Hc Ht.
  destruct (cookies w2 !! "session") as [c|] eqn:E.
  - assert (E1 : cookies w1 !! "session" = Some c) by (rewrite Hc; exact E).
    rewrite (getSession_cookie w1 c E1), (getSession_cookie w2 c E), Ht.
    destruct (falsy (Cookie.value c)); [reflexivity|].
    destruct (jwtVerify (Cookie.value c) key ["HS256"%string] (clock w2));
      reflexivity.
  - assert (E1 : cookies w1 !! "session" = None) by (rewrite Hc; exact E).
    rewrite (getSession_no_cookie w1 E1), (getSession_no_cookie w2 E).
    reflexivity.
Qed.

Lemma getSession_transfer w1 w2 r :
  cookies w1 = cookies w2 -> clock w1 = clock w2 ->
  getSession w2 = (Returned r, w2) -> getSession w1 = (Returned r, w1).
Proof.
  intros Hc Ht H2.
  pose proof (getSession_same_cookies w1 w2 Hc Ht) as Hf.
  pose proof (getSession_reads w1) as Hs.
  rewrite H2 in Hf.
  destruct (getSession w1) as [r1 w1']. cbn [fst snd] in Hf, Hs.
  subst. reflexivity.
Qed.

(** A log entry touches the activity log, the console and the identifier
    counter, and nothing else. *)
Lemma logActivity_frame type ip w :
  cookies (snd (logActivity type ip w)) = cookies w
  /\ clock (snd (logActivity type ip w)) = clock w
  /\ users (db (snd (logActivity type ip w))) = users (db w)
  /\ teams (db (snd (logActivity type ip w))) = teams (db w)
  /\ teamMembers (db (snd (logActivity type ip w))) = teamMembers (db w)
  /\ invitations (db (snd (logActivity type ip w))) = invitations (db w).
Proof.
  unfold logActivity, bind.
  destruct (getSession_cases w) as [[[s|] Hs]|[e Hs]]; rewrite Hs.
  - unfold activityLog_create, bind, fresh_id. cbn -[too_long].
    destruct (too_long 45 _); [cbn; auto 10|].
    destruct (has_team (teamId s) (db w)
              && has_user (userId s) (db w)); cbn; auto 10.
  - cbn. auto 10.
  - cbn. auto 10.
Qed.

Lemma Promise_all_world ps w : snd (Promise_all ps w) = w.
Proof.
  induction ps as [|[a|e|u] ps IH]; cbn; try reflexivity. exact IH.
Qed.

Lemma logActivity_no_session type ip w :
  getSession w = (Returned None, w) ->
  logActivity type ip w =
    (Returned tt,
     {| clock := clock w; cookies := cookies w; db := db w;
        console := console w ++ ["No session data."%string];
        idCounter := idCounter w |}).
Proof.
  intros Hs. unfold logActivity, bind. rewrite Hs. reflexivity.
Qed.


Lemma logActivity_session type w s :
  getSession w = (Returned (Some s), w) ->
  has_team (teamId s) (db w) = true ->
  has_user (userId s) (db w) = true ->
  logActivity type None w =
    (Returned tt,
     {| clock := clock w; cookies := cookies w;
        db := {| users := users (db w); teams := teams (db w);
                 teamMembers := teamMembers (db w);
                 activityLogs := activityLogs (db w) ++ [log_row type s w];
                 invitations := invitations (db w) |};
        console := console w; idCounter := S (idCounter w) |}).
Proof.
  intros Hs Ht Hu. unfold logActivity, bind. rewrite Hs.
  unfold activityLog_create, bind, fresh_id. cbn. rewrite Ht, Hu.
  reflexivity.
Qed.


(** *** The sign-in lookup, for comparison with the guards *)

Lemma no_live_row email us :
  (forall u, In u us -> User.email u = email -> User.deletedAt u <> None) ->
  List.find (user_matches (live_email email)) us = None.
Proof.
  intros Hdel.
  destruct (List.find (user_matches (live_email email)) us) as [u|] eqn:Hf;
    [|reflexivity].
  apply List.find_some in Hf. destruct Hf as [Hin Hm].
  unfold user_matches, live_email in Hm. cbn in Hm.
  apply andb_prop in Hm. destruct Hm as [He Hd].
  apply bool_decide_eq_true in He. apply bool_decide_eq_true in Hd.
  exfalso. exact (Hdel u Hin He Hd).
Qed.

(** [signIn] filters on [deletedAt: null]: an address that only
    soft-deleted rows carry is refused like an unknown one. *)
Lemma signIn_refuses_soft_deleted data fd w :
  (forall u, In u (users (db w)) -> User.email u = signIn_email data ->
             User.deletedAt u <> None) ->
  signIn_handler data fd w =
    (Returned (failure "Invalid email or password. Please try again."), w).
Proof.
  intros Hdel. unfold signIn_handler, bind, user_findFirst_with_teams.
  change {| where_id := None; where_email := Some (signIn_email data);
            where_deletedAt := Some None |}
    with (live_email (signIn_email data)).
  rewrite (no_live_row _ _ Hdel). reflexivity.
Qed.

(** *** Sign-up through an invitation *)

Lemma fits_column n s : (String.length s <= n)%nat -> too_long n s = false.
Proof. intros Hn. unfold too_long. apply Nat.ltb_ge. exact Hn. Qed.

(** In tables that respect the widths, an address that a lookup finds in
    a row fits the column. *)
Lemma found_invitation_fits q d i e :
  emails_fit d = true ->
  List.find (invitation_matches q) (invitations d) = Some i ->
  iwhere_email q = Some e ->
  too_long 255 e = false.
Proof.
  intros Hfit Hf Hq. apply List.find_some in Hf. destruct Hf as [Hin Hm].
  unfold emails_fit in Hfit. apply andb_prop in Hfit.
  destruct Hfit as [_ Hinv].
  pose proof (proj1 (forallb_forall _ _) Hinv i Hin) as Hi.
  apply negb_true_iff in Hi.
  unfold invitation_matches in Hm. rewrite Hq in Hm. cbn in Hm.
  apply andb_prop in Hm. destruct Hm as [Hm _].
  apply andb_prop in Hm. destruct Hm as [_ He].
  apply bool_decide_eq_true in He. rewrite <- He. exact Hi.
Qed.

Lemma no_row_with_email email q us :
  existsb (fun u => String.eqb (User.email u) email) us = false ->
  where_email q = Some email ->
  List.find (user_matches q) us = None.
Proof.
  intros Hnone Hq. induction us as [|u us IH]; [reflexivity|].
  cbn in Hnone. apply orb_false_elim in Hnone. destruct Hnone as [Hu Hus].
  cbn. unfold user_matches at 1. rewrite Hq. cbn.
  replace (bool_decide (User.email u = email)) with false.
  - rewrite andb_false_r. cbn. apply IH. exact Hus.
  - symmetry. apply bool_decide_eq_false. intros He.
    apply String.eqb_neq in Hu. contradiction.
Qed.

Lemma has_user_added id us u :
  User.id u = id ->
  existsb (fun u' => String.eqb (User.id u') id) (us ++ [u]) = true.
Proof.
  intros Hid. rewrite existsb_app. apply orb_true_iff. right.
  cbn. rewrite Hid, String.eqb_refl. reflexivity.
Qed.

Lemma team_by_id_found id d t :
  team_by_id id d = Some t -> Team.id t = id /\ has_team id d = true.
Proof.
  unfold team_by_id, has_team. intros Hf. apply List.find_some in Hf.
  destruct Hf as [Hin Heq]. split.
  - apply String.eqb_eq. exact Heq.
  - apply existsb_exists. exists t. split; assumption.
Qed.

Lemma invitation_found q invs i :
  List.find (invitation_matches q) invs = Some i ->
  existsb (fun i' => String.eqb (Invitation.id i') (Invitation.id i)) invs
    = true.
Proof.
  intros Hf. apply List.find_some in Hf. destruct Hf as [Hin _].
  apply existsb_exists. exists i. split; [exact Hin|apply String.eqb_refl].
Qed.


(** From [setSession] on, [signUp] writes the session cookie and leaves
    the memberships alone, however it settles. *)
Lemma signUp_finish_world createdUser team logs fd w :
  exists r w',
    signUp_finish createdUser team logs fd w = (r, w')
    /\ cookies w' =
         cookies (stored (issued (signUp_session createdUser team (clock w))
                            (clock w))
                    (DateOf (clock w + ONE_DAY_MS)) w)
    /\ clock w' = clock w
    /\ teamMembers (db w') = teamMembers (db w).
Proof.
  unfold signUp_finish, bind. rewrite setSession_stored.
  fold (signUp_session createdUser team (clock w)).
  set (w5 := stored _ _ w). unfold spawn.
  destruct (logActivity_frame EMAIL_SIGN_UP None w5)
    as (Fc & Ft & _ & _ & Fm & _).
  destruct (logActivity EMAIL_SIGN_UP None w5) as [r6 w6]. cbn [snd] in *.
  pose proof (Promise_all_world (logs ++ [r6]) w6) as Hp.
  destruct (Promise_all (logs ++ [r6]) w6) as [[[]|e|u] w7];
    cbn [snd] in Hp; subst w7.
  - cbv zeta. destruct (bool_decide _).
    + unfold checkout. eexists _, _. split; [reflexivity|]. auto.
    + eexists _, _. split; [reflexivity|]. auto.
  - eexists _, _. split; [reflexivity|]. auto.
  - eexists _, _. split; [reflexivity|]. auto.
Qed.


Lemma signUp_accept_world createdUser q inv team fd w :
  has_user (User.id createdUser) (db w) = true ->
  List.find (invitation_matches q) (invitations (db w)) = Some inv ->
  team_by_id (Invitation.teamId inv) (db w) = Some team ->
  exists r w' member,
    signUp_accept createdUser inv team fd w = (r, w')
    /\ teamMembers (db w') = teamMembers (db w) ++ [member]
    /\ TeamMember.userId member = User.id createdUser
    /\ TeamMember.teamId member = Invitation.teamId inv
    /\ TeamMember.role member = Invitation.role inv
    /\ getSession w' =
         (Returned (Some (signUp_session createdUser team (clock w))), w').
Proof.
  intros Hu Hi Ht.
  destruct (team_by_id_found _ _ _ Ht) as [_ Hteam].
  pose proof (invitation_found _ _ _ Hi) as Hex.
  unfold signUp_accept, Promise_all2, bind, spawn, await, ret.
  unfold teamMember_create, bind, fresh_id. cbn [db].
  rewrite Hu, Hteam. cbn [negb andb].
  set (member := {| TeamMember.id := cuid (idCounter w);
                    TeamMember.userId := User.id createdUser;
                    TeamMember.teamId := Invitation.teamId inv;
                    TeamMember.role := Invitation.role inv;
                    TeamMember.createdAt := _ |}).
  unfold invitation_update. cbn [db with_db invitations]. rewrite Hex.
  set (w3 := with_db _ (with_db _ _)).
  destruct (logActivity_frame ACCEPT_INVITATION None w3)
    as (Fc & Ft & _ & _ & Fm & _).
  destruct (logActivity ACCEPT_INVITATION None w3) as [r4 w4].
  cbn [snd] in *.
  destruct (signUp_finish_world createdUser team [r4] fd w4)
    as (r & w' & Hfin & Hc & Hclock & Hm).
  exists r, w', member. split; [exact Hfin|].
  split; [rewrite Hm, Fm; reflexivity|].
  do 3 (split; [reflexivity|]).
  apply (getSession_transfer w'
           (stored (issued (signUp_session createdUser team (clock w4))
                      (clock w4))
              (DateOf (clock w4 + ONE_DAY_MS)) w4)).
  - exact Hc.
  - exact Hclock.
  - assert (Hcl : clock w4 = clock w) by (rewrite Ft; reflexivity).
    rewrite <- Hcl. apply getSession_stored_now.
Qed.

(** C10: a sign-up that goes through a pending invitation (the form
    parses, carries a non-empty [inviteId], no user row has the address,
    and the invitation is found with its team) adds one membership, for
    the new user and the invitation's team, with the role of the
    invitation, and writes a session for that user and team whose role is
    [ADMIN] whatever the invitation says; when the invitation says
    [MEMBER], session and membership disagree.  The tables are those of
    the migration: the address that a stored row carries fits its
    column. *)
Theorem signUp_invited_session_is_ADMIN prev fd w data c rest inv team :
  emails_fit (db w) = true ->
  signUpSchema (Object_fromEntries fd) = ParseSuccess data ->
  signUp_inviteId data = Some (String c rest) ->
  existsb (fun u => String.eqb (User.email u) (signUp_email data))
    (users (db w)) = false ->
  invitation_findFirst_with_team
    {| iwhere_id := Some (String c rest);
       iwhere_email := Some (signUp_email data);
       iwhere_status := Some PENDING |} w = (Returned (Some (inv, team)), w) ->
  exists r w' member session,
    signUp prev fd w = (r, w')
    /\ teamMembers (db w') = teamMembers (db w) ++ [member]
    /\ TeamMember.userId member = cuid (idCounter w)
    /\ TeamMember.teamId member = Invitation.teamId inv
    /\ TeamMember.role member = Invitation.role inv
    /\ getSession w' = (Returned (Some session), w')
    /\ userId session = cuid (idCounter w)
    /\ teamId session = Invitation.teamId inv
    /\ userRole session = ADMIN
    /\ (Invitation.role inv = MEMBER ->
        userRole session <> TeamMember.role member).
Proof.
  intros Hfit Hparse Hinvite Hfree Hinv.
  unfold invitation_findFirst_with_team in Hinv.
  destruct (List.find _ (invitations (db w))) as [i|] eqn:Hfind;
    [|discriminate].
  destruct (team_by_id (Invitation.teamId i) (db w)) as [t|] eqn:Hteam;
    [|discriminate].
  inversion Hinv; subst i t. clear Hinv.
  pose proof (found_invitation_fits _ _ _ _ Hfit Hfind eq_refl) as Hwidth.
  unfold signUp, validatedAction. rewrite Hparse.
  unfold signUp_handler. rewrite Hinvite.
  unfold bind at 1. unfold user_findFirst at 1.
  rewrite (no_row_with_email (signUp_email data)
             {| where_id := None; where_email := Some (signUp_email data);
                where_deletedAt := Some None |} _ Hfree eq_refl).
  unfold bind at 1. unfold hashPassword at 1, ret at 1.
  unfold bind at 1. unfold user_create at 1, bind at 1, fresh_id at 1.
  cbn [clock db idCounter users]. rewrite Hwidth, Hfree.
  set (createdUser := {| User.id := cuid (idCounter w); User.name := None;
                         User.email := _; User.passwordHash := _;
                         User.createdAt := _; User.deletedAt := _ |}).
  set (w1 := with_db _ _).
  unfold bind at 1. unfold invitation_findFirst_with_team at 1.
  change (invitations (db w1)) with (invitations (db w)).
  rewrite Hfind.
  change (team_by_id (Invitation.teamId inv) (db w1))
    with (team_by_id (Invitation.teamId inv) (db w)).
  rewrite Hteam.
  change (exists r w' member session,
    signUp_accept createdUser inv team fd w1 = (r, w')
    /\ teamMembers (db w') = teamMembers (db w) ++ [member]
    /\ TeamMember.userId member = cuid (idCounter w)
    /\ TeamMember.teamId member = Invitation.teamId inv
    /\ TeamMember.role member = Invitation.role inv
    /\ getSession w' = (Returned (Some session), w')
    /\ userId session = cuid (idCounter w)
    /\ teamId session = Invitation.teamId inv
    /\ userRole session = ADMIN
    /\ (Invitation.role inv = MEMBER ->
        userRole session <> TeamMember.role member)).
  assert (Hu : has_user (User.id createdUser) (db w1) = true)
    by (apply has_user_added; reflexivity).
  destruct (signUp_accept_world createdUser _ inv team fd w1 Hu Hfind Hteam)
    as (r & w' & member & Hrun & Hm & Hmu & Hmt & Hmr & Hs).
  destruct (team_by_id_found _ _ _ Hteam) as [Htid _].
  exists r, w', member, (signUp_session createdUser team (clock w1)).
  split; [exact Hrun|]. split; [exact Hm|]. split; [exact Hmu|].
  split; [exact Hmt|]. split; [exact Hmr|]. split; [exact Hs|].
  split; [reflexivity|]. split; [exact Htid|]. split; [reflexivity|].
  intros Hrole. cbn. rewrite Hmr, Hrole. discriminate.
Qed.
End ActionFacts.

(** *** The guards and the actions on concrete worlds *)


Lemma validatedAction_result_witness :
  @signIn demo_platform demo_billing no_state bad_form anonymous =
    (Returned {| error := Some "Invalid email"%string; success := None |},
     anonymous).
Proof.
  destruct (@validatedAction_result SignInData (@signInSchema demo_platform)
              (@signIn_handler demo_platform demo_billing) no_state bad_form
              anonymous) as [Hfail _].
  apply (Hfail {| message := "Invalid email"; path := ["email"%string] |}
           [{| message := "String must contain at least 8 character(s)";
               path := ["password"%string] |}]).
  vm_compute. reflexivity.
Defined.

Lemma validatedActionWithUser_outcome_witness :
  @validatedActionWithUser demo_platform SignInData
    (@signInSchema demo_platform) greet no_state good_form anonymous =
    (Thrown (Error "User is not authenticated"), anonymous)
  /\ @validatedActionWithUser demo_platform SignInData
       (@signInSchema demo_platform) greet no_state good_form signed_in =
       (Returned {| error := None; success := Some "ada@example.com"%string |},
        signed_in)
  /\ @validatedActionWithUser demo_platform SignInData
       (@signInSchema demo_platform) greet no_state bad_form signed_in =
       (Returned {| error := Some "Invalid email"%string; success := None |},
        signed_in).
Proof.
  split; [|split].
  - destruct (@validatedActionWithUser_outcome demo_platform SignInData
                (@signInSchema demo_platform) greet no_state good_form
                anonymous) as (Hnone & _).
    apply Hnone. reflexivity.
  - destruct (@validatedActionWithUser_outcome demo_platform SignInData
                (@signInSchema demo_platform) greet no_state good_form
                signed_in) as (_ & _ & _ & Hfound & _).
    destruct (Hfound ada_session ada) as [_ Hok];
      [reflexivity|reflexivity|].
    apply (Hok {| signIn_email := "ada@example.com";
                  signIn_password := "correct horse" |}).
    vm_compute. reflexivity.
  - destruct (@validatedActionWithUser_outcome demo_platform SignInData
                (@signInSchema demo_platform) greet no_state bad_form
                signed_in) as (_ & _ & _ & Hfound & _).
    destruct (Hfound ada_session ada) as [Hbad _];
      [reflexivity|reflexivity|].
    apply (Hbad {| message := "Invalid email"; path := ["email"%string] |}
             [{| message := "String must contain at least 8 character(s)";
                 path := ["password"%string] |}]).
    vm_compute. reflexivity.
Defined.

Lemma withAuth_outcome_witness :
  @withAuth demo_platform string team_name [] anonymous =
    (Redirected "/sign-in", anonymous)
  /\ @withAuth demo_platform string team_name [] teamless =
       (Redirected "/sign-in", teamless)
  /\ @withAuth demo_platform string team_name [] signed_in =
       (Returned "Acme"%string, signed_in)
  /\ @withAuth demo_platform string team_name [] tampered =
       (Thrown (JOSE JWSSignatureVerificationFailed), tampered).
Proof.
  split; [|split; [|split]].
  - destruct (@withAuth_outcome demo_platform string team_name [] anonymous)
      as (Hnone & _).
    apply Hnone. reflexivity.
  - destruct (@withAuth_outcome demo_platform string team_name [] teamless)
      as (_ & Hmissing & _).
    apply (Hmissing {| userData := {| userId := "u1"; teamId := "t9";
                                      userRole := ADMIN |};
                       expires := "87400000" |}); [reflexivity|].
    right. reflexivity.
  - destruct (@withAuth_outcome demo_platform string team_name [] signed_in)
      as (_ & _ & Hboth & _).
    apply (Hboth ada_session ada acme); reflexivity.
  - destruct (@withAuth_outcome demo_platform string team_name [] tampered)
      as (_ & _ & _ & Hthrow).
    apply Hthrow. reflexivity.
Defined.

(** C6, as stated, fails: with a cookie that is not a token, with a token
    whose signature was altered, and with a token read after its
    expiration second, [withAuth] neither redirects nor calls the action:
    it throws. *)
Lemma withAuth_throws_on_undecodable_cookie :
  @withAuth demo_platform string team_name [] garbled =
    (Thrown (JOSE JWSInvalid), garbled)
  /\ @withAuth demo_platform string team_name [] tampered =
       (Thrown (JOSE JWSSignatureVerificationFailed), tampered)
  /\ @withAuth demo_platform string team_name []
       (elapse ONE_DAY_MS signed_in) =
       (Thrown (JOSE JWTExpired), elapse ONE_DAY_MS signed_in).
Proof. repeat split. Qed.

Lemma soft_deleted_user_reaches_action_witness :
  @validatedActionWithUser demo_platform SignInData
    (@signInSchema demo_platform) greet no_state good_form ghost =
    (Returned {| error := None;
                 success := Some "ada@example.com-deleted"%string |}, ghost)
  /\ @withAuth demo_platform string team_name [] ghost =
       (Returned "Acme"%string, ghost).
Proof.
  apply (@soft_deleted_user_reaches_action demo_platform SignInData string
           (@signInSchema demo_platform) greet team_name no_state good_form
           ghost ada_session ada_deleted acme
           {| signIn_email := "ada@example.com";
              signIn_password := "correct horse" |} 500);
    reflexivity.
Defined.



Lemma signUp_invited_session_is_ADMIN_witness :
  exists r w' member session,
    @signUp demo_platform demo_billing no_state bob_form anonymous = (r, w')
    /\ teamMembers (db w') = teamMembers (db anonymous) ++ [member]
    /\ TeamMember.userId member = "c7"%string
    /\ TeamMember.teamId member = "t1"%string
    /\ TeamMember.role member = MEMBER
    /\ @getSession demo_platform w' = (Returned (Some session), w')
    /\ userId session = "c7"%string
    /\ teamId session = "t1"%string
    /\ userRole session = ADMIN
    /\ (MEMBER = MEMBER -> userRole session <> TeamMember.role member).
Proof.
  apply (@signUp_invited_session_is_ADMIN demo_platform demo_billing no_state
           bob_form anonymous
           {| signUp_email := "bob@example.com";
              signUp_password := "hunter2hunter2";
              signUp_inviteId := Some "i1"%string |}
           "i"%char "1"%string invite_bob acme).
  - reflexivity.
  - vm_compute. reflexivity.
  - reflexivity.
  - reflexivity.
  - reflexivity.
Defined.

(** * More properties of the code *)

(** ** Session lifetime *)

Section LifetimeFacts.
Context `{Platform}.

Lemma epoch_add_seconds t n : epoch (t + 1000 * n) = epoch t + n.
Proof.
  unfold epoch. rewrite (Z.mul_comm 1000 n). apply Z.div_add. lia.
Qed.

Lemma epoch_mono a b : a <= b -> epoch a <= epoch b.
Proof. intros Hab. unfold epoch. apply Z.div_le_mono; lia. Qed.

(** Up to one second before the day is over the token is still inside
    its window; from the full day on it is outside. *)
Lemma within_window t d :
  d <= ONE_DAY_MS - 1000 -> epoch (t + d) < epoch t + one_day_from_now.
Proof.
  intros Hd. unfold ONE_DAY_MS, one_day_from_now in *.
  pose proof (epoch_mono (t + d) (t + 1000 * 86399) ltac:(lia)) as Hm.
  rewrite epoch_add_seconds in Hm. lia.
Qed.

Lemma outside_window t d :
  ONE_DAY_MS <= d -> epoch t + one_day_from_now <= epoch (t + d).
Proof.
  intros Hd. unfold ONE_DAY_MS, one_day_from_now in *.
  pose proof (epoch_mono (t + 1000 * 86400) (t + d) ltac:(lia)) as Hm.
  rewrite epoch_add_seconds in Hm. lia.
Qed.

Lemma getSession_stored_expired payload e w d :
  epoch (clock w) + one_day_from_now <= epoch (clock w + d) ->
  getSession (elapse d (stored (issued payload (clock w)) e w)) =
    (Thrown (JOSE JWTExpired),
     elapse d (stored (issued payload (clock w)) e w)).
Proof.
  intros Hd.
  set (w' := elapse d (stored (issued payload (clock w)) e w)).
  assert (Hc : cookies w' !! "session" =
               Some {| Cookie.value := issued payload (clock w);
                       Cookie.expires := e; Cookie.httpOnly := true;
                       Cookie.secure := true; Cookie.sameSite := "lax" |})
    by apply stored_lookup.
  rewrite (getSession_cookie _ _ Hc).
  cbn [Cookie.value]. change (falsy (issued payload (clock w))) with false.
  cbv iota. rewrite jwtVerify_issued.
  change (clock w') with (clock w + d).
  destruct (epoch (clock w) + one_day_from_now <=? epoch (clock w + d)) eqn:E.
  - reflexivity.
  - apply Z.leb_gt in E. lia.
Qed.

(** X1: a session created at time [t] is read back at every later time
    up to [t + 24 h - 1 s], and from [t + 24 h] on reading it throws
    [JWTExpired]. *)
Theorem session_lasts_one_day userData w d :
  (0 <= d -> d <= ONE_DAY_MS - 1000 ->
   getSession (elapse d (snd (setSession userData w))) =
     (Returned (Some {| userData := userData;
                        expires := toISOString (clock w + ONE_DAY_MS) |}),
      elapse d (snd (setSession userData w))))
  /\ (ONE_DAY_MS <= d ->
      getSession (elapse d (snd (setSession userData w))) =
        (Thrown (JOSE JWTExpired), elapse d (snd (setSession userData w)))).
Proof.
  rewrite setSession_stored. cbn [snd]. split.
  - intros _ Hd. apply getSession_stored_issued. apply within_window. exact Hd.
  - intros Hd. apply getSession_stored_expired. apply outside_window. exact Hd.
Qed.

(** X2: once the token in the cookie has expired, [updateSession] does not
    start a new session: it throws [JWTExpired] and writes nothing. *)
Theorem updateSession_after_expiry_throws ud0 userData w d :
  ONE_DAY_MS <= d ->
  updateSession userData (elapse d (snd (setSession ud0 w))) =
    (Thrown (JOSE JWTExpired), elapse d (snd (setSession ud0 w))).
Proof.
  intros Hd. rewrite setSession_stored. cbn [snd].
  unfold updateSession, bind.
  rewrite (getSession_stored_expired _ _ _ _ (outside_window _ _ Hd)).
  reflexivity.
Qed.

(** X3: [getSession] never looks at the payload's [expires].  A session
    created at [t] and refreshed at [t + d1] is still returned at
    [t + 24 h], the instant its [expires] names, and until
    [t + 24 h + d1 - 1 s]. *)
Theorem refreshed_session_outlives_expires ud0 userData w d1 late :
  1000 <= d1 -> d1 <= ONE_DAY_MS - 1000 ->
  0 <= late -> late <= d1 - 1000 ->
  let w1 := elapse d1 (snd (setSession ud0 w)) in
  let w2 := snd (updateSession userData w1) in
  let w3 := elapse (ONE_DAY_MS - d1 + late) w2 in
  clock w3 = clock w + ONE_DAY_MS + late
  /\ getSession w3 =
       (Returned (Some {| userData := userData;
                          expires := toISOString (clock w + ONE_DAY_MS) |}),
        w3).
Proof.
  intros Hd1 Hd1' Hl Hl' w1 w2 w3.
  assert (H1 : getSession w1 =
               (Returned (Some {| userData := ud0;
                                  expires := toISOString
                                               (clock w + ONE_DAY_MS) |}),
                w1)).
  { subst w1. rewrite setSession_stored. cbn [snd].
    apply getSession_stored_issued. apply within_window. exact Hd1'. }
  subst w3 w2. rewrite (updateSession_existing userData w1 _ H1).
  cbn [snd expires]. split.
  - cbn. lia.
  - apply getSession_stored_issued. apply within_window. lia.
Qed.
End LifetimeFacts.

(** ** Who is signed in *)

Section UserFacts.
Context `{Platform} `{Billing}.

(** X4: [getUser] changes nothing.  Without a session cookie it returns
    [null]; with a session it returns the row that the lookup by the
    session's [userId] alone finds, so also a soft-deleted one; with a
    cookie that does not decode it throws the decoding error.  A user it
    returns is a row of the table whose identifier is the [userId] of the
    session that [getSession] reads. *)
Theorem getUser_is_session_user w :
  (cookies w !! "session" = None -> getUser w = (Returned None, w))
  /\ (forall r w', getUser w = (r, w') -> w' = w)
  /\ (forall user w', getUser w = (Returned (Some user), w') ->
      exists s, getSession w = (Returned (Some s), w)
                /\ User.id user = userId s
                /\ In user (users (db w)))
  /\ (forall s user, getSession w = (Returned (Some s), w) ->
      userId s <> EmptyString ->
      user_findFirst (only_id (userId s)) w = (Returned (Some user), w) ->
      getUser w = (Returned (Some user), w))
  /\ (forall s, getSession w = (Returned (Some s), w) ->
      userId s = EmptyString
      \/ user_findFirst (only_id (userId s)) w = (Returned None, w) ->
      getUser w = (Returned None, w))
  /\ (forall e, getSession w = (Thrown e, w) -> getUser w = (Thrown e, w)).
Proof.
  unfold getUser, bind. split; [|split; [|split; [|split; [|split]]]];
    [| | | | |intros e Hs; rewrite Hs; reflexivity];
    [| | |intros s user Hs Hid Hu; rewrite Hs;
          destruct (userId s) as [|a rest] eqn:E; [contradiction|];
          exact Hu
     |intros s Hs [Hid|Hu]; rewrite Hs;
        [rewrite Hid; reflexivity
        |destruct (userId s) as [|a rest] eqn:E; [reflexivity|exact Hu]]].
  - intros Hc. rewrite (getSession_no_cookie _ Hc). reflexivity.
  - intros r w'.
    destruct (getSession_cases w) as [[[s|] Hs]|[e Hs]]; rewrite Hs.
    + destruct (userId s); cbn; intros Hr; inversion Hr; reflexivity.
    + cbn. intros Hr. inversion Hr. reflexivity.
    + intros Hr. inversion Hr. reflexivity.
  - intros user w'.
    destruct (getSession_cases w) as [[[s|] Hs]|[e Hs]]; rewrite Hs.
    + destruct (userId s) as [|a rest] eqn:Hid; [discriminate|].
      unfold user_findFirst. intros Hr. inversion Hr as [[Hfind Hw]].
      apply List.find_some in Hfind. destruct Hfind as [Hin Hm].
      subst w'. exists s. split; [reflexivity|]. split; [|exact Hin].
      unfold user_matches in Hm. cbn in Hm.
      rewrite !andb_true_r in Hm. apply bool_decide_eq_true in Hm.
      rewrite Hid. exact Hm.
    + discriminate.
    + discriminate.
Qed.

(** X5: once the token in the cookie has expired, [signOut] throws
    [JWTExpired]: no row is logged and the cookie is not removed. *)
Theorem signOut_after_expiry_keeps_cookie userData w d :
  ONE_DAY_MS <= d ->
  signOut (elapse d (snd (setSession userData w))) =
    (Thrown (JOSE JWTExpired), elapse d (snd (setSession userData w)))
  /\ is_Some (cookies (elapse d (snd (setSession userData w))) !! "session").
Proof.
  intros Hd. rewrite setSession_stored. cbn [snd]. split.
  - unfold signOut, logActivity, bind.
    rewrite (getSession_stored_expired _ _ _ _ (outside_window _ _ Hd)).
    reflexivity.
  - eexists. apply stored_lookup.
Qed.
End UserFacts.

(** ** Signing in *)

Section SignInFacts.
Context `{Platform} `{Billing}.

Lemma signIn_reaches_handler prev fd w data :
  signInSchema (Object_fromEntries fd) = ParseSuccess data ->
  signIn prev fd w = signIn_handler data fd w.
Proof. intros Hp. unfold signIn, validatedAction. rewrite Hp. reflexivity. Qed.

(** X6: an unknown (or soft-deleted) address and a wrong password get the
    same answer from [signIn], and neither writes anything: no cookie, no
    row, no console line. *)
Theorem signIn_bad_credentials prev fd w data :
  signInSchema (Object_fromEntries fd) = ParseSuccess data ->
  user_findFirst_with_teams (live_email (signIn_email data)) w =
    (Returned None, w)
  \/ (exists user teams c h,
        user_findFirst_with_teams (live_email (signIn_email data)) w =
          (Returned (Some (user, teams)), w)
        /\ User.passwordHash user = Some (String c h)
        /\ bcrypt_compare (signIn_password data) (String c h) = false) ->
  signIn prev fd w =
    (Returned {| error := Some "Invalid email or password. Please try again."%string;
                 success := None |}, w).
Proof.
  intros Hparse Hcase. rewrite (signIn_reaches_handler _ _ _ _ Hparse).
  unfold signIn_handler, bind.
  change {| where_id := None; where_email := Some (signIn_email data);
            where_deletedAt := Some None |}
    with (live_email (signIn_email data)).
  destruct Hcase as [Hnone|(user & teams & c & h & Hfind & Hhash & Hcmp)].
  - rewrite Hnone. reflexivity.
  - rewrite Hfind, Hhash. unfold comparePasswords, ret. rewrite Hcmp.
    reflexivity.
Qed.

(** X7: a successful [signIn] on a request without session cookie writes
    the session of the user (first membership's team and role) and
    redirects to [/dashboard], but logs nothing: [logActivity] reads the
    cookie before [setSession] writes it, finds no session, and only
    reports on the console. *)
Theorem signIn_from_anonymous_request prev fd w data user membership team
    rest c h :
  signInSchema (Object_fromEntries fd) = ParseSuccess data ->
  cookies w !! "session" = None ->
  user_findFirst_with_teams (live_email (signIn_email data)) w =
    (Returned (Some (user, (membership, team) :: rest)), w) ->
  User.passwordHash user = Some (String c h) ->
  bcrypt_compare (signIn_password data) (String c h) = true ->
  FormData_get fd "redirect" <> Some "checkout"%string ->
  exists w',
    signIn prev fd w = (Redirected "/dashboard", w')
    /\ getSession w' =
         (Returned
            (Some {| userData := {| userId := User.id user;
                                    teamId := TeamMember.teamId membership;
                                    userRole := TeamMember.role membership |};
                     expires := toISOString (clock w + ONE_DAY_MS) |}), w')
    /\ db w' = db w
    /\ console w' = console w ++ ["No session data."%string].
Proof.
  intros Hparse Hanon Hfind Hhash Hcmp Hredir.
  rewrite (signIn_reaches_handler _ _ _ _ Hparse).
  unfold signIn_handler, bind.
  change {| where_id := None; where_email := Some (signIn_email data);
            where_deletedAt := Some None |}
    with (live_email (signIn_email data)).
  rewrite Hfind, Hhash. unfold comparePasswords, ret. rewrite Hcmp.
  cbn [negb]. unfold spawn.
  rewrite (logActivity_no_session _ _ _ (getSession_no_cookie _ Hanon)).
  rewrite setSession_stored. unfold await.
  rewrite (bool_decide_eq_false_2 _ Hredir).
  eexists. split; [reflexivity|]. split; [|split; reflexivity].
  apply (getSession_stored_now _ _
           {| clock := clock w; cookies := cookies w; db := db w;
              console := console w ++ ["No session data."%string];
              idCounter := idCounter w |}).
Qed.

(** X8: when the request of a successful [signIn] carries a session that
    verifies, the [EMAIL_SIGN_IN] row is written for the user and team of
    that earlier session, not for the user who signs in; the cookie then
    holds the session of the user who signed in. *)
Theorem signIn_logs_the_earlier_session prev fd w data user membership team
    rest c h earlier :
  signInSchema (Object_fromEntries fd) = ParseSuccess data ->
  getSession w = (Returned (Some earlier), w) ->
  has_team (teamId earlier) (db w) = true ->
  has_user (userId earlier) (db w) = true ->
  user_findFirst_with_teams (live_email (signIn_email data)) w =
    (Returned (Some (user, (membership, team) :: rest)), w) ->
  User.passwordHash user = Some (String c h) ->
  bcrypt_compare (signIn_password data) (String c h) = true ->
  FormData_get fd "redirect" <> Some "checkout"%string ->
  exists w' row,
    signIn prev fd w = (Redirected "/dashboard", w')
    /\ activityLogs (db w') = activityLogs (db w) ++ [row]
    /\ ActivityLog.action row = EMAIL_SIGN_IN
    /\ ActivityLog.userId row = Some (userId earlier)
    /\ ActivityLog.teamId row = teamId earlier
    /\ getSession w' =
         (Returned
            (Some {| userData := {| userId := User.id user;
                                    teamId := TeamMember.teamId membership;
                                    userRole := TeamMember.role membership |};
                     expires := toISOString (clock w + ONE_DAY_MS) |}), w').
Proof.
  intros Hparse Hs Ht Hu Hfind Hhash Hcmp Hredir.
  rewrite (signIn_reaches_handler _ _ _ _ Hparse).
  unfold signIn_handler, bind.
  change {| where_id := None; where_email := Some (signIn_email data);
            where_deletedAt := Some None |}
    with (live_email (signIn_email data)).
  rewrite Hfind, Hhash. unfold comparePasswords, ret. rewrite Hcmp.
  cbn [negb]. unfold spawn.
  rewrite (logActivity_session _ _ _ Hs Ht Hu).
  rewrite setSession_stored. unfold await.
  rewrite (bool_decide_eq_false_2 _ Hredir).
  eexists. exists (log_row EMAIL_SIGN_IN earlier w).
  split; [reflexivity|]. do 4 (split; [reflexivity|]).
  match goal with
  | |- getSession (stored _ _ ?wl) = _ => apply (getSession_stored_now _ _ wl)
  end.
Qed.

(** X9: [signIn] with the right password for a user who has no
    membership throws a [TypeError] ([teams[0]] is undefined) and writes
    nothing. *)
Theorem signIn_without_membership_throws prev fd w data user c h :
  signInSchema (Object_fromEntries fd) = ParseSuccess data ->
  user_findFirst_with_teams (live_email (signIn_email data)) w =
    (Returned (Some (user, [])), w) ->
  User.passwordHash user = Some (String c h) ->
  bcrypt_compare (signIn_password data) (String c h) = true ->
  signIn prev fd w =
    (Thrown (TypeError
       "Cannot read properties of undefined (reading 'teamId')"), w).
Proof.
  intros Hparse Hfind Hhash Hcmp.
  rewrite (signIn_reaches_handler _ _ _ _ Hparse).
  unfold signIn_handler, bind.
  change {| where_id := None; where_email := Some (signIn_email data);
            where_deletedAt := Some None |}
    with (live_email (signIn_email data)).
  rewrite Hfind, Hhash. unfold comparePasswords, ret. rewrite Hcmp.
  reflexivity.
Qed.
End SignInFacts.

(** ** Signing up *)

Section SignUpFacts.
Context `{Platform} `{Billing}.

Lemma has_team_added id ts t :
  Team.id t = id ->
  existsb (fun t' => String.eqb (Team.id t') id) (ts ++ [t]) = true.
Proof.
  intros Hid. rewrite existsb_app. apply orb_true_iff. right.
  cbn. rewrite Hid, String.eqb_refl. reflexivity.
Qed.

(** Up to the creation of the user, [signUp] goes one way. *)
Lemma signUp_creates_user prev fd w data :
  signUpSchema (Object_fromEntries fd) = ParseSuccess data ->
  existsb (fun u => String.eqb (User.email u) (signUp_email data))
    (users (db w)) = false ->
  too_long 255 (signUp_email data) = false ->
  let user := new_user (signUp_email data) (signUp_password data) w in
  signUp prev fd w =
    match signUp_inviteId data with
    | Some (String c rest as inviteId) =>
        (let* invitation :=
           invitation_findFirst_with_team
             {| iwhere_id := Some inviteId;
                iwhere_email := Some (signUp_email data);
                iwhere_status := Some PENDING |} in
         match invitation with
         | None => fail "Invalid or expired invitation."
         | Some (invitation, invitedTo) =>
             signUp_accept user invitation invitedTo fd
         end) (with_new_user user w)
    | _ => signUp_alone user fd (with_new_user user w)
    end.
Proof.
  intros Hparse Hfree Hwidth user.
  unfold signUp, validatedAction. rewrite Hparse.
  unfold signUp_handler.
  unfold bind at 1. unfold user_findFirst at 1.
  rewrite (no_row_with_email (signUp_email data)
             {| where_id := None; where_email := Some (signUp_email data);
                where_deletedAt := Some None |} _ Hfree eq_refl).
  unfold bind at 1. unfold hashPassword at 1, ret at 1.
  unfold bind at 1. unfold user_create at 1, bind at 1, fresh_id at 1.
  cbn [clock db idCounter users]. rewrite Hwidth, Hfree.
  destruct (signUp_inviteId data) as [[|c rest]|]; reflexivity.
Qed.

(** An address that is free and does not fit the column stops [signUp] at
    the insertion of the user. *)
Lemma signUp_address_too_long prev fd w data :
  signUpSchema (Object_fromEntries fd) = ParseSuccess data ->
  existsb (fun u => String.eqb (User.email u) (signUp_email data))
    (users (db w)) = false ->
  too_long 255 (signUp_email data) = true ->
  signUp prev fd w = (Thrown (PrismaError "P2000"), next_id w).
Proof.
  intros Hparse Hfree Hwidth.
  unfold signUp, validatedAction. rewrite Hparse.
  unfold signUp_handler.
  unfold bind at 1. unfold user_findFirst at 1.
  rewrite (no_row_with_email (signUp_email data)
             {| where_id := None; where_email := Some (signUp_email data);
                where_deletedAt := Some None |} _ Hfree eq_refl).
  unfold bind at 1. unfold hashPassword at 1, ret at 1.
  unfold bind at 1. unfold user_create at 1, bind at 1, fresh_id at 1.
  cbn [clock db idCounter users]. rewrite Hwidth. reflexivity.
Qed.

Lemma over_column n s : (n < String.length s)%nat -> too_long n s = true.
Proof. intros Hn. unfold too_long. apply Nat.ltb_lt. exact Hn. Qed.

Lemma signUp_alone_world createdUser fd w :
  has_user (User.id createdUser) (db w) = true ->
  cookies w !! "session" = None ->
  FormData_get fd "redirect" <> Some "checkout"%string ->
  exists w' team member row,
    signUp_alone createdUser fd w = (Redirected "/dashboard", w')
    /\ users (db w') = users (db w)
    /\ teams (db w') = teams (db w) ++ [team]
    /\ teamMembers (db w') = teamMembers (db w) ++ [member]
    /\ activityLogs (db w') = activityLogs (db w) ++ [row]
    /\ invitations (db w') = invitations (db w)
    /\ Team.name team = "Personal Account"%string
    /\ TeamMember.userId member = User.id createdUser
    /\ TeamMember.teamId member = Team.id team
    /\ TeamMember.role member = ADMIN
    /\ ActivityLog.action row = EMAIL_SIGN_UP
    /\ ActivityLog.userId row = Some (User.id createdUser)
    /\ ActivityLog.teamId row = Team.id team
    /\ getSession w' =
         (Returned (Some (signUp_session createdUser team (clock w))), w').
Proof.
  intros Hu Hanon Hredir.
  unfold signUp_alone. unfold bind at 1. unfold team_create, bind, fresh_id.
  change (too_long 100 "Personal Account") with false.
  cbn [clock db idCounter].
  set (team := {| Team.id := cuid (idCounter w); Team.name := _;
                  Team.createdAt := _ |}).
  set (w1 := with_db _ _).
  unfold teamMember_create, bind, fresh_id.
  assert (Hu1 : has_user (User.id createdUser) (db w1) = true) by exact Hu.
  assert (Ht1 : has_team (Team.id team) (db w1) = true)
    by (apply has_team_added; reflexivity).
  cbn [clock db idCounter].
  rewrite Hu1, Ht1. cbn [andb negb].
  set (member := {| TeamMember.id := _; TeamMember.userId := _;
                    TeamMember.teamId := _; TeamMember.role := _;
                    TeamMember.createdAt := _ |}).
  set (w2 := with_db _ _).
  unfold spawn.
  assert (Hanon2 : cookies w2 !! "session" = None) by exact Hanon.
  rewrite (logActivity_no_session _ _ _ (getSession_no_cookie _ Hanon2)).
  set (w3 := {| clock := clock w2; cookies := _; db := _; console := _;
                idCounter := _ |}).
  unfold signUp_finish, bind, spawn. rewrite setSession_stored.
  set (w4 := stored _ _ w3).
  assert (Hs4 : getSession w4 =
                (Returned (Some (signUp_session createdUser team (clock w))),
                 w4)) by apply (getSession_stored_now _ _ w3).
  assert (Ht4 : has_team (teamId (signUp_session createdUser team (clock w)))
                  (db w4) = true) by exact Ht1.
  assert (Hu4 : has_user (userId (signUp_session createdUser team (clock w)))
                  (db w4) = true) by exact Hu.
  rewrite (logActivity_session _ _ _ Hs4 Ht4 Hu4).
  cbn [app Promise_all]. unfold ret.
  rewrite (bool_decide_eq_false_2 _ Hredir).
  eexists _, team, member,
    (log_row EMAIL_SIGN_UP (signUp_session createdUser team (clock w)) w4).
  split; [reflexivity|]. do 12 (split; [reflexivity|]).
  apply (getSession_transfer _ w4); [reflexivity|reflexivity|exact Hs4].
Qed.

(** X10: a sign-up without invitation, with an address that no row
    carries, on a request without session cookie.  When the address has at
    most 255 characters it adds exactly one user, one team named "Personal
    Account" and one [ADMIN] membership joining them, writes the session
    of that user and team, and appends exactly one log row,
    [EMAIL_SIGN_UP]: the [CREATE_TEAM] entry is asked for before the
    session exists and is skipped.  When the address is longer, which the
    schema lets through, the insertion of the user throws P2000 and
    nothing is written. *)
Theorem signUp_without_invitation prev fd w data :
  signUpSchema (Object_fromEntries fd) = ParseSuccess data ->
  signUp_inviteId data = None \/ signUp_inviteId data = Some EmptyString ->
  existsb (fun u => String.eqb (User.email u) (signUp_email data))
    (users (db w)) = false ->
  cookies w !! "session" = None ->
  FormData_get fd "redirect" <> Some "checkout"%string ->
  ((String.length (signUp_email data) <= 255)%nat ->
   exists w' user team member row,
     signUp prev fd w = (Redirected "/dashboard", w')
     /\ users (db w') = users (db w) ++ [user]
     /\ teams (db w') = teams (db w) ++ [team]
     /\ teamMembers (db w') = teamMembers (db w) ++ [member]
     /\ activityLogs (db w') = activityLogs (db w) ++ [row]
     /\ invitations (db w') = invitations (db w)
     /\ User.email user = signUp_email data
     /\ User.passwordHash user =
          Some (bcrypt_hash (signUp_password data) SALT_ROUNDS)
     /\ Team.name team = "Personal Account"%string
     /\ TeamMember.userId member = User.id user
     /\ TeamMember.teamId member = Team.id team
     /\ TeamMember.role member = ADMIN
     /\ ActivityLog.action row = EMAIL_SIGN_UP
     /\ ActivityLog.userId row = Some (User.id user)
     /\ ActivityLog.teamId row = Team.id team
     /\ getSession w' =
          (Returned (Some (signUp_session user team (clock w))), w'))
  /\ ((255 < String.length (signUp_email data))%nat ->
      signUp prev fd w = (Thrown (PrismaError "P2000"), next_id w)
      /\ db (next_id w) = db w /\ cookies (next_id w) = cookies w).
Proof.
  intros Hparse Hinvite Hfree Hanon Hredir. split;
    [|intros Hlong; split;
      [apply (signUp_address_too_long prev fd w data Hparse Hfree);
       apply over_column; exact Hlong
      |split; reflexivity]].
  intros Hshort.
  rewrite (signUp_creates_user prev fd w data Hparse Hfree
             (fits_column _ _ Hshort)).
  set (user := new_user (signUp_email data) (signUp_password data) w).
  assert (Hu : has_user (User.id user) (db (with_new_user user w)) = true)
    by (apply has_user_added; reflexivity).
  destruct (signUp_alone_world user fd (with_new_user user w) Hu Hanon Hredir)
    as (w' & team & member & row & Hrun & Husers & Hteams & Hmembers & Hlogs
        & Hinvs & Hrest).
  exists w', user, team, member, row.
  split; [destruct Hinvite as [E|E]; rewrite E; exact Hrun|].
  split; [exact Husers|]. split; [exact Hteams|]. split; [exact Hmembers|].
  split; [exact Hlogs|]. split; [exact Hinvs|].
  split; [reflexivity|]. split; [reflexivity|]. exact Hrest.
Qed.

(** X11: a sign-up that names an invitation which is not found (wrong
    identifier, other address, or no longer pending) answers "Invalid or
    expired invitation." after the user row has been inserted: the row
    stays, without team, membership or session, and the same form sent
    again is refused with "User already exists".  The address is one
    that the column takes: at most 255 characters. *)
Theorem signUp_unknown_invitation_keeps_user prev fd w data c rest :
  signUpSchema (Object_fromEntries fd) = ParseSuccess data ->
  signUp_inviteId data = Some (String c rest) ->
  existsb (fun u => String.eqb (User.email u) (signUp_email data))
    (users (db w)) = false ->
  (String.length (signUp_email data) <= 255)%nat ->
  invitation_findFirst_with_team
    {| iwhere_id := Some (String c rest);
       iwhere_email := Some (signUp_email data);
       iwhere_status := Some PENDING |} w = (Returned None, w) ->
  exists w' user,
    signUp prev fd w =
      (Returned {| error := Some "Invalid or expired invitation."%string;
                   success := None |}, w')
    /\ users (db w') = users (db w) ++ [user]
    /\ User.email user = signUp_email data
    /\ User.deletedAt user = None
    /\ teams (db w') = teams (db w)
    /\ teamMembers (db w') = teamMembers (db w)
    /\ cookies w' = cookies w
    /\ signUp prev fd w' =
         (Returned
            {| error := Some "Failed to create user. User already exists."%string;
               success := None |}, w').
Proof.
  intros Hparse Hinvite Hfree Hshort Hinv.
  rewrite (signUp_creates_user prev fd w data Hparse Hfree
             (fits_column _ _ Hshort)), Hinvite.
  set (user := new_user (signUp_email data) (signUp_password data) w).
  unfold invitation_findFirst_with_team in Hinv.
  unfold bind, invitation_findFirst_with_team.
  change (invitations (db (with_new_user user w))) with (invitations (db w)).
  destruct (List.find _ (invitations (db w))) as [i|] eqn:Hfind.
  - change (team_by_id (Invitation.teamId i) (db (with_new_user user w)))
      with (team_by_id (Invitation.teamId i) (db w)).
    destruct (team_by_id (Invitation.teamId i) (db w)); discriminate.
  - exists (with_new_user user w), user.
    split; [reflexivity|]. do 6 (split; [reflexivity|]).
    unfold signUp, validatedAction. rewrite Hparse.
    unfold signUp_handler, bind, user_findFirst.
    destruct (List.find _ (users (db (with_new_user user w)))) as [u|] eqn:Hu;
      [reflexivity|].
    exfalso.
    assert (Hin : In user (users (db (with_new_user user w))))
      by (cbn; apply in_or_app; right; left; reflexivity).
    pose proof (List.find_none _ _ Hu user Hin) as Hno.
    unfold user_matches in Hno. cbn in Hno.
    rewrite bool_decide_eq_true_2 in Hno by reflexivity.
    discriminate.
Qed.
End SignUpFacts.

(** ** The account actions *)

Section AccountFacts.
Context `{Platform} `{Billing}.

Lemma find_only_id id us :
  List.find (user_matches (only_id id)) us =
  List.find (fun u => String.eqb (User.id u) id) us.
Proof.
  induction us as [|u us IH]; [reflexivity|].
  cbn. unfold user_matches at 1. cbn. rewrite !andb_true_r.
  destruct (String.eqb_spec (User.id u) id) as [E|E].
  - rewrite bool_decide_eq_true_2 by exact E. reflexivity.
  - rewrite bool_decide_eq_false_2 by exact E. exact IH.
Qed.

Lemma found_by_id id w user :
  user_findFirst (only_id id) w = (Returned (Some user), w) ->
  User.id user = id /\ In user (users (db w))
  /\ has_user id (db w) = true.
Proof.
  unfold user_findFirst. intros Hu. inversion Hu as [Hfind].
  rewrite find_only_id in Hfind. apply List.find_some in Hfind.
  destruct Hfind as [Hin Heq]. apply String.eqb_eq in Heq.
  split; [exact Heq|]. split; [exact Hin|].
  unfold has_user. apply existsb_exists. exists user.
  split; [exact Hin|]. rewrite Heq. apply String.eqb_refl.
Qed.

Lemma has_user_updated id data us x :
  existsb (fun u => String.eqb (User.id u) x)
    (map (fun o => if String.eqb (User.id o) id
                   then apply_update data o else o) us)
  = existsb (fun u => String.eqb (User.id u) x) us.
Proof.
  induction us as [|u us IH]; [reflexivity|].
  cbn. rewrite IH. destruct (String.eqb (User.id u) id); reflexivity.
Qed.

Lemma user_update_found id data w user :
  user_findFirst (only_id id) w = (Returned (Some user), w) ->
  over_width data = false ->
  match set_email data with
  | Some e => email_taken_by_other id e (db w)
  | None => false
  end = false ->
  user_update id data w =
    (Returned (apply_update data user), updated id data w).
Proof.
  intros Hu Hwidth Hfree. unfold user_findFirst in Hu.
  inversion Hu as [Hfind]. rewrite find_only_id in Hfind.
  unfold user_update. rewrite Hfind, Hwidth, Hfree. reflexivity.
Qed.

Lemma user_update_taken id e data w user :
  user_findFirst (only_id id) w = (Returned (Some user), w) ->
  over_width data = false ->
  set_email data = Some e ->
  email_taken_by_other id e (db w) = true ->
  user_update id data w = (Thrown (PrismaError "P2002"), w).
Proof.
  intros Hu Hwidth He Htaken. unfold user_findFirst in Hu.
  inversion Hu as [Hfind]. rewrite find_only_id in Hfind.
  unfold user_update. rewrite Hfind, Hwidth, He, Htaken. reflexivity.
Qed.

Lemma user_update_over_width id data w user :
  user_findFirst (only_id id) w = (Returned (Some user), w) ->
  over_width data = true ->
  user_update id data w = (Thrown (PrismaError "P2000"), w).
Proof.
  intros Hu Hwidth. unfold user_findFirst in Hu.
  inversion Hu as [Hfind]. rewrite find_only_id in Hfind.
  unfold user_update. rewrite Hfind, Hwidth. reflexivity.
Qed.

(** In tables that respect the widths, an address that a row carries fits
    the column. *)
Lemma taken_address_fits id e d :
  emails_fit d = true ->
  email_taken_by_other id e d = true ->
  too_long 255 e = false.
Proof.
  intros Hfit Htaken. unfold emails_fit in Hfit. apply andb_prop in Hfit.
  destruct Hfit as [Husers _].
  unfold email_taken_by_other in Htaken. apply existsb_exists in Htaken.
  destruct Htaken as (o & Hin & Ho). apply andb_prop in Ho.
  destruct Ho as [_ He]. apply String.eqb_eq in He.
  pose proof (proj1 (forallb_forall _ _) Husers o Hin) as Hw.
  apply negb_true_iff in Hw. rewrite <- He. exact Hw.
Qed.

(** The log entry of a session that verifies, after a change that left
    cookies, clock, teams and user identifiers alone. *)
Lemma logActivity_after type w w1 s :
  getSession w = (Returned (Some s), w) ->
  cookies w1 = cookies w -> clock w1 = clock w ->
  has_team (teamId s) (db w1) = true ->
  has_user (userId s) (db w1) = true ->
  logActivity type None w1 =
    (Returned tt,
     {| clock := clock w1; cookies := cookies w1;
        db := {| users := users (db w1); teams := teams (db w1);
                 teamMembers := teamMembers (db w1);
                 activityLogs := activityLogs (db w1) ++ [log_row type s w1];
                 invitations := invitations (db w1) |};
        console := console w1; idCounter := S (idCounter w1) |}).
Proof.
  intros Hs Hc Ht Hteam Huser.
  apply logActivity_session; [|exact Hteam|exact Huser].
  apply (getSession_transfer w1 w); assumption.
Qed.

Lemma refined_success {D} (schema : ZodType D) raw check issue o d :
  z_refine schema raw check issue o = ParseSuccess d -> check d = true.
Proof.
  unfold z_refine. destruct (schema o) as [d0|first rest].
  - destruct (check d0) eqn:E; [|discriminate].
    intros Hd. inversion Hd; subst. exact E.
  - destruct (raw o) as [d0|]; [destruct (check d0)|]; discriminate.
Qed.

(** X12: with a session and a user that resolve, a form that parses, the
    current password right and the new one different, [updatePassword]
    stores the bcrypt hash of the new password in the row of that user and
    in no other row, appends one [UPDATE_PASSWORD] row and leaves the
    cookie alone. *)
Theorem updatePassword_changes_hash prev fd w s user data c h :
  getSession w = (Returned (Some s), w) ->
  user_findFirst (only_id (userId s)) w = (Returned (Some user), w) ->
  updatePasswordSchema (Object_fromEntries fd) = ParseSuccess data ->
  User.passwordHash user = Some (String c h) ->
  bcrypt_compare (currentPassword data) (String c h) = true ->
  currentPassword data <> newPassword data ->
  has_team (teamId s) (db w) = true ->
  exists w' row,
    updatePassword prev fd w =
      (Returned {| error := None;
                   success := Some "Password updated successfully."%string |},
       w')
    /\ users (db w') =
         map (fun o => if String.eqb (User.id o) (userId s)
                       then apply_update
                              (new_hash (bcrypt_hash (newPassword data)
                                           SALT_ROUNDS)) o
                       else o) (users (db w))
    /\ activityLogs (db w') = activityLogs (db w) ++ [row]
    /\ ActivityLog.action row = UPDATE_PASSWORD
    /\ ActivityLog.userId row = Some (userId s)
    /\ cookies w' = cookies w.
Proof.
  intros Hs Hu Hparse Hhash Hcmp Hdiff Hteam.
  destruct (found_by_id _ _ _ Hu) as (Hid & _ & Huser).
  unfold updatePassword.
  rewrite (validatedActionWithUser_authenticated _ _ _ _ _ _ Hs).
  pose proof Hu as Hu'. unfold user_findFirst in Hu'. inversion Hu' as [Hfind].
  rewrite Hfind, Hparse.
  unfold updatePassword_handler. rewrite Hhash.
  unfold bind at 1. unfold comparePasswords at 1, ret at 1. rewrite Hcmp.
  cbn [negb]. rewrite (proj2 (String.eqb_neq _ _) Hdiff).
  unfold bind at 1. unfold hashPassword at 1, ret at 1.
  unfold Promise_all2, bind, spawn, await, ret. rewrite Hid.
  fold (new_hash (bcrypt_hash (newPassword data) SALT_ROUNDS)).
  rewrite (user_update_found _ (new_hash _) _ _ Hu eq_refl eq_refl).
  assert (Hu1 : has_user (userId s)
                  (db (updated (userId s)
                         (new_hash (bcrypt_hash (newPassword data)
                                      SALT_ROUNDS)) w)) = true).
  { unfold has_user, updated. cbn. rewrite has_user_updated. exact Huser. }
  rewrite (logActivity_after UPDATE_PASSWORD w
             (updated (userId s)
                (new_hash (bcrypt_hash (newPassword data) SALT_ROUNDS)) w)
             s Hs eq_refl eq_refl Hteam Hu1).
  unfold succeed, ret.
  eexists. eexists (log_row UPDATE_PASSWORD s _).
  split; [reflexivity|]. repeat split.
Qed.

(** X13: [updatePassword] changes the users table only when a session and
    its user resolve, the form parses (so the new password and its
    confirmation agree) and the submitted current password matches the
    stored hash. *)
Theorem updatePassword_needs_current_password prev fd w :
  users (db (snd (updatePassword prev fd w))) <> users (db w) ->
  exists s user data stored,
    getSession w = (Returned (Some s), w)
    /\ user_findFirst (only_id (userId s)) w = (Returned (Some user), w)
    /\ updatePasswordSchema (Object_fromEntries fd) = ParseSuccess data
    /\ User.passwordHash user = Some stored
    /\ bcrypt_compare (currentPassword data) stored = true
    /\ newPassword data = confirmPassword data
    /\ currentPassword data <> newPassword data.
Proof.
  intros Hchanged. unfold updatePassword in Hchanged.
  destruct (getSession_cases w) as [[[s|] Hs]|[e Hs]].
  - rewrite (validatedActionWithUser_authenticated _ _ _ _ _ _ Hs) in Hchanged.
    destruct (List.find (user_matches (only_id (userId s))) (users (db w)))
      as [user|] eqn:Hfind; [|contradiction].
    destruct (updatePasswordSchema (Object_fromEntries fd))
      as [data|first rest] eqn:Hparse; [|contradiction].
    unfold updatePassword_handler in Hchanged.
    destruct (User.passwordHash user) as [[|c h]|] eqn:Hhash;
      [contradiction| |contradiction].
    unfold bind at 1 in Hchanged.
    unfold comparePasswords at 1, ret at 1 in Hchanged.
    destruct (bcrypt_compare (currentPassword data) (String c h)) eqn:Hcmp;
      [|contradiction].
    cbn [negb] in Hchanged.
    destruct (String.eqb_spec (currentPassword data) (newPassword data))
      as [Hsame|Hdiff]; [contradiction|].
    exists s, user, data, (String c h).
    split; [exact Hs|].
    split; [unfold user_findFirst; rewrite Hfind; reflexivity|].
    split; [reflexivity|]. split; [exact Hhash|]. split; [exact Hcmp|].
    split; [|exact Hdiff].
    apply String.eqb_eq. exact (refined_success _ _ _ _ _ _ Hparse).
  - rewrite (validatedActionWithUser_unauthenticated _ _ _ _ _ Hs) in Hchanged.
    contradiction.
  - rewrite (validatedActionWithUser_undecodable _ _ _ _ _ _ Hs) in Hchanged.
    contradiction.
Qed.

Lemma found_after_log q type s w r :
  user_findFirst q w = (Returned r, w) ->
  user_findFirst q (logged type s w) = (Returned r, logged type s w).
Proof.
  unfold user_findFirst. intros Hu. injection Hu as Hf.
  change (users (db (logged type s w))) with (users (db w)).
  rewrite Hf. reflexivity.
Qed.

Lemma deleteAccount_reaches_update prev fd w s user data c h :
  getSession w = (Returned (Some s), w) ->
  user_findFirst (only_id (userId s)) w = (Returned (Some user), w) ->
  deleteAccountSchema (Object_fromEntries fd) = ParseSuccess data ->
  User.passwordHash user = Some (String c h) ->
  bcrypt_compare (deleteAccount_password data) (String c h) = true ->
  has_team (teamId s) (db w) = true ->
  deleteAccount prev fd w =
    (let* _ := user_update (userId s)
                 (soft_delete (User.email user) (clock w)) in
     let* _ := cookies_delete "session" in
     redirect "/sign-in") (logged DELETE_ACCOUNT s w).
Proof.
  intros Hs Hu Hparse Hhash Hcmp Hteam.
  destruct (found_by_id _ _ _ Hu) as (Hid & _ & Huser).
  unfold deleteAccount.
  rewrite (validatedActionWithUser_authenticated _ _ _ _ _ _ Hs).
  pose proof Hu as Hu'. unfold user_findFirst in Hu'. inversion Hu' as [Hfind].
  rewrite Hfind, Hparse.
  unfold deleteAccount_handler. rewrite Hhash.
  unfold bind at 1. unfold comparePasswords at 1, ret at 1. rewrite Hcmp.
  cbn [negb]. unfold bind at 1.
  rewrite (logActivity_session _ _ _ Hs Hteam Huser).
  unfold bind at 1. unfold Date_now at 1. rewrite Hid. reflexivity.
Qed.

(** X14: with a session and a user that resolve and the right password,
    [deleteAccount] appends a [DELETE_ACCOUNT] row and then renames the
    address.  When the address with ["-deleted"] appended has at most 255
    characters and no other row carries it, the row of the user is marked
    deleted at the current time and renamed, no other user row changes,
    the session cookie is removed and the action redirects to [/sign-in].
    When it has more than 255 characters (an address of 248 characters or
    more), the update throws P2000 after the log row was written: the
    account is not deleted and the session stays. *)
Theorem deleteAccount_soft_deletes prev fd w s user data c h :
  getSession w = (Returned (Some s), w) ->
  user_findFirst (only_id (userId s)) w = (Returned (Some user), w) ->
  deleteAccountSchema (Object_fromEntries fd) = ParseSuccess data ->
  User.passwordHash user = Some (String c h) ->
  bcrypt_compare (deleteAccount_password data) (String c h) = true ->
  has_team (teamId s) (db w) = true ->
  ((String.length (User.email user +:+ "-deleted") <= 255)%nat ->
   email_taken_by_other (userId s) (User.email user +:+ "-deleted") (db w)
     = false ->
   exists w' row,
     deleteAccount prev fd w = (Redirected "/sign-in", w')
     /\ users (db w') =
          map (fun o => if String.eqb (User.id o) (userId s)
                        then apply_update
                               (soft_delete (User.email user) (clock w)) o
                        else o) (users (db w))
     /\ user_findFirst (only_id (userId s)) w' =
          (Returned
             (Some {| User.id := User.id user; User.name := User.name user;
                      User.email := User.email user +:+ "-deleted";
                      User.passwordHash := User.passwordHash user;
                      User.createdAt := User.createdAt user;
                      User.deletedAt := Some (clock w) |}), w')
     /\ activityLogs (db w') = activityLogs (db w) ++ [row]
     /\ ActivityLog.action row = DELETE_ACCOUNT
     /\ ActivityLog.userId row = Some (userId s)
     /\ getSession w' = (Returned None, w'))
  /\ ((255 < String.length (User.email user +:+ "-deleted"))%nat ->
      exists w' row,
        deleteAccount prev fd w = (Thrown (PrismaError "P2000"), w')
        /\ users (db w') = users (db w)
        /\ getSession w' = (Returned (Some s), w')
        /\ activityLogs (db w') = activityLogs (db w) ++ [row]
        /\ ActivityLog.action row = DELETE_ACCOUNT).
Proof.
  intros Hs Hu Hparse Hhash Hcmp Hteam.
  rewrite (deleteAccount_reaches_update _ _ _ _ _ _ _ _ Hs Hu Hparse Hhash
             Hcmp Hteam).
  assert (Hu1 : user_findFirst (only_id (userId s)) (logged DELETE_ACCOUNT s w)
                = (Returned (Some user), logged DELETE_ACCOUNT s w))
    by (apply found_after_log; exact Hu).
  split.
  - intros Hshort Hfree. unfold bind at 1.
    rewrite (user_update_found _ (soft_delete _ _) _ _ Hu1
               (fits_column _ _ Hshort) Hfree).
    exists (after_deleteAccount s user w), (log_row DELETE_ACCOUNT s w).
    split; [reflexivity|]. split; [reflexivity|].
    split.
    + unfold user_findFirst. f_equal. f_equal.
      unfold user_findFirst in Hu. inversion Hu as [Hfind].
      rewrite find_only_id in *. cbn [db users after_deleteAccount with_cookies
        updated with_db logged].
      clear - Hfind. induction (users (db w)) as [|o us IH]; [discriminate|].
      cbn in Hfind |- *. destruct (String.eqb (User.id o) (userId s)) eqn:E.
      * inversion Hfind; subst o. cbn. rewrite E. reflexivity.
      * rewrite E. apply IH. exact Hfind.
    + do 3 (split; [reflexivity|]).
      apply getSession_no_cookie. apply lookup_delete_eq.
  - intros Hlong. unfold bind at 1.
    rewrite (user_update_over_width _ (soft_delete _ _) _ _ Hu1
               (over_column _ _ Hlong)).
    exists (logged DELETE_ACCOUNT s w), (log_row DELETE_ACCOUNT s w).
    split; [reflexivity|]. split; [reflexivity|].
    split; [|split; reflexivity].
    apply (getSession_transfer _ w); [reflexivity|reflexivity|exact Hs].
Qed.

(** X15: after a successful [deleteAccount] (the renamed address has at
    most 255 characters and no other row carries it), and when the address
    was carried by that user only, [signIn] with the address of the
    deleted account is refused like an unknown address, whatever the
    password. *)
Theorem deleted_account_cannot_sign_in prev fd w s user data c h :
  getSession w = (Returned (Some s), w) ->
  user_findFirst (only_id (userId s)) w = (Returned (Some user), w) ->
  deleteAccountSchema (Object_fromEntries fd) = ParseSuccess data ->
  User.passwordHash user = Some (String c h) ->
  bcrypt_compare (deleteAccount_password data) (String c h) = true ->
  has_team (teamId s) (db w) = true ->
  (String.length (User.email user +:+ "-deleted") <= 255)%nat ->
  email_taken_by_other (userId s) (User.email user +:+ "-deleted") (db w)
    = false ->
  (forall o, In o (users (db w)) -> User.email o = User.email user ->
             User.id o = userId s) ->
  exists w',
    deleteAccount prev fd w = (Redirected "/sign-in", w')
    /\ forall prev' fd' attempt,
         signInSchema (Object_fromEntries fd') = ParseSuccess attempt ->
         signIn_email attempt = User.email user ->
         signIn prev' fd' w' =
           (Returned
              {| error := Some "Invalid email or password. Please try again."%string;
                 success := None |}, w').
Proof.
  intros Hs Hu Hparse Hhash Hcmp Hteam Hshort Hfree Hunique.
  rewrite (deleteAccount_reaches_update _ _ _ _ _ _ _ _ Hs Hu Hparse Hhash
             Hcmp Hteam).
  assert (Hu1 : user_findFirst (only_id (userId s)) (logged DELETE_ACCOUNT s w)
                = (Returned (Some user), logged DELETE_ACCOUNT s w))
    by (apply found_after_log; exact Hu).
  unfold bind at 1.
  rewrite (user_update_found _ (soft_delete _ _) _ _ Hu1
             (fits_column _ _ Hshort) Hfree).
  exists (after_deleteAccount s user w). split; [reflexivity|].
  intros prev' fd' attempt Hparse' Hemail.
  unfold signIn, validatedAction. rewrite Hparse'.
  apply signIn_refuses_soft_deleted.
  intros u Hin He. rewrite Hemail in He.
  cbn [db users after_deleteAccount with_cookies updated with_db logged] in Hin.
  apply in_map_iff in Hin. destruct Hin as (o & Ho & Hino).
  destruct (String.eqb (User.id o) (userId s)) eqn:E.
  - subst u. cbn. discriminate.
  - subst u. apply String.eqb_neq in E. exfalso. apply E.
    apply Hunique; assumption.
Qed.

(** X16: when another row already carries the address with ["-deleted"]
    appended (the same address was registered and deleted before),
    [deleteAccount] with the right password throws on the unique index:
    the account is not deleted and the cookie stays, yet the
    [DELETE_ACCOUNT] row has been written.  The tables are those of the
    migration: the address that a stored row carries fits its column. *)
Theorem deleteAccount_blocked_by_earlier_deletion prev fd w s user data c h :
  emails_fit (db w) = true ->
  getSession w = (Returned (Some s), w) ->
  user_findFirst (only_id (userId s)) w = (Returned (Some user), w) ->
  deleteAccountSchema (Object_fromEntries fd) = ParseSuccess data ->
  User.passwordHash user = Some (String c h) ->
  bcrypt_compare (deleteAccount_password data) (String c h) = true ->
  has_team (teamId s) (db w) = true ->
  email_taken_by_other (userId s) (User.email user +:+ "-deleted") (db w)
    = true ->
  exists w' row,
    deleteAccount prev fd w = (Thrown (PrismaError "P2002"), w')
    /\ users (db w') = users (db w)
    /\ cookies w' = cookies w
    /\ getSession w' = (Returned (Some s), w')
    /\ activityLogs (db w') = activityLogs (db w) ++ [row]
    /\ ActivityLog.action row = DELETE_ACCOUNT.
Proof.
  intros Hfit Hs Hu Hparse Hhash Hcmp Hteam Htaken.
  rewrite (deleteAccount_reaches_update _ _ _ _ _ _ _ _ Hs Hu Hparse Hhash
             Hcmp Hteam).
  assert (Hu1 : user_findFirst (only_id (userId s)) (logged DELETE_ACCOUNT s w)
                = (Returned (Some user), logged DELETE_ACCOUNT s w))
    by (apply found_after_log; exact Hu).
  unfold bind at 1.
  rewrite (user_update_taken _ _ (soft_delete _ _) _ _ Hu1
             (taken_address_fits _ _ _ Hfit Htaken) eq_refl Htaken).
  exists (logged DELETE_ACCOUNT s w), (log_row DELETE_ACCOUNT s w).
  split; [reflexivity|]. do 2 (split; [reflexivity|]).
  split; [|split; reflexivity].
  apply (getSession_transfer _ w); [reflexivity|reflexivity|exact Hs].
Qed.

Lemma find_finds {A} (f : A -> bool) l x :
  In x l -> f x = true -> exists y, List.find f l = Some y.
Proof.
  intros Hin Hf. destruct (List.find f l) as [y|] eqn:E; [eauto|].
  rewrite (List.find_none _ _ E x Hin) in Hf. discriminate.
Qed.

Lemma no_row_no_other id email d :
  existsb (fun u => String.eqb (User.email u) email) (users d) = false ->
  email_taken_by_other id email d = false.
Proof.
  unfold email_taken_by_other. induction (users d) as [|u us IH];
    [reflexivity|].
  cbn. intros Hn. apply orb_false_elim in Hn. destruct Hn as [Hu Hus].
  rewrite Hu, andb_false_r. cbn. apply IH. exact Hus.
Qed.

(** X17: [updateAccount] looks for a live user with the submitted
    address before it looks at whose address it is: a live user who submits
    the address the account already has (to change the name only) is
    answered "Email already in use", and nothing is written. *)
Theorem updateAccount_refuses_own_address prev fd w s user data :
  getSession w = (Returned (Some s), w) ->
  user_findFirst (only_id (userId s)) w = (Returned (Some user), w) ->
  updateAccountSchema (Object_fromEntries fd) = ParseSuccess data ->
  User.deletedAt user = None ->
  updateAccount_email data = User.email user ->
  updateAccount prev fd w =
    (Returned
       {| error := Some "Failed to update account. Email already in use."%string;
          success := None |}, w).
Proof.
  intros Hs Hu Hparse Hlive Hsame.
  destruct (found_by_id _ _ _ Hu) as (_ & Hin & _).
  unfold updateAccount.
  rewrite (validatedActionWithUser_authenticated _ _ _ _ _ _ Hs).
  unfold user_findFirst in Hu. inversion Hu as [Hfind].
  rewrite Hfind, Hparse.
  unfold updateAccount_handler, bind, user_findFirst.
  destruct (find_finds
              (user_matches
                 {| where_id := None;
                    where_email := Some (updateAccount_email data);
                    where_deletedAt := Some None |})
              (users (db w)) user Hin) as [y Hy].
  - unfold user_matches. cbn. rewrite Hsame, Hlive.
    rewrite !bool_decide_eq_true_2 by reflexivity. reflexivity.
  - rewrite Hy. reflexivity.
Qed.

(** The writes that store an address keep every stored address within
    its column. *)
Lemma writes_keep_emails_fit w :
  emails_fit (db w) = true ->
  (forall email hash,
      emails_fit (db (snd (user_create email hash w))) = true)
  /\ (forall id data, emails_fit (db (snd (user_update id data w))) = true)
  /\ (forall teamId email role invitedBy s,
        emails_fit
          (db (snd (invitation_create teamId email role invitedBy s w)))
        = true)
  /\ (forall id s, emails_fit (db (snd (invitation_update id s w))) = true).
Proof.
  intros Hfit. pose proof Hfit as Hboth. unfold emails_fit in Hboth.
  apply andb_prop in Hboth. destruct Hboth as [Husers Hinvs].
  split; [|split; [|split]].
  - intros email hash. unfold user_create, bind, fresh_id. cbn [snd db].
    destruct (too_long 255 email) eqn:E; [exact Hfit|].
    destruct (existsb _ _); [exact Hfit|].
    unfold emails_fit. cbn -[too_long].
    rewrite forallb_app, Husers, Hinvs. cbn -[too_long].
    rewrite E. reflexivity.
  - intros id data. unfold user_update.
    destruct (List.find _ _) as [u|]; [|exact Hfit].
    destruct (over_width data) eqn:E; [exact Hfit|].
    destruct (match set_email data with
              | Some e => email_taken_by_other id e (db w)
              | None => false
              end); [exact Hfit|].
    unfold emails_fit. cbn -[too_long]. rewrite Hinvs, andb_true_r.
    unfold over_width in E. apply orb_false_elim in E. destruct E as [_ E].
    clear - Husers E. induction (users (db w)) as [|o us IH]; [reflexivity|].
    cbn -[too_long] in Husers |- *. apply andb_prop in Husers.
    destruct Husers as [Ho Hus].
    rewrite (IH Hus), andb_true_r.
    destruct (String.eqb (User.id o) id); [|exact Ho].
    unfold apply_update. cbn -[too_long].
    destruct (set_email data); [|exact Ho].
    rewrite E. reflexivity.
  - intros teamId email role invitedBy s.
    unfold invitation_create, bind, fresh_id. cbn [snd db].
    destruct (too_long 255 email) eqn:E; [exact Hfit|].
    destruct (negb _); [exact Hfit|].
    unfold emails_fit. cbn -[too_long].
    rewrite forallb_app, Husers, Hinvs. cbn -[too_long].
    rewrite E. reflexivity.
  - intros id s. unfold invitation_update.
    destruct (existsb _ _); [|exact Hfit].
    unfold emails_fit. cbn -[too_long]. rewrite Husers. cbn -[too_long].
    clear - Hinvs. induction (invitations (db w)) as [|i invs IH];
      [reflexivity|].
    cbn -[too_long] in Hinvs |- *. apply andb_prop in Hinvs.
    destruct Hinvs as [Hi Hrest].
    rewrite (IH Hrest), andb_true_r.
    destruct (String.eqb (Invitation.id i) id); exact Hi.
Qed.

Lemma z_string_with_passes checks p v s c custom :
  z_string_with checks p v = inr s ->
  In (c, custom) checks -> check_message c s = None.
Proof.
  unfold z_string_with. destruct v as [s0|]; [|discriminate].
  destruct (omap _ checks) as [|i rest] eqn:E; [|discriminate].
  intros Hs Hin. inversion Hs; subst s0. clear Hs.
  induction checks as [|[c' cu'] checks IH]; [contradiction|].
  cbn in E. unfold check_message_with in E at 1.
  destruct (check_message c' s) eqn:Ec.
  - destruct cu'; discriminate.
  - cbn in E. destruct Hin as [Heq|Hin]; [inversion Heq; subst; exact Ec|].
    apply IH; assumption.
Qed.

(** A name that [updateAccountSchema] lets through fits its column. *)
Lemma updateAccountSchema_name o data :
  updateAccountSchema o = ParseSuccess data ->
  too_long 100 (updateAccount_name data) = false.
Proof.
  unfold updateAccountSchema, z_object2. intros Hp.
  destruct (z_string_with _ ["name"%string] (o !! "name")) as [[i r]|n] eqn:En;
    destruct (z_string_with _ ["email"%string] (o !! "email")) as [[j r']|e];
    try discriminate.
  cbn in Hp. inversion Hp; subst data. cbn [updateAccount_name].
  pose proof (z_string_with_passes _ _ _ _ (ck_max 100) None En
                (or_intror (or_introl eq_refl))) as Hc.
  cbn [check_message] in Hc.
  destruct (String.length n <=? 100)%nat eqn:E; [|discriminate].
  unfold too_long. apply Nat.ltb_ge. apply Nat.leb_le. exact E.
Qed.

(** Up to the update, [updateAccount] with a free address goes one
    way. *)
Lemma updateAccount_reaches_update prev fd w s user data :
  getSession w = (Returned (Some s), w) ->
  user_findFirst (only_id (userId s)) w = (Returned (Some user), w) ->
  updateAccountSchema (Object_fromEntries fd) = ParseSuccess data ->
  existsb (fun u => String.eqb (User.email u) (updateAccount_email data))
    (users (db w)) = false ->
  updateAccount prev fd w =
    (let* _ :=
       Promise_all2
         (user_update (userId s)
            (new_profile (updateAccount_name data)
               (updateAccount_email data)))
         (logActivity UPDATE_ACCOUNT None) in
     succeed "Account updated successfully.") w.
Proof.
  intros Hs Hu Hparse Hfree.
  destruct (found_by_id _ _ _ Hu) as (Hid & _ & _).
  unfold updateAccount.
  rewrite (validatedActionWithUser_authenticated _ _ _ _ _ _ Hs).
  unfold user_findFirst in Hu. inversion Hu as [Hfind].
  rewrite Hfind, Hparse.
  unfold updateAccount_handler.
  unfold bind at 1. unfold user_findFirst at 1.
  rewrite (no_row_with_email (updateAccount_email data)
             {| where_id := None;
                where_email := Some (updateAccount_email data);
                where_deletedAt := Some None |} _ Hfree eq_refl).
  rewrite Hid. reflexivity.
Qed.

(** X18: with a session and a user that resolve, a form that parses and
    an address that no row carries.  When the address has at most 255
    characters, [updateAccount] stores the submitted name and address in
    the row of that user and in no other row, and appends one
    [UPDATE_ACCOUNT] row.  When the address is longer, which the schema
    lets through, the update throws P2000 and no user row changes. *)
Theorem updateAccount_changes_profile prev fd w s user data :
  getSession w = (Returned (Some s), w) ->
  user_findFirst (only_id (userId s)) w = (Returned (Some user), w) ->
  updateAccountSchema (Object_fromEntries fd) = ParseSuccess data ->
  existsb (fun u => String.eqb (User.email u) (updateAccount_email data))
    (users (db w)) = false ->
  has_team (teamId s) (db w) = true ->
  ((String.length (updateAccount_email data) <= 255)%nat ->
   exists w' row,
     updateAccount prev fd w =
       (Returned {| error := None;
                    success := Some "Account updated successfully."%string |},
        w')
     /\ users (db w') =
          map (fun o => if String.eqb (User.id o) (userId s)
                        then apply_update
                               (new_profile (updateAccount_name data)
                                  (updateAccount_email data)) o
                        else o) (users (db w))
     /\ activityLogs (db w') = activityLogs (db w) ++ [row]
     /\ ActivityLog.action row = UPDATE_ACCOUNT
     /\ ActivityLog.userId row = Some (userId s)
     /\ cookies w' = cookies w)
  /\ ((255 < String.length (updateAccount_email data))%nat ->
      exists w',
        updateAccount prev fd w = (Thrown (PrismaError "P2000"), w')
        /\ users (db w') = users (db w)
        /\ cookies w' = cookies w).
Proof.
  intros Hs Hu Hparse Hfree Hteam.
  destruct (found_by_id _ _ _ Hu) as (Hid & _ & Huser).
  rewrite (updateAccount_reaches_update _ _ _ _ _ _ Hs Hu Hparse Hfree).
  pose proof (updateAccountSchema_name _ _ Hparse) as Hname.
  unfold Promise_all2, bind, spawn, await, ret.
  split.
  - intros Hshort.
    assert (Hwidth : over_width (new_profile (updateAccount_name data)
                                   (updateAccount_email data)) = false).
    { unfold over_width, new_profile. cbn [set_name set_email].
      rewrite Hname, (fits_column _ _ Hshort). reflexivity. }
    rewrite (user_update_found _ (new_profile _ _) _ _ Hu Hwidth
               (no_row_no_other _ _ _ Hfree)).
    assert (Hu1 : has_user (userId s)
                    (db (updated (userId s)
                           (new_profile (updateAccount_name data)
                              (updateAccount_email data)) w)) = true).
    { unfold has_user, updated. cbn. rewrite has_user_updated. exact Huser. }
    rewrite (logActivity_after UPDATE_ACCOUNT w
               (updated (userId s)
                  (new_profile (updateAccount_name data)
                     (updateAccount_email data)) w)
               s Hs eq_refl eq_refl Hteam Hu1).
    unfold succeed, ret.
    eexists. eexists (log_row UPDATE_ACCOUNT s _).
    split; [reflexivity|]. repeat split.
  - intros Hlong.
    assert (Hwidth : over_width (new_profile (updateAccount_name data)
                                   (updateAccount_email data)) = true).
    { unfold over_width, new_profile. cbn [set_name set_email].
      rewrite Hname, (over_column _ _ Hlong). reflexivity. }
    rewrite (user_update_over_width _ (new_profile _ _) _ _ Hu Hwidth).
    destruct (logActivity_frame UPDATE_ACCOUNT None w)
      as (Fc & _ & Fu & _).
    destruct (logActivity UPDATE_ACCOUNT None w) as [r1 w1].
    cbn [snd] in Fc, Fu. exists w1. split; [reflexivity|].
    split; assumption.
Qed.
End AccountFacts.

(** ** The team actions *)

Section TeamFacts.
Context `{Platform} `{Billing}.

Lemma removeTeamMember_run prev fd w data s c r :
  removeTeamMemberSchema (Object_fromEntries fd) = ParseSuccess data ->
  getSession w = (Returned (Some s), w) ->
  teamId s = String c r ->
  removeTeamMember prev fd w =
    match List.filter (member_of (memberId data) (teamId s))
            (teamMembers (db w)) with
    | [] => (Returned {| error := Some "User is not part of this team."%string;
                         success := None |},
             without_member (memberId data) (teamId s) w)
    | _ :: _ =>
        (let* _ := logActivity REMOVE_TEAM_MEMBER None in
         succeed "Team member removed successfully")
          (without_member (memberId data) (teamId s) w)
    end.
Proof.
  intros Hparse Hs Hteam.
  unfold removeTeamMember, validatedAction. rewrite Hparse.
  unfold removeTeamMember_handler. unfold bind at 1. rewrite Hs, Hteam.
  unfold bind at 1. unfold teamMember_deleteMany at 1.
  destruct (List.filter (member_of (memberId data) (String c r))
              (teamMembers (db w))); reflexivity.
Qed.

Lemma other_team_kept userId teamId ms m :
  In m ms -> TeamMember.teamId m <> teamId ->
  In m (List.filter (fun m' => negb (member_of userId teamId m')) ms).
Proof.
  intros Hin Hother. apply filter_In. split; [exact Hin|].
  unfold member_of. apply negb_true_iff. apply andb_false_iff. right.
  apply String.eqb_neq. exact Hother.
Qed.

(** X19: with a session that names a team, [removeTeamMember] removes
    exactly the memberships of the named user in the team of the session,
    whatever role the session carries and whoever the named user is;
    memberships in other teams, the users and the cookie are left alone,
    and when no membership matches the answer is "User is not part of this
    team.". *)
Theorem removeTeamMember_removes_from_session_team prev fd w data s c r :
  removeTeamMemberSchema (Object_fromEntries fd) = ParseSuccess data ->
  getSession w = (Returned (Some s), w) ->
  teamId s = String c r ->
  teamMembers (db (snd (removeTeamMember prev fd w))) =
    List.filter (fun m => negb (member_of (memberId data) (teamId s) m))
      (teamMembers (db w))
  /\ (forall m, In m (teamMembers (db w)) ->
      TeamMember.teamId m <> teamId s ->
      In m (teamMembers (db (snd (removeTeamMember prev fd w)))))
  /\ users (db (snd (removeTeamMember prev fd w))) = users (db w)
  /\ cookies (snd (removeTeamMember prev fd w)) = cookies w
  /\ (List.filter (member_of (memberId data) (teamId s)) (teamMembers (db w))
        = [] ->
      fst (removeTeamMember prev fd w) =
        Returned {| error := Some "User is not part of this team."%string;
                    success := None |}).
Proof.
  intros Hparse Hs Hteam.
  rewrite (removeTeamMember_run _ _ _ _ _ _ _ Hparse Hs Hteam).
  set (w1 := without_member (memberId data) (teamId s) w).
  destruct (List.filter (member_of (memberId data) (teamId s))
              (teamMembers (db w))) as [|m0 ms].
  - cbn [fst snd]. split; [reflexivity|]. split; [|auto].
    intros m Hin Hother. apply other_team_kept; assumption.
  - unfold bind, succeed, ret.
    destruct (logActivity_frame REMOVE_TEAM_MEMBER None w1)
      as (Fc & _ & Fu & _ & Fm & _).
    destruct (logActivity REMOVE_TEAM_MEMBER None w1) as [[[]|e|u] w2];
      cbn [fst snd] in *; rewrite Fm, Fu, Fc;
      (split; [reflexivity|]);
      (split; [intros m Hin Hother; apply other_team_kept; assumption|]);
      (split; [reflexivity|]); (split; [reflexivity|]); discriminate.
Qed.

Lemma find_after_none {A} (f : A -> bool) l l' :
  List.find f l = None -> List.find f (l ++ l') = List.find f l'.
Proof.
  induction l as [|x l IH]; [reflexivity|].
  cbn. destruct (f x); [discriminate|]. exact IH.
Qed.

Lemma inviteTeamMember_run prev fd w data s c r :
  inviteTeamMemberSchema (Object_fromEntries fd) = ParseSuccess data ->
  getSession w = (Returned (Some s), w) ->
  teamId s = String c r ->
  List.find (member_with_email (invite_email data) (teamId s) (db w))
    (teamMembers (db w)) = None ->
  inviteTeamMember prev fd w =
    match List.find (invitation_in_team (invite_email data) (teamId s) PENDING)
            (invitations (db w)) with
    | Some _ =>
        (Returned
           {| error := Some "An invitation has already been sent to this email"%string;
              success := None |}, w)
    | None =>
        (let* _ := invitation_create (teamId s) (invite_email data)
                     (invited_role (invite_role data)) (userId s) PENDING in
         let* _ := logActivity INVITE_TEAM_MEMBER None in
         succeed "Invitation sent successfully") w
    end.
Proof.
  intros Hparse Hs Hteam Hmember.
  unfold inviteTeamMember, validatedAction. rewrite Hparse.
  unfold inviteTeamMember_handler. unfold bind at 1. rewrite Hs, Hteam.
  unfold bind at 1. unfold teamMember_findFirst_by_email at 1.
  rewrite Hteam in Hmember. rewrite Hmember.
  unfold bind at 1. unfold invitation_findFirst_in_team at 1.
  destruct (List.find _ (invitations (db w))); reflexivity.
Qed.

Lemma inviteTeamMember_success_world prev fd w data s c r :
  inviteTeamMemberSchema (Object_fromEntries fd) = ParseSuccess data ->
  getSession w = (Returned (Some s), w) ->
  teamId s = String c r ->
  List.find (member_with_email (invite_email data) (teamId s) (db w))
    (teamMembers (db w)) = None ->
  List.find (invitation_in_team (invite_email data) (teamId s) PENDING)
    (invitations (db w)) = None ->
  has_team (teamId s) (db w) = true ->
  has_user (userId s) (db w) = true ->
  too_long 255 (invite_email data) = false ->
  inviteTeamMember prev fd w =
    (Returned {| error := None;
                 success := Some "Invitation sent successfully"%string |},
     logged INVITE_TEAM_MEMBER s
       (with_invitation
          (new_invitation (invite_email data) (invite_role data) s w) w)).
Proof.
  intros Hparse Hs Hteam Hmember Hpending Ht Hu Hwidth.
  rewrite (inviteTeamMember_run _ _ _ _ _ _ _ Hparse Hs Hteam Hmember).
  rewrite Hpending.
  unfold bind at 1. unfold invitation_create, bind, fresh_id.
  cbn [clock db idCounter]. rewrite Hwidth, Ht, Hu. cbn [andb negb].
  fold (new_invitation (invite_email data) (invite_role data) s w).
  set (i := new_invitation (invite_email data) (invite_role data) s w).
  change (with_db _ _) with (with_invitation i w).
  rewrite (logActivity_after INVITE_TEAM_MEMBER w (with_invitation i w) s Hs
             eq_refl eq_refl Ht Hu).
  reflexivity.
Qed.

(** An address that does not fit the column stops [inviteTeamMember] at
    the insertion. *)
Lemma inviteTeamMember_address_too_long prev fd w data s c r :
  inviteTeamMemberSchema (Object_fromEntries fd) = ParseSuccess data ->
  getSession w = (Returned (Some s), w) ->
  teamId s = String c r ->
  List.find (member_with_email (invite_email data) (teamId s) (db w))
    (teamMembers (db w)) = None ->
  List.find (invitation_in_team (invite_email data) (teamId s) PENDING)
    (invitations (db w)) = None ->
  too_long 255 (invite_email data) = true ->
  inviteTeamMember prev fd w = (Thrown (PrismaError "P2000"), next_id w).
Proof.
  intros Hparse Hs Hteam Hmember Hpending Hwidth.
  rewrite (inviteTeamMember_run _ _ _ _ _ _ _ Hparse Hs Hteam Hmember).
  rewrite Hpending.
  unfold bind at 1. unfold invitation_create, bind, fresh_id.
  cbn [clock db idCounter]. rewrite Hwidth. reflexivity.
Qed.

(** X20: with a session that names a team, an address that no member of
    the team carries and no pending invitation of the team for it.  When
    the address has at most 255 characters, [inviteTeamMember] inserts one
    pending invitation for that team and address, invited by the user of
    the session, with role [MEMBER] for ["member"] and [ADMIN] otherwise,
    and logs it; the same form sent again is answered "An invitation has
    already been sent to this email" and inserts nothing.  When the
    address is longer, which the schema lets through, the insertion throws
    P2000 and nothing is written. *)
Theorem inviteTeamMember_invites_once prev fd w data s c r :
  inviteTeamMemberSchema (Object_fromEntries fd) = ParseSuccess data ->
  getSession w = (Returned (Some s), w) ->
  teamId s = String c r ->
  List.find (member_with_email (invite_email data) (teamId s) (db w))
    (teamMembers (db w)) = None ->
  List.find (invitation_in_team (invite_email data) (teamId s) PENDING)
    (invitations (db w)) = None ->
  has_team (teamId s) (db w) = true ->
  has_user (userId s) (db w) = true ->
  ((String.length (invite_email data) <= 255)%nat ->
   exists w',
     inviteTeamMember prev fd w =
       (Returned {| error := None;
                    success := Some "Invitation sent successfully"%string |},
        w')
     /\ invitations (db w') =
          invitations (db w)
          ++ [{| Invitation.id := cuid (idCounter w);
                 Invitation.teamId := teamId s;
                 Invitation.invitedBy := userId s;
                 Invitation.email := invite_email data;
                 Invitation.role :=
                   if String.eqb (invite_role data) "member"
                   then MEMBER else ADMIN;
                 Invitation.status := PENDING;
                 Invitation.createdAt := clock w |}]
     /\ (exists row, activityLogs (db w') = activityLogs (db w) ++ [row]
                     /\ ActivityLog.action row = INVITE_TEAM_MEMBER)
     /\ inviteTeamMember prev fd w' =
          (Returned
             {| error := Some "An invitation has already been sent to this email"%string;
                success := None |}, w'))
  /\ ((255 < String.length (invite_email data))%nat ->
      inviteTeamMember prev fd w = (Thrown (PrismaError "P2000"), next_id w)
      /\ db (next_id w) = db w /\ cookies (next_id w) = cookies w).
Proof.
  intros Hparse Hs Hteam Hmember Hpending Ht Hu. split;
    [|intros Hlong; split;
      [apply (inviteTeamMember_address_too_long _ _ _ _ _ _ _ Hparse Hs Hteam
                Hmember Hpending); apply over_column; exact Hlong
      |split; reflexivity]].
  intros Hshort.
  rewrite (inviteTeamMember_success_world _ _ _ _ _ _ _ Hparse Hs Hteam
             Hmember Hpending Ht Hu (fits_column _ _ Hshort)).
  set (i := new_invitation (invite_email data) (invite_role data) s w).
  set (w' := logged INVITE_TEAM_MEMBER s (with_invitation i w)).
  exists w'. split; [reflexivity|]. split; [reflexivity|].
  split; [eexists; split; reflexivity|].
  assert (Hs' : getSession w' = (Returned (Some s), w'))
    by (apply (getSession_transfer w' w); [reflexivity|reflexivity|exact Hs]).
  rewrite (inviteTeamMember_run _ _ w' _ _ _ _ Hparse Hs' Hteam Hmember).
  change (invitations (db w')) with (invitations (db w) ++ [i]).
  rewrite (find_after_none _ _ _ Hpending). cbn [List.find].
  replace (invitation_in_team (invite_email data) (teamId s) PENDING i)
    with true; [reflexivity|].
  unfold invitation_in_team, i, new_invitation. cbn.
  rewrite !String.eqb_refl. rewrite bool_decide_eq_true_2 by reflexivity.
  reflexivity.
Qed.
End TeamFacts.

(** ** From an invitation to a membership *)

Section InvitationFlow.
Context `{Platform} `{Billing}.

Lemma signUp_finish_frame createdUser team logs fd w :
  users (db (snd (signUp_finish createdUser team logs fd w))) = users (db w)
  /\ teams (db (snd (signUp_finish createdUser team logs fd w))) = teams (db w)
  /\ invitations (db (snd (signUp_finish createdUser team logs fd w)))
     = invitations (db w).
Proof.
  unfold signUp_finish, bind. rewrite setSession_stored.
  set (w5 := stored _ _ w). unfold spawn.
  destruct (logActivity_frame EMAIL_SIGN_UP None w5)
    as (_ & _ & Fu & Ft & _ & Fi).
  destruct (logActivity EMAIL_SIGN_UP None w5) as [r6 w6]. cbn [snd] in *.
  pose proof (Promise_all_world (logs ++ [r6]) w6) as Hp.
  destruct (Promise_all (logs ++ [r6]) w6) as [[[]|e|u] w7];
    cbn [snd] in Hp; subst w7.
  - cbv zeta. destruct (bool_decide _); unfold checkout; cbn [snd]; auto.
  - cbn [snd]. auto.
  - cbn [snd]. auto.
Qed.

Lemma signUp_accept_tables createdUser q inv team fd w :
  has_user (User.id createdUser) (db w) = true ->
  List.find (invitation_matches q) (invitations (db w)) = Some inv ->
  team_by_id (Invitation.teamId inv) (db w) = Some team ->
  invitations (db (snd (signUp_accept createdUser inv team fd w)))
    = accepted (Invitation.id inv) (invitations (db w))
  /\ users (db (snd (signUp_accept createdUser inv team fd w))) = users (db w)
  /\ teams (db (snd (signUp_accept createdUser inv team fd w))) = teams (db w).
Proof.
  intros Hu Hi Ht.
  destruct (team_by_id_found _ _ _ Ht) as [_ Hteam].
  pose proof (invitation_found _ _ _ Hi) as Hex.
  unfold signUp_accept, Promise_all2, bind, spawn, await, ret.
  unfold teamMember_create, bind, fresh_id. cbn [db].
  rewrite Hu, Hteam. cbn [negb andb].
  unfold invitation_update. cbn [db with_db invitations]. rewrite Hex.
  set (w3 := with_db _ (with_db _ _)).
  destruct (logActivity_frame ACCEPT_INVITATION None w3)
    as (_ & _ & Fu & Ft & _ & Fi).
  destruct (logActivity ACCEPT_INVITATION None w3) as [r4 w4].
  cbn [snd] in *.
  destruct (signUp_finish_frame createdUser team [r4] fd w4) as (Gu & Gt & Gi).
  rewrite Gu, Gt, Gi, Fu, Ft, Fi. repeat split.
Qed.

Lemma accepted_not_pending id email invs :
  List.find (invitation_matches
               {| iwhere_id := Some id; iwhere_email := Some email;
                  iwhere_status := Some PENDING |}) (accepted id invs) = None.
Proof.
  induction invs as [|i invs IH]; [reflexivity|].
  cbn. destruct (String.eqb_spec (Invitation.id i) id) as [E|E].
  - unfold invitation_matches at 1. cbn.
    rewrite (bool_decide_eq_false_2 (ACCEPTED = PENDING)) by discriminate.
    rewrite andb_false_r. exact IH.
  - unfold invitation_matches at 1. cbn.
    rewrite (bool_decide_eq_false_2 (Invitation.id i = id)) by exact E.
    cbn. exact IH.
Qed.

Lemma invitation_lookup q w inv team :
  invitation_findFirst_with_team q w = (Returned (Some (inv, team)), w) ->
  List.find (invitation_matches q) (invitations (db w)) = Some inv
  /\ team_by_id (Invitation.teamId inv) (db w) = Some team.
Proof.
  unfold invitation_findFirst_with_team. intros Hinv.
  destruct (List.find _ (invitations (db w))) as [i|]; [|discriminate].
  destruct (team_by_id (Invitation.teamId i) (db w)) as [t|] eqn:Hteam;
    [|discriminate].
  inversion Hinv; subst i t. split; [reflexivity|exact Hteam].
Qed.

Lemma signUp_invited_runs_accept prev fd w data c rest inv team :
  signUpSchema (Object_fromEntries fd) = ParseSuccess data ->
  signUp_inviteId data = Some (String c rest) ->
  existsb (fun u => String.eqb (User.email u) (signUp_email data))
    (users (db w)) = false ->
  List.find (invitation_matches
               {| iwhere_id := Some (String c rest);
                  iwhere_email := Some (signUp_email data);
                  iwhere_status := Some PENDING |}) (invitations (db w))
    = Some inv ->
  team_by_id (Invitation.teamId inv) (db w) = Some team ->
  too_long 255 (signUp_email data) = false ->
  signUp prev fd w =
    signUp_accept (new_user (signUp_email data) (signUp_password data) w)
      inv team fd
      (with_new_user (new_user (signUp_email data) (signUp_password data) w)
         w).
Proof.
  intros Hparse Hinvite Hfree Hfind Hteam Hwidth.
  rewrite (signUp_creates_user prev fd w data Hparse Hfree Hwidth), Hinvite.
  set (user := new_user (signUp_email data) (signUp_password data) w).
  unfold bind at 1. unfold invitation_findFirst_with_team at 1.
  change (invitations (db (with_new_user user w))) with (invitations (db w)).
  rewrite Hfind.
  change (team_by_id (Invitation.teamId inv) (db (with_new_user user w)))
    with (team_by_id (Invitation.teamId inv) (db w)).
  rewrite Hteam. reflexivity.
Qed.

(** X21: the sign-up that goes through a pending invitation marks that
    invitation, and only rows with its identifier, as accepted; the lookup
    that found it no longer finds it afterwards, so the same link cannot be
    used a second time.  The tables are those of the migration: the
    address that a stored row carries fits its column. *)
Theorem invitation_is_used_once prev fd w data c rest inv team :
  emails_fit (db w) = true ->
  signUpSchema (Object_fromEntries fd) = ParseSuccess data ->
  signUp_inviteId data = Some (String c rest) ->
  existsb (fun u => String.eqb (User.email u) (signUp_email data))
    (users (db w)) = false ->
  invitation_findFirst_with_team
    {| iwhere_id := Some (String c rest);
       iwhere_email := Some (signUp_email data);
       iwhere_status := Some PENDING |} w = (Returned (Some (inv, team)), w) ->
  invitations (db (snd (signUp prev fd w)))
    = accepted (String c rest) (invitations (db w))
  /\ invitation_findFirst_with_team
       {| iwhere_id := Some (String c rest);
          iwhere_email := Some (signUp_email data);
          iwhere_status := Some PENDING |} (snd (signUp prev fd w))
     = (Returned None, snd (signUp prev fd w)).
Proof.
  intros Hfit Hparse Hinvite Hfree Hinv.
  destruct (invitation_lookup _ _ _ _ Hinv) as [Hfind Hteam].
  pose proof (found_invitation_fits _ _ _ _ Hfit Hfind eq_refl) as Hwidth.
  assert (Hid : Invitation.id inv = String c rest).
  { apply List.find_some in Hfind. destruct Hfind as [_ Hm].
    unfold invitation_matches in Hm. cbn in Hm.
    apply andb_prop in Hm. destruct Hm as [Hm _].
    apply andb_prop in Hm. destruct Hm as [Hm _].
    apply bool_decide_eq_true in Hm. exact Hm. }
  rewrite (signUp_invited_runs_accept _ _ _ _ _ _ _ _ Hparse Hinvite Hfree
             Hfind Hteam Hwidth).
  set (user := new_user (signUp_email data) (signUp_password data) w).
  assert (Hu : has_user (User.id user) (db (with_new_user user w)) = true)
    by (apply has_user_added; reflexivity).
  destruct (signUp_accept_tables user _ inv team fd (with_new_user user w)
              Hu Hfind Hteam) as (Hi & _ & _).
  rewrite Hid in Hi. split; [exact Hi|].
  unfold invitation_findFirst_with_team. rewrite Hi.
  rewrite accepted_not_pending. reflexivity.
Qed.

Lemma fresh_id_not_found id email invs :
  (forall i, In i invs -> Invitation.id i <> id) ->
  List.find (invitation_matches
               {| iwhere_id := Some id; iwhere_email := Some email;
                  iwhere_status := Some PENDING |}) invs = None.
Proof.
  intros Hfresh. induction invs as [|i invs IH]; [reflexivity|].
  cbn. unfold invitation_matches at 1. cbn.
  rewrite (bool_decide_eq_false_2 (Invitation.id i = id))
    by (apply Hfresh; left; reflexivity).
  cbn. apply IH. intros j Hj. apply Hfresh. right. exact Hj.
Qed.

(** X22: from invitation to membership.  When [inviteTeamMember] has
    invited an address with no account and of at most 255 characters,
    with a fresh identifier, a sign-up for that address with that identifier as [inviteId], from any
    client, adds the new user to the team of the inviting session with
    [MEMBER] for an invitation as ["member"] and [ADMIN] otherwise, while
    the session it writes says [ADMIN] in both cases. *)
Theorem invited_member_gets_invited_role prev fd w data s c r team
    prev2 fd2 w2 data2 c' r' :
  inviteTeamMemberSchema (Object_fromEntries fd) = ParseSuccess data ->
  getSession w = (Returned (Some s), w) ->
  teamId s = String c r ->
  List.find (member_with_email (invite_email data) (teamId s) (db w))
    (teamMembers (db w)) = None ->
  List.find (invitation_in_team (invite_email data) (teamId s) PENDING)
    (invitations (db w)) = None ->
  team_by_id (teamId s) (db w) = Some team ->
  has_user (userId s) (db w) = true ->
  cuid (idCounter w) = String c' r' ->
  (forall i, In i (invitations (db w)) ->
             Invitation.id i <> cuid (idCounter w)) ->
  db w2 = db (snd (inviteTeamMember prev fd w)) ->
  signUpSchema (Object_fromEntries fd2) = ParseSuccess data2 ->
  signUp_email data2 = invite_email data ->
  signUp_inviteId data2 = Some (cuid (idCounter w)) ->
  existsb (fun u => String.eqb (User.email u) (invite_email data))
    (users (db w)) = false ->
  (String.length (invite_email data) <= 255)%nat ->
  exists r3 w3 member session,
    signUp prev2 fd2 w2 = (r3, w3)
    /\ teamMembers (db w3) = teamMembers (db w) ++ [member]
    /\ TeamMember.userId member = cuid (idCounter w2)
    /\ TeamMember.teamId member = teamId s
    /\ TeamMember.role member = invited_role (invite_role data)
    /\ getSession w3 = (Returned (Some session), w3)
    /\ userId session = cuid (idCounter w2)
    /\ teamId session = teamId s
    /\ userRole session = ADMIN.
Proof.
  intros Hparse Hs Hteam Hmember Hpending Hteam_row Huser Hcuid Hfresh Hdb
    Hparse2 Hemail2 Hinvite2 Hfree Hshort.
  destruct (team_by_id_found _ _ _ Hteam_row) as [Htid Hhas].
  pose proof (fits_column _ _ Hshort) as Hwidth.
  rewrite (inviteTeamMember_success_world _ _ _ _ _ _ _ Hparse Hs Hteam
             Hmember Hpending Hhas Huser Hwidth) in Hdb.
  cbn [snd] in Hdb.
  set (i := new_invitation (invite_email data) (invite_role data) s w) in *.
  assert (Husers : users (db w2) = users (db w)) by (rewrite Hdb; reflexivity).
  assert (Hteams : teams (db w2) = teams (db w)) by (rewrite Hdb; reflexivity).
  assert (Hmembers : teamMembers (db w2) = teamMembers (db w))
    by (rewrite Hdb; reflexivity).
  assert (Hinvs : invitations (db w2) = invitations (db w) ++ [i])
    by (rewrite Hdb; reflexivity).
  rewrite Hcuid in Hinvite2.
  assert (Hfree2 : existsb (fun u => String.eqb (User.email u)
                                       (signUp_email data2))
                     (users (db w2)) = false)
    by (rewrite Husers, Hemail2; exact Hfree).
  assert (Hfind2 : List.find
                     (invitation_matches
                        {| iwhere_id := Some (String c' r');
                           iwhere_email := Some (signUp_email data2);
                           iwhere_status := Some PENDING |})
                     (invitations (db w2)) = Some i).
  { rewrite Hinvs, <- Hcuid.
    rewrite (find_after_none _ _ _ (fresh_id_not_found _ _ _ Hfresh)).
    cbn [List.find]. unfold invitation_matches, i, new_invitation. cbn.
    rewrite Hemail2. rewrite !bool_decide_eq_true_2 by reflexivity.
    reflexivity. }
  assert (Hteam2 : team_by_id (Invitation.teamId i) (db w2) = Some team).
  { unfold team_by_id. rewrite Hteams. exact Hteam_row. }
  rewrite <- Hemail2 in Hwidth.
  rewrite (signUp_invited_runs_accept _ _ _ _ _ _ _ _ Hparse2 Hinvite2 Hfree2
             Hfind2 Hteam2 Hwidth).
  set (user := new_user (signUp_email data2) (signUp_password data2) w2).
  assert (Hu : has_user (User.id user) (db (with_new_user user w2)) = true)
    by (apply has_user_added; reflexivity).
  assert (Hfind3 : List.find
                     (invitation_matches
                        {| iwhere_id := Some (String c' r');
                           iwhere_email := Some (signUp_email data2);
                           iwhere_status := Some PENDING |})
                     (invitations (db (with_new_user user w2))) = Some i)
    by exact Hfind2.
  assert (Hteam3 : team_by_id (Invitation.teamId i)
                     (db (with_new_user user w2)) = Some team)
    by exact Hteam2.
  destruct (signUp_accept_world user _ i team fd2 (with_new_user user w2)
              Hu Hfind3 Hteam3)
    as (r3 & w3 & member & Hrun & Hm & Hmu & Hmt & Hmr & Hsess).
  exists r3, w3, member, (signUp_session user team (clock (with_new_user user w2))).
  split; [exact Hrun|].
  split; [rewrite Hm; cbn [with_new_user db teamMembers]; rewrite Hmembers;
          reflexivity|].
  split; [exact Hmu|]. split; [exact Hmt|]. split; [exact Hmr|].
  split; [exact Hsess|]. split; [reflexivity|]. split; [exact Htid|].
  reflexivity.
Qed.
End InvitationFlow.

(** ** The further properties on concrete worlds *)

Lemma session_lasts_one_day_witness :
  @getSession demo_platform (elapse 86399000 signed_in) =
    (Returned (Some ada_session), elapse 86399000 signed_in)
  /\ @getSession demo_platform (elapse 86400000 signed_in) =
       (Thrown (JOSE JWTExpired), elapse 86400000 signed_in).
Proof.
  split.
  - apply (@session_lasts_one_day demo_platform ada_data anonymous 86399000);
      unfold ONE_DAY_MS; lia.
  - apply (@session_lasts_one_day demo_platform ada_data anonymous 86400000).
    unfold ONE_DAY_MS. lia.
Defined.

Lemma updateSession_after_expiry_throws_witness :
  @updateSession demo_platform carol_data (elapse 86400000 signed_in) =
    (Thrown (JOSE JWTExpired), elapse 86400000 signed_in).
Proof.
  apply (@updateSession_after_expiry_throws demo_platform ada_data carol_data
           anonymous 86400000).
  unfold ONE_DAY_MS. lia.
Defined.

Lemma refreshed_session_outlives_expires_witness :
  let w2 := snd (@updateSession demo_platform carol_data
                   (elapse 3600000 signed_in)) in
  clock (elapse (ONE_DAY_MS - 3600000 + 0) w2) = 1000000 + ONE_DAY_MS + 0
  /\ @getSession demo_platform (elapse (ONE_DAY_MS - 3600000 + 0) w2) =
       (Returned (Some {| userData := carol_data; expires := "87400000" |}),
        elapse (ONE_DAY_MS - 3600000 + 0) w2).
Proof.
  apply (@refreshed_session_outlives_expires demo_platform ada_data carol_data
           anonymous 3600000 0); unfold ONE_DAY_MS; lia.
Defined.

Lemma getUser_is_session_user_witness :
  @getUser demo_platform ghost = (Returned (Some ada_deleted), ghost)
  /\ User.deletedAt ada_deleted = Some 500
  /\ @getUser demo_platform anonymous = (Returned None, anonymous)
  /\ @getUser demo_platform tampered =
       (Thrown (JOSE JWSSignatureVerificationFailed), tampered)
  /\ (exists s, @getSession demo_platform ghost = (Returned (Some s), ghost)
                /\ User.id ada_deleted = userId s
                /\ In ada_deleted (users (db ghost))).
Proof.
  split; [|split; [reflexivity|split; [|split]]].
  - destruct (@getUser_is_session_user demo_platform ghost)
      as (_ & _ & _ & Hfound & _).
    apply (Hfound ada_session ada_deleted);
      [reflexivity|discriminate|reflexivity].
  - destruct (@getUser_is_session_user demo_platform anonymous)
      as (Hnone & _).
    apply Hnone. reflexivity.
  - destruct (@getUser_is_session_user demo_platform tampered)
      as (_ & _ & _ & _ & _ & Hthrow).
    apply Hthrow. reflexivity.
  - destruct (@getUser_is_session_user demo_platform ghost)
      as (_ & _ & Hsound & _).
    apply (Hsound ada_deleted ghost). reflexivity.
Defined.

Lemma signOut_after_expiry_keeps_cookie_witness :
  @signOut demo_platform (elapse 86400000 signed_in) =
    (Thrown (JOSE JWTExpired), elapse 86400000 signed_in)
  /\ is_Some (cookies (elapse 86400000 signed_in) !! "session").
Proof.
  apply (@signOut_after_expiry_keeps_cookie demo_platform ada_data anonymous
           86400000).
  unfold ONE_DAY_MS. lia.
Defined.

Lemma signIn_bad_credentials_witness :
  @signIn demo_platform demo_billing no_state wrong_form anonymous =
    (Returned {| error := Some "Invalid email or password. Please try again."%string;
                 success := None |}, anonymous)
  /\ @signIn demo_platform demo_billing no_state unknown_form anonymous =
       (Returned {| error := Some "Invalid email or password. Please try again."%string;
                    success := None |}, anonymous).
Proof.
  split.
  - apply (@signIn_bad_credentials demo_platform demo_billing no_state
             wrong_form anonymous
             {| signIn_email := "ada@example.com";
                signIn_password := "wrong horse" |}).
    + vm_compute. reflexivity.
    + right. exists ada, [(ada_in_acme, acme)], "$"%char, "2a$correct horse"%string.
      repeat split.
  - apply (@signIn_bad_credentials demo_platform demo_billing no_state
             unknown_form anonymous
             {| signIn_email := "eve@example.com";
                signIn_password := "correct horse" |}).
    + vm_compute. reflexivity.
    + left. reflexivity.
Defined.

Lemma signIn_from_anonymous_request_witness :
  exists w',
    @signIn demo_platform demo_billing no_state good_form anonymous =
      (Redirected "/dashboard", w')
    /\ @getSession demo_platform w' = (Returned (Some ada_session), w')
    /\ db w' = db anonymous
    /\ console w' = ["No session data."%string].
Proof.
  apply (@signIn_from_anonymous_request demo_platform demo_billing no_state
           good_form anonymous
           {| signIn_email := "ada@example.com";
              signIn_password := "correct horse" |}
           ada ada_in_acme acme [] "$"%char "2a$correct horse"%string).
  - vm_compute. reflexivity.
  - reflexivity.
  - reflexivity.
  - reflexivity.
  - reflexivity.
  - discriminate.
Defined.

Lemma signIn_logs_the_earlier_session_witness :
  exists w' row,
    @signIn demo_platform demo_billing no_state carol_form shared_browser =
      (Redirected "/dashboard", w')
    /\ activityLogs (db w') = activityLogs (db shared_browser) ++ [row]
    /\ ActivityLog.action row = EMAIL_SIGN_IN
    /\ ActivityLog.userId row = Some "u1"%string
    /\ ActivityLog.teamId row = "t1"%string
    /\ @getSession demo_platform w' =
         (Returned
            (Some {| userData := {| userId := "u2"; teamId := "t2";
                                    userRole := MEMBER |};
                     expires := "87400000" |}), w').
Proof.
  apply (@signIn_logs_the_earlier_session demo_platform demo_billing no_state
           carol_form shared_browser
           {| signIn_email := "carol@example.com";
              signIn_password := "tr0ub4dor&3" |}
           carol carol_in_carol_co carol_co [] "$"%char "2a$tr0ub4dor&3"%string
           ada_session).
  - vm_compute. reflexivity.
  - reflexivity.
  - reflexivity.
  - reflexivity.
  - reflexivity.
  - reflexivity.
  - reflexivity.
  - discriminate.
Defined.

Lemma signIn_without_membership_throws_witness :
  @signIn demo_platform demo_billing no_state good_form loner =
    (Thrown (TypeError
       "Cannot read properties of undefined (reading 'teamId')"), loner).
Proof.
  apply (@signIn_without_membership_throws demo_platform demo_billing no_state
           good_form loner
           {| signIn_email := "ada@example.com";
              signIn_password := "correct horse" |}
           ada "$"%char "2a$correct horse"%string).
  - vm_compute. reflexivity.
  - reflexivity.
  - reflexivity.
  - reflexivity.
Defined.

Lemma signUp_without_invitation_witness :
  (exists w' user team member row,
      @signUp demo_platform demo_billing no_state lone_form anonymous =
        (Redirected "/dashboard", w')
      /\ users (db w') = users (db anonymous) ++ [user]
      /\ teams (db w') = teams (db anonymous) ++ [team]
      /\ teamMembers (db w') = teamMembers (db anonymous) ++ [member]
      /\ activityLogs (db w') = activityLogs (db anonymous) ++ [row]
      /\ invitations (db w') = invitations (db anonymous)
      /\ User.email user = "erin@example.com"%string
      /\ User.passwordHash user = Some "$2a$hunter2hunter2"%string
      /\ Team.name team = "Personal Account"%string
      /\ TeamMember.userId member = User.id user
      /\ TeamMember.teamId member = Team.id team
      /\ TeamMember.role member = ADMIN
      /\ ActivityLog.action row = EMAIL_SIGN_UP
      /\ ActivityLog.userId row = Some (User.id user)
      /\ ActivityLog.teamId row = Team.id team
      /\ @getSession demo_platform w' =
           (Returned (Some (@signUp_session demo_platform user team 1000000)),
            w'))
  /\ @signUp demo_platform demo_billing no_state long_signUp_form anonymous =
       (Thrown (PrismaError "P2000"), next_id anonymous).
Proof.
  split.
  - destruct (@signUp_without_invitation demo_platform demo_billing no_state
                lone_form anonymous lone_data) as [Hshort _].
    + vm_compute. reflexivity.
    + left. reflexivity.
    + reflexivity.
    + reflexivity.
    + discriminate.
    + apply Hshort. vm_compute. lia.
  - destruct (@signUp_without_invitation demo_platform demo_billing no_state
                long_signUp_form anonymous long_signUp_data) as [_ Hlong].
    + vm_compute. reflexivity.
    + left. reflexivity.
    + reflexivity.
    + reflexivity.
    + discriminate.
    + apply Hlong. vm_compute. lia.
Defined.

Lemma signUp_unknown_invitation_keeps_user_witness :
  exists w' user,
    @signUp demo_platform demo_billing no_state stale_invite_form anonymous =
      (Returned {| error := Some "Invalid or expired invitation."%string;
                   success := None |}, w')
    /\ users (db w') = users (db anonymous) ++ [user]
    /\ User.email user = "erin@example.com"%string
    /\ User.deletedAt user = None
    /\ teams (db w') = teams (db anonymous)
    /\ teamMembers (db w') = teamMembers (db anonymous)
    /\ cookies w' = cookies anonymous
    /\ @signUp demo_platform demo_billing no_state stale_invite_form w' =
         (Returned
            {| error := Some "Failed to create user. User already exists."%string;
               success := None |}, w').
Proof.
  apply (@signUp_unknown_invitation_keeps_user demo_platform demo_billing
           no_state stale_invite_form anonymous
           {| signUp_email := "erin@example.com";
              signUp_password := "hunter2hunter2";
              signUp_inviteId := Some "i1"%string |}
           "i"%char "1"%string).
  - vm_compute. reflexivity.
  - reflexivity.
  - reflexivity.
  - vm_compute. lia.
  - reflexivity.
Defined.

Lemma updatePassword_changes_hash_witness :
  exists w' row,
    @updatePassword demo_platform no_state new_password_form signed_in =
      (Returned {| error := None;
                   success := Some "Password updated successfully."%string |},
       w')
    /\ users (db w') =
         [{| User.id := "u1"; User.name := Some "Ada"%string;
             User.email := "ada@example.com";
             User.passwordHash := Some "$2a$battery staple"%string;
             User.createdAt := 0; User.deletedAt := None |}]
    /\ activityLogs (db w') = activityLogs (db signed_in) ++ [row]
    /\ ActivityLog.action row = UPDATE_PASSWORD
    /\ ActivityLog.userId row = Some "u1"%string
    /\ cookies w' = cookies signed_in.
Proof.
  apply (@updatePassword_changes_hash demo_platform no_state new_password_form
           signed_in ada_session ada new_password_data
           "$"%char "2a$correct horse"%string).
  - reflexivity.
  - reflexivity.
  - vm_compute. reflexivity.
  - reflexivity.
  - reflexivity.
  - discriminate.
  - reflexivity.
Defined.

Lemma updatePassword_needs_current_password_witness :
  exists s user data stored,
    @getSession demo_platform signed_in = (Returned (Some s), signed_in)
    /\ @user_findFirst (only_id (userId s)) signed_in =
         (Returned (Some user), signed_in)
    /\ @updatePasswordSchema demo_platform (Object_fromEntries new_password_form)
         = ParseSuccess data
    /\ User.passwordHash user = Some stored
    /\ @bcrypt_compare demo_platform (currentPassword data) stored = true
    /\ newPassword data = confirmPassword data
    /\ currentPassword data <> newPassword data.
Proof.
  apply (@updatePassword_needs_current_password demo_platform no_state
           new_password_form signed_in).
  vm_compute. discriminate.
Defined.

Lemma deleteAccount_soft_deletes_witness :
  (exists w' row,
      @deleteAccount demo_platform no_state password_form signed_in =
        (Redirected "/sign-in", w')
      /\ users (db w') =
           [{| User.id := "u1"; User.name := Some "Ada"%string;
               User.email := "ada@example.com-deleted";
               User.passwordHash := Some "$2a$correct horse"%string;
               User.createdAt := 0; User.deletedAt := Some 1000000 |}]
      /\ @user_findFirst (only_id "u1") w' =
           (Returned
              (Some {| User.id := "u1"; User.name := Some "Ada"%string;
                       User.email := "ada@example.com-deleted";
                       User.passwordHash := Some "$2a$correct horse"%string;
                       User.createdAt := 0; User.deletedAt := Some 1000000 |}),
            w')
      /\ activityLogs (db w') = activityLogs (db signed_in) ++ [row]
      /\ ActivityLog.action row = DELETE_ACCOUNT
      /\ ActivityLog.userId row = Some "u1"%string
      /\ @getSession demo_platform w' = (Returned None, w'))
  /\ (exists w' row,
        @deleteAccount demo_platform no_state password_form wanda_signed_in =
          (Thrown (PrismaError "P2000"), w')
        /\ users (db w') = [ada; wanda]
        /\ @getSession demo_platform w' = (Returned (Some wanda_session), w')
        /\ activityLogs (db w') = activityLogs (db wanda_signed_in) ++ [row]
        /\ ActivityLog.action row = DELETE_ACCOUNT).
Proof.
  split.
  - destruct (@deleteAccount_soft_deletes demo_platform no_state password_form
                signed_in ada_session ada
                {| deleteAccount_password := "correct horse" |}
                "$"%char "2a$correct horse"%string) as [Hshort _].
    + reflexivity.
    + reflexivity.
    + vm_compute. reflexivity.
    + reflexivity.
    + reflexivity.
    + reflexivity.
    + apply Hshort; [vm_compute; lia|reflexivity].
  - destruct (@deleteAccount_soft_deletes demo_platform no_state password_form
                wanda_signed_in wanda_session wanda
                {| deleteAccount_password := "correct horse" |}
                "$"%char "2a$correct horse"%string) as [_ Hlong].
    + reflexivity.
    + reflexivity.
    + vm_compute. reflexivity.
    + reflexivity.
    + reflexivity.
    + reflexivity.
    + apply Hlong. vm_compute. lia.
Defined.

Lemma deleted_account_cannot_sign_in_witness :
  exists w',
    @deleteAccount demo_platform no_state password_form signed_in =
      (Redirected "/sign-in", w')
    /\ @signIn demo_platform demo_billing no_state good_form w' =
         (Returned
            {| error := Some "Invalid email or password. Please try again."%string;
               success := None |}, w').
Proof.
  destruct (@deleted_account_cannot_sign_in demo_platform demo_billing no_state
              password_form signed_in ada_session ada
              {| deleteAccount_password := "correct horse" |}
              "$"%char "2a$correct horse"%string)
    as (w' & Hrun & Hrefused).
  - reflexivity.
  - reflexivity.
  - vm_compute. reflexivity.
  - reflexivity.
  - reflexivity.
  - reflexivity.
  - vm_compute. lia.
  - reflexivity.
  - intros o [Ho|[]] _. subst o. reflexivity.
  - exists w'. split; [exact Hrun|].
    apply (Hrefused no_state good_form
             {| signIn_email := "ada@example.com";
                signIn_password := "correct horse" |}).
    + vm_compute. reflexivity.
    + reflexivity.
Defined.

Lemma deleteAccount_blocked_by_earlier_deletion_witness :
  exists w' row,
    @deleteAccount demo_platform no_state password_form registered_again =
      (Thrown (PrismaError "P2002"), w')
    /\ users (db w') = [ada_deleted; ada_again]
    /\ cookies w' = cookies registered_again
    /\ @getSession demo_platform w' = (Returned (Some ada_again_session), w')
    /\ activityLogs (db w') = activityLogs (db registered_again) ++ [row]
    /\ ActivityLog.action row = DELETE_ACCOUNT.
Proof.
  apply (@deleteAccount_blocked_by_earlier_deletion demo_platform no_state
           password_form registered_again ada_again_session ada_again
           {| deleteAccount_password := "correct horse" |}
           "$"%char "2a$correct horse"%string).
  - reflexivity.
  - reflexivity.
  - reflexivity.
  - vm_compute. reflexivity.
  - reflexivity.
  - reflexivity.
  - reflexivity.
  - reflexivity.
Defined.

Lemma updateAccount_refuses_own_address_witness :
  @updateAccount demo_platform no_state same_address_form signed_in =
    (Returned
       {| error := Some "Failed to update account. Email already in use."%string;
          success := None |}, signed_in).
Proof.
  apply (@updateAccount_refuses_own_address demo_platform no_state
           same_address_form signed_in ada_session ada
           {| updateAccount_name := "Ada Lovelace";
              updateAccount_email := "ada@example.com" |}).
  - reflexivity.
  - reflexivity.
  - vm_compute. reflexivity.
  - reflexivity.
  - reflexivity.
Defined.

Lemma updateAccount_changes_profile_witness :
  (exists w' row,
      @updateAccount demo_platform no_state new_address_form signed_in =
        (Returned {| error := None;
                     success := Some "Account updated successfully."%string |},
         w')
      /\ users (db w') =
           [{| User.id := "u1"; User.name := Some "Ada Lovelace"%string;
               User.email := "ada@lovelace.example";
               User.passwordHash := Some "$2a$correct horse"%string;
               User.createdAt := 0; User.deletedAt := None |}]
      /\ activityLogs (db w') = activityLogs (db signed_in) ++ [row]
      /\ ActivityLog.action row = UPDATE_ACCOUNT
      /\ ActivityLog.userId row = Some "u1"%string
      /\ cookies w' = cookies signed_in)
  /\ (exists w',
        @updateAccount demo_platform no_state long_account_form signed_in =
          (Thrown (PrismaError "P2000"), w')
        /\ users (db w') = [ada]
        /\ cookies w' = cookies signed_in).
Proof.
  split.
  - destruct (@updateAccount_changes_profile demo_platform no_state
                new_address_form signed_in ada_session ada
                {| updateAccount_name := "Ada Lovelace";
                   updateAccount_email := "ada@lovelace.example" |})
      as [Hshort _].
    + reflexivity.
    + reflexivity.
    + vm_compute. reflexivity.
    + reflexivity.
    + reflexivity.
    + apply Hshort. vm_compute. lia.
  - destruct (@updateAccount_changes_profile demo_platform no_state
                long_account_form signed_in ada_session ada
                long_account_data) as [_ Hlong].
    + reflexivity.
    + reflexivity.
    + vm_compute. reflexivity.
    + reflexivity.
    + reflexivity.
    + apply Hlong. vm_compute. lia.
Defined.

Lemma removeTeamMember_removes_from_session_team_witness :
  teamMembers
    (db (snd (@removeTeamMember demo_platform no_state remove_ada_form
                carol_signed_in))) = [carol_in_acme]
  /\ fst (@removeTeamMember demo_platform no_state remove_ada_form
            carol_signed_in) =
       Returned {| error := None;
                   success := Some "Team member removed successfully"%string |}.
Proof.
  destruct (@removeTeamMember_removes_from_session_team demo_platform no_state
              remove_ada_form carol_signed_in {| memberId := "u1" |}
              carol_session "t"%char "1"%string) as (Hmembers & _).
  - vm_compute. reflexivity.
  - reflexivity.
  - reflexivity.
  - split; [exact Hmembers|reflexivity].
Defined.

Lemma inviteTeamMember_invites_once_witness :
  (exists w',
      @inviteTeamMember demo_platform no_state invite_dave_form
        carol_signed_in =
        (Returned {| error := None;
                     success := Some "Invitation sent successfully"%string |},
         w')
      /\ invitations (db w') =
           [{| Invitation.id := "c7"; Invitation.teamId := "t1";
               Invitation.invitedBy := "u2";
               Invitation.email := "dave@example.com";
               Invitation.role := ADMIN; Invitation.status := PENDING;
               Invitation.createdAt := 1000000 |}]
      /\ (exists row,
            activityLogs (db w') = activityLogs (db carol_signed_in) ++ [row]
            /\ ActivityLog.action row = INVITE_TEAM_MEMBER)
      /\ @inviteTeamMember demo_platform no_state invite_dave_form w' =
           (Returned
              {| error := Some "An invitation has already been sent to this email"%string;
                 success := None |}, w'))
  /\ @inviteTeamMember demo_platform no_state long_invite_form
       carol_signed_in =
       (Thrown (PrismaError "P2000"), next_id carol_signed_in).
Proof.
  split.
  - destruct (@inviteTeamMember_invites_once demo_platform no_state
                invite_dave_form carol_signed_in invite_dave carol_session
                "t"%char "1"%string) as [Hshort _].
    + vm_compute. reflexivity.
    + reflexivity.
    + reflexivity.
    + reflexivity.
    + reflexivity.
    + reflexivity.
    + reflexivity.
    + apply Hshort. vm_compute. lia.
  - destruct (@inviteTeamMember_invites_once demo_platform no_state
                long_invite_form carol_signed_in long_invite carol_session
                "t"%char "1"%string) as [_ Hlong].
    + vm_compute. reflexivity.
    + reflexivity.
    + reflexivity.
    + reflexivity.
    + reflexivity.
    + reflexivity.
    + reflexivity.
    + apply Hlong. vm_compute. lia.
Defined.

Lemma invitation_is_used_once_witness :
  invitations
    (db (snd (@signUp demo_platform demo_billing no_state bob_form anonymous)))
    = [{| Invitation.id := "i1"; Invitation.teamId := "t1";
          Invitation.invitedBy := "u1"; Invitation.email := "bob@example.com";
          Invitation.role := MEMBER; Invitation.status := ACCEPTED;
          Invitation.createdAt := 10 |}]
  /\ @invitation_findFirst_with_team
       {| iwhere_id := Some "i1"%string;
          iwhere_email := Some "bob@example.com"%string;
          iwhere_status := Some PENDING |}
       (snd (@signUp demo_platform demo_billing no_state bob_form anonymous))
     = (Returned None,
        snd (@signUp demo_platform demo_billing no_state bob_form anonymous)).
Proof.
  apply (@invitation_is_used_once demo_platform demo_billing no_state bob_form
           anonymous
           {| signUp_email := "bob@example.com";
              signUp_password := "hunter2hunter2";
              signUp_inviteId := Some "i1"%string |}
           "i"%char "1"%string invite_bob acme).
  - reflexivity.
  - vm_compute. reflexivity.
  - reflexivity.
  - reflexivity.
  - reflexivity.
Defined.

Lemma invited_member_gets_invited_role_witness :
  exists r3 w3 member session,
    @signUp demo_platform demo_billing no_state dave_form dave_arrives =
      (r3, w3)
    /\ teamMembers (db w3) = teamMembers (db carol_signed_in) ++ [member]
    /\ TeamMember.userId member = "c9"%string
    /\ TeamMember.teamId member = "t1"%string
    /\ TeamMember.role member = ADMIN
    /\ @getSession demo_platform w3 = (Returned (Some session), w3)
    /\ userId session = "c9"%string
    /\ teamId session = "t1"%string
    /\ userRole session = ADMIN.
Proof.
  apply (@invited_member_gets_invited_role demo_platform demo_billing no_state
           invite_dave_form carol_signed_in invite_dave carol_session
           "t"%char "1"%string acme no_state dave_form dave_arrives
           {| signUp_email := "dave@example.com";
              signUp_password := "hunter2hunter2";
              signUp_inviteId := Some "c7"%string |}
           "c"%char "7"%string).
  - vm_compute. reflexivity.
  - reflexivity.
  - reflexivity.
  - reflexivity.
  - reflexivity.
  - reflexivity.
  - reflexivity.
  - reflexivity.
  - intros i [].
  - reflexivity.
  - vm_compute. reflexivity.
  - reflexivity.
  - reflexivity.
  - reflexivity.
  - vm_compute. lia.
Defined.
